(** * FinalPrisma: order, stock, pricing and soft-delete rules

    A shallow embedding of the service layer of the e-commerce backend
    (TypeScript over the Prisma ORM) and the proofs of its business rules.

    - Tables are lists of rows in insertion order; a row is a record with
      the columns of [schema.prisma] that the services read or write.
    - A service method is a computation in the monad [M]: it threads the
      database, may throw, and its writes stay in place when a later
      statement throws, unless they ran inside [transaccion].
    - [Int] columns are [Z]; [Float] columns and JavaScript numbers used as
      prices are an abstract type [num] with the operations of the class
      [Numero], so that every statement holds for any arithmetic with those
      operations; the worked examples run on IEEE 754 doubles, which is
      what a JavaScript number is.
    - A [Date] is its epoch time in milliseconds. *)

From Stdlib Require Import ZArith List Bool String Lia DecimalString Floats.
From Stdlib Require Import Permutation Sorted.
Import ListNotations.
Open Scope Z_scope.

(** ** Numbers *)

(** The arithmetic the services perform on prices: [+], [-], [*], [<],
    [<=], the literals [0] and [1], and the use of an [Int] column where a
    number is expected. *)
Class Numero (num : Type) : Type := {
  ncero : num;
  nuno : num;
  nsuma : num -> num -> num;
  nresta : num -> num -> num;
  nmult : num -> num -> num;
  nmenor : num -> num -> bool;
  nmenorIg : num -> num -> bool;
  deEntero : Z -> num
}.

(** The laws the proofs use: [<] is irreflexive and transitive. *)
Class NumeroOrden (num : Type) {N : Numero num} : Prop := {
  nmenor_irrefl : forall a : num, nmenor a a = false;
  nmenor_trans : forall a b c : num,
    nmenor a b = true -> nmenor b c = true -> nmenor a c = true
}.

(** An [Int] read as a JavaScript number: exact below [2^53] in absolute
    value, which the 32-bit columns of the schema are. *)
Definition dobleDeEntero (z : Z) : float :=
  match z with
  | Z0 => 0%float
  | Zpos p => PrimFloat.of_uint63 (Uint63.of_Z (Zpos p))
  | Zneg p => PrimFloat.opp (PrimFloat.of_uint63 (Uint63.of_Z (Zpos p)))
  end.

(** JavaScript numbers. *)
#[global] Instance Numero_doble : Numero float := {|
  ncero := 0%float;
  nuno := 1%float;
  nsuma := PrimFloat.add;
  nresta := PrimFloat.sub;
  nmult := PrimFloat.mul;
  nmenor := PrimFloat.ltb;
  nmenorIg := PrimFloat.leb;
  deEntero := dobleDeEntero
|}.

(** ** Enumerations of the schema *)

Inductive Color : Set :=
| AZUL | BLANCO | CELESTE | NEGRO | VERDE | MULTICOLOR
| ROJO | ROSA | MARRON | AMARILLO | VIOLETA | GRIS.

Inductive Rol : Set := ADMIN | CLIENTE.

Inductive Sexo : Set := FEMENINO | MASCULINO | UNISEX_CHILD | UNISEX | OTRO.

Inductive Talle : Set :=
| XS | S_ | M_ | L_ | XL | XXL
| TALLE_25 | TALLE_26 | TALLE_27 | TALLE_28 | TALLE_29 | TALLE_30
| TALLE_31 | TALLE_32 | TALLE_33 | TALLE_34 | TALLE_35 | TALLE_36
| TALLE_37 | TALLE_38 | TALLE_39 | TALLE_40 | TALLE_41 | TALLE_42
| TALLE_43 | TALLE_44 | TALLE_45 | TALLE_46 | TALLE_47 | TALLE_48
| TALLE_49 | TALLE_50 | TALLE_51 | TALLE_52.

Scheme Equality for Color.
Scheme Equality for Rol.
Scheme Equality for Sexo.
Scheme Equality for Talle.

(** ** Entities

    One module per model of [schema.prisma].  Every model has the columns
    [id] and [activo]. *)

Class Entidad (R : Type) : Type := {
  ent_id : R -> Z;
  ent_activo : R -> bool
}.

Module Categoria.
Record t : Type := mk {
  id : Z;
  activo : bool;
  denominacion : string;
  categoriaPadreId : option Z
}.
Definition conActivo (a : bool) (r : t) : t :=
  {| id := id r; activo := a; denominacion := denominacion r;
     categoriaPadreId := categoriaPadreId r |}.
End Categoria.

Module Descuento.
Record t (num : Type) : Type := mk {
  id : Z;
  activo : bool;
  denominacion : string;
  fechaDesde : Z;
  fechaHasta : Z;
  horaDesde : Z;
  horaHasta : Z;
  descripcionDescuento : option string;
  precioPromocional : num
}.
Arguments mk {num}.
Arguments id {num}.
Arguments activo {num}.
Arguments denominacion {num}.
Arguments fechaDesde {num}.
Arguments fechaHasta {num}.
Arguments horaDesde {num}.
Arguments horaHasta {num}.
Arguments descripcionDescuento {num}.
Arguments precioPromocional {num}.
Definition conActivo {num : Type} (a : bool) (r : t num) : t num :=
  {| id := id r; activo := a; denominacion := denominacion r;
     fechaDesde := fechaDesde r; fechaHasta := fechaHasta r;
     horaDesde := horaDesde r; horaHasta := horaHasta r;
     descripcionDescuento := descripcionDescuento r;
     precioPromocional := precioPromocional r |}.
End Descuento.

Module Direccion.
Record t : Type := mk {
  id : Z;
  activo : bool;
  calle : string;
  numero : Z;
  piso : option string;
  departamento : option string;
  cp : Z;
  localidadId : Z;
  usuarioId : option Z
}.
Definition conActivo (a : bool) (r : t) : t :=
  {| id := id r; activo := a; calle := calle r; numero := numero r;
     piso := piso r; departamento := departamento r; cp := cp r;
     localidadId := localidadId r; usuarioId := usuarioId r |}.
End Direccion.

Module Imagen.
Record t : Type := mk {
  id : Z;
  activo : bool;
  denominacion : string;
  productoId : option Z
}.
Definition conActivo (a : bool) (r : t) : t :=
  {| id := id r; activo := a; denominacion := denominacion r;
     productoId := productoId r |}.
End Imagen.

Module Localidad.
Record t : Type := mk {
  id : Z;
  activo : bool;
  nombre : string;
  provinciaId : Z
}.
Definition conActivo (a : bool) (r : t) : t :=
  {| id := id r; activo := a; nombre := nombre r;
     provinciaId := provinciaId r |}.
End Localidad.

Module OrdenCompra.
(** [usuarioId] is [None] for a row written without a user: [OrderService.crear]
    connects none. *)
Record t (num : Type) : Type := mk {
  id : Z;
  activo : bool;
  total : num;
  fechaCompra : Z;
  direccionEnvio : string;
  usuarioId : option Z
}.
Arguments mk {num}.
Arguments id {num}.
Arguments activo {num}.
Arguments total {num}.
Arguments fechaCompra {num}.
Arguments direccionEnvio {num}.
Arguments usuarioId {num}.
Definition conActivo {num : Type} (a : bool) (r : t num) : t num :=
  {| id := id r; activo := a; total := total r;
     fechaCompra := fechaCompra r; direccionEnvio := direccionEnvio r;
     usuarioId := usuarioId r |}.
End OrdenCompra.

Module OrdenCompraDetalle.
Record t (num : Type) : Type := mk {
  id : Z;
  activo : bool;
  cantidad : Z;
  subtotal : num;
  ordenCompraId : Z;
  productoDetalleId : Z
}.
Arguments mk {num}.
Arguments id {num}.
Arguments activo {num}.
Arguments cantidad {num}.
Arguments subtotal {num}.
Arguments ordenCompraId {num}.
Arguments productoDetalleId {num}.
Definition conActivo {num : Type} (a : bool) (r : t num) : t num :=
  {| id := id r; activo := a; cantidad := cantidad r;
     subtotal := subtotal r; ordenCompraId := ordenCompraId r;
     productoDetalleId := productoDetalleId r |}.
Definition conCantidad {num : Type} (c : Z) (s : num) (r : t num) : t num :=
  {| id := id r; activo := activo r; cantidad := c;
     subtotal := s; ordenCompraId := ordenCompraId r;
     productoDetalleId := productoDetalleId r |}.
End OrdenCompraDetalle.

Module Producto.
Record t (num : Type) : Type := mk {
  id : Z;
  activo : bool;
  denominacion : string;
  precioVenta : num;
  sexo : Sexo;
  tienePromocion : bool
}.
Arguments mk {num}.
Arguments id {num}.
Arguments activo {num}.
Arguments denominacion {num}.
Arguments precioVenta {num}.
Arguments sexo {num}.
Arguments tienePromocion {num}.
Definition conActivo {num : Type} (a : bool) (r : t num) : t num :=
  {| id := id r; activo := a; denominacion := denominacion r;
     precioVenta := precioVenta r; sexo := sexo r;
     tienePromocion := tienePromocion r |}.
End Producto.

Module ProductoDetalle.
Record t (num : Type) : Type := mk {
  id : Z;
  activo : bool;
  precioCompra : num;
  stockActual : Z;
  cantidad : Z;
  stockMaximo : Z;
  color : Color;
  talle : Talle;
  productoId : Z
}.
Arguments mk {num}.
Arguments id {num}.
Arguments activo {num}.
Arguments precioCompra {num}.
Arguments stockActual {num}.
Arguments cantidad {num}.
Arguments stockMaximo {num}.
Arguments color {num}.
Arguments talle {num}.
Arguments productoId {num}.
Definition conActivo {num : Type} (a : bool) (r : t num) : t num :=
  {| id := id r; activo := a; precioCompra := precioCompra r;
     stockActual := stockActual r; cantidad := cantidad r;
     stockMaximo := stockMaximo r; color := color r; talle := talle r;
     productoId := productoId r |}.
Definition conStockActual {num : Type} (s : Z) (r : t num) : t num :=
  {| id := id r; activo := activo r; precioCompra := precioCompra r;
     stockActual := s; cantidad := cantidad r;
     stockMaximo := stockMaximo r; color := color r; talle := talle r;
     productoId := productoId r |}.
End ProductoDetalle.

Module Provincia.
Record t : Type := mk {
  id : Z;
  activo : bool;
  nombre : string
}.
Definition conActivo (a : bool) (r : t) : t :=
  {| id := id r; activo := a; nombre := nombre r |}.
End Provincia.

Module Usuario.
Record t : Type := mk {
  id : Z;
  activo : bool;
  auth0Id : option string;
  userName : option string;
  nombre : string;
  apellido : string;
  email : string;
  dni : option Z;
  sexo : option Sexo;
  fechaNacimiento : option Z;
  telefono : option string;
  rol : Rol;
  imagenId : option Z;
  password : string;
  fechaCreacion : Z;
  fechaModificacion : Z;
  fechaBaja : option Z
}.
(** The columns written by [deactivateAccount] and [reactivateAccount]. *)
Definition conCuenta (a : bool) (e : string) (u : option string)
  (baja : option Z) (modificacion : Z) (r : t) : t :=
  {| id := id r; activo := a; auth0Id := auth0Id r; userName := u;
     nombre := nombre r; apellido := apellido r; email := e;
     dni := dni r; sexo := sexo r; fechaNacimiento := fechaNacimiento r;
     telefono := telefono r; rol := rol r; imagenId := imagenId r;
     password := password r; fechaCreacion := fechaCreacion r;
     fechaModificacion := modificacion; fechaBaja := baja |}.
End Usuario.

#[global] Instance Entidad_Categoria : Entidad Categoria.t :=
  {| ent_id := Categoria.id; ent_activo := Categoria.activo |}.
#[global] Instance Entidad_Descuento {num : Type} : Entidad (Descuento.t num) :=
  {| ent_id := Descuento.id; ent_activo := Descuento.activo |}.
#[global] Instance Entidad_Direccion : Entidad Direccion.t :=
  {| ent_id := Direccion.id; ent_activo := Direccion.activo |}.
#[global] Instance Entidad_Imagen : Entidad Imagen.t :=
  {| ent_id := Imagen.id; ent_activo := Imagen.activo |}.
#[global] Instance Entidad_Localidad : Entidad Localidad.t :=
  {| ent_id := Localidad.id; ent_activo := Localidad.activo |}.
#[global] Instance Entidad_OrdenCompra {num : Type} : Entidad (OrdenCompra.t num) :=
  {| ent_id := OrdenCompra.id; ent_activo := OrdenCompra.activo |}.
#[global] Instance Entidad_OrdenCompraDetalle {num : Type} :
  Entidad (OrdenCompraDetalle.t num) :=
  {| ent_id := OrdenCompraDetalle.id; ent_activo := OrdenCompraDetalle.activo |}.
#[global] Instance Entidad_Producto {num : Type} : Entidad (Producto.t num) :=
  {| ent_id := Producto.id; ent_activo := Producto.activo |}.
#[global] Instance Entidad_ProductoDetalle {num : Type} :
  Entidad (ProductoDetalle.t num) :=
  {| ent_id := ProductoDetalle.id; ent_activo := ProductoDetalle.activo |}.
#[global] Instance Entidad_Provincia : Entidad Provincia.t :=
  {| ent_id := Provincia.id; ent_activo := Provincia.activo |}.
#[global] Instance Entidad_Usuario : Entidad Usuario.t :=
  {| ent_id := Usuario.id; ent_activo := Usuario.activo |}.

(** ** The database *)

(** The tables of the schema, and the two implicit join tables of the
    many-to-many relations, as pairs (product id, other id). *)
Record BD (num : Type) : Type := mkBD {
  categorias : list Categoria.t;
  descuentos : list (Descuento.t num);
  direcciones : list Direccion.t;
  imagenes : list Imagen.t;
  localidades : list Localidad.t;
  ordenesCompra : list (OrdenCompra.t num);
  ordenCompraDetalles : list (OrdenCompraDetalle.t num);
  productos : list (Producto.t num);
  productoDetalles : list (ProductoDetalle.t num);
  provincias : list Provincia.t;
  usuarios : list Usuario.t;
  productoCategorias : list (Z * Z);
  productoDescuentos : list (Z * Z)
}.
Arguments mkBD {num}.
Arguments categorias {num}.
Arguments descuentos {num}.
Arguments direcciones {num}.
Arguments imagenes {num}.
Arguments localidades {num}.
Arguments ordenesCompra {num}.
Arguments ordenCompraDetalles {num}.
Arguments productos {num}.
Arguments productoDetalles {num}.
Arguments provincias {num}.
Arguments usuarios {num}.
Arguments productoCategorias {num}.
Arguments productoDescuentos {num}.

(** A table of the database: how to read it and how to replace it. *)
Record Tabla (num R : Type) : Type := mkTabla {
  filas : BD num -> list R;
  conFilas : list R -> BD num -> BD num
}.
Arguments mkTabla {num R}.
Arguments filas {num R}.
Arguments conFilas {num R}.

Section Tablas.
Context {num : Type}.

Definition categoria : Tabla num Categoria.t :=
  mkTabla categorias (fun t b =>
    mkBD t (descuentos b) (direcciones b) (imagenes b) (localidades b)
      (ordenesCompra b) (ordenCompraDetalles b) (productos b)
      (productoDetalles b) (provincias b) (usuarios b)
      (productoCategorias b) (productoDescuentos b)).

Definition descuento : Tabla num (Descuento.t num) :=
  mkTabla descuentos (fun t b =>
    mkBD (categorias b) t (direcciones b) (imagenes b) (localidades b)
      (ordenesCompra b) (ordenCompraDetalles b) (productos b)
      (productoDetalles b) (provincias b) (usuarios b)
      (productoCategorias b) (productoDescuentos b)).

Definition direccion : Tabla num Direccion.t :=
  mkTabla direcciones (fun t b =>
    mkBD (categorias b) (descuentos b) t (imagenes b) (localidades b)
      (ordenesCompra b) (ordenCompraDetalles b) (productos b)
      (productoDetalles b) (provincias b) (usuarios b)
      (productoCategorias b) (productoDescuentos b)).

Definition imagen : Tabla num Imagen.t :=
  mkTabla imagenes (fun t b =>
    mkBD (categorias b) (descuentos b) (direcciones b) t (localidades b)
      (ordenesCompra b) (ordenCompraDetalles b) (productos b)
      (productoDetalles b) (provincias b) (usuarios b)
      (productoCategorias b) (productoDescuentos b)).

Definition localidad : Tabla num Localidad.t :=
  mkTabla localidades (fun t b =>
    mkBD (categorias b) (descuentos b) (direcciones b) (imagenes b) t
      (ordenesCompra b) (ordenCompraDetalles b) (productos b)
      (productoDetalles b) (provincias b) (usuarios b)
      (productoCategorias b) (productoDescuentos b)).

Definition ordenCompra : Tabla num (OrdenCompra.t num) :=
  mkTabla ordenesCompra (fun t b =>
    mkBD (categorias b) (descuentos b) (direcciones b) (imagenes b)
      (localidades b) t (ordenCompraDetalles b) (productos b)
      (productoDetalles b) (provincias b) (usuarios b)
      (productoCategorias b) (productoDescuentos b)).

Definition ordenCompraDetalle : Tabla num (OrdenCompraDetalle.t num) :=
  mkTabla ordenCompraDetalles (fun t b =>
    mkBD (categorias b) (descuentos b) (direcciones b) (imagenes b)
      (localidades b) (ordenesCompra b) t (productos b)
      (productoDetalles b) (provincias b) (usuarios b)
      (productoCategorias b) (productoDescuentos b)).

Definition producto : Tabla num (Producto.t num) :=
  mkTabla productos (fun t b =>
    mkBD (categorias b) (descuentos b) (direcciones b) (imagenes b)
      (localidades b) (ordenesCompra b) (ordenCompraDetalles b) t
      (productoDetalles b) (provincias b) (usuarios b)
      (productoCategorias b) (productoDescuentos b)).

Definition productoDetalle : Tabla num (ProductoDetalle.t num) :=
  mkTabla productoDetalles (fun t b =>
    mkBD (categorias b) (descuentos b) (direcciones b) (imagenes b)
      (localidades b) (ordenesCompra b) (ordenCompraDetalles b)
      (productos b) t (provincias b) (usuarios b)
      (productoCategorias b) (productoDescuentos b)).

Definition provincia : Tabla num Provincia.t :=
  mkTabla provincias (fun t b =>
    mkBD (categorias b) (descuentos b) (direcciones b) (imagenes b)
      (localidades b) (ordenesCompra b) (ordenCompraDetalles b)
      (productos b) (productoDetalles b) t (usuarios b)
      (productoCategorias b) (productoDescuentos b)).

Definition usuario : Tabla num Usuario.t :=
  mkTabla usuarios (fun t b =>
    mkBD (categorias b) (descuentos b) (direcciones b) (imagenes b)
      (localidades b) (ordenesCompra b) (ordenCompraDetalles b)
      (productos b) (productoDetalles b) (provincias b) t
      (productoCategorias b) (productoDescuentos b)).

End Tablas.

(** ** Errors *)

(** One constructor per [throw] of the services, with the values the
    message interpolates. *)
Inductive Error : Type :=
| OrdenCompraNoEncontrada
| NoAutorizadoCrearDetalle
| DetalleProductoNoEncontrado
| StockInsuficienteProducto (disponible solicitado : Z)
| NoAutorizadoVerDetalle
| DetalleNoEncontradoONoActivo
| ProductoDetalleAsociadoNoEncontrado
| StockInsuficienteAumentar (disponible necesario : Z)
| DetalleNoEncontradoParaActualizar
| DetalleNoEncontradoOYaDesactivado
| DetalleNoEncontradoOYaActivo
| StockInsuficienteReactivar (disponible necesario : Z)
| NoAutorizadoVerDetallesOrden
| OrdenSinProductos
| ProductoDetalleNoEncontradoOInactivo (productoDetalleId : Z)
| StockInsuficienteOrden (productoDetalleId stockActual solicitado : Z)
| ErrorAlCrearOrden (causa : Error)
| UsuarioNoEncontrado (userId : Z)
| CuentaYaDesactivada
| CuentaYaActiva
| NuevoEmailEnUso
| NuevoUserNameEnUso
| UsuarioNoEncontradoOInactivo (userId : Z)
| DireccionNoEncontradaParaUsuario (direccionId userId : Z)
| LocalidadNoEncontradaOYaDesactivada
| LocalidadNoEncontradaOYaActiva
| ProvinciaNoEncontrada
| ProductoDetalleNoEncontradoOInactivoConId (productoDetalleId : Z)
| StockInsuficienteDetalle (productoDetalleId stockActual solicitado : Z)
| ErrorDeTipo
| ErrorDeValidacion
| RegistroNoEncontrado
| FalloBaseDeDatos.

Definition texto (z : Z) : string := NilZero.string_of_int (Z.to_int z).

(** [error.message]. [RegistroNoEncontrado] is the ORM's error P2025,
    [ErrorDeValidacion] its [PrismaClientValidationError], thrown for
    arguments the client does not accept before any statement is sent,
    [FalloBaseDeDatos] a statement the database refused and [ErrorDeTipo]
    the runtime's error on reading a field of [null]; their texts are not
    the services' and stand here as their codes. *)
Fixpoint mensaje (e : Error) : string :=
  match e with
  | OrdenCompraNoEncontrada => "Orden de compra no encontrada."
  | NoAutorizadoCrearDetalle =>
      "No autorizado para crear detalles en esta orden de compra."
  | DetalleProductoNoEncontrado => "Detalle de producto no encontrado."
  | StockInsuficienteProducto d s =>
      "Stock insuficiente para el producto: " ++ texto d
      ++ " disponibles, solicitado: " ++ texto s ++ "."
  | NoAutorizadoVerDetalle =>
      "No autorizado para ver este detalle de orden de compra."
  | DetalleNoEncontradoONoActivo =>
      "Detalle de orden no encontrado o no activo para actualizar."
  | ProductoDetalleAsociadoNoEncontrado =>
      "Producto detalle asociado no encontrado para verificar stock."
  | StockInsuficienteAumentar d n =>
      "Stock insuficiente para aumentar la cantidad. Disponible: " ++ texto d
      ++ ", Necesario: " ++ texto n ++ "."
  | DetalleNoEncontradoParaActualizar =>
      "Detalle de orden no encontrado para actualizar."
  | DetalleNoEncontradoOYaDesactivado =>
      "Detalle de orden no encontrado o ya desactivado."
  | DetalleNoEncontradoOYaActivo =>
      "Detalle de orden no encontrado o ya está activo."
  | StockInsuficienteReactivar d n =>
      "Stock insuficiente para reactivar el detalle de orden. Disponible: "
      ++ texto d ++ ", Necesario: " ++ texto n ++ "."
  | NoAutorizadoVerDetallesOrden =>
      "No autorizado para ver detalles de esta orden de compra."
  | OrdenSinProductos => "La orden debe tener al menos un producto."
  | ProductoDetalleNoEncontradoOInactivo i =>
      "ProductoDetalle con ID " ++ texto i ++ " no encontrado o inactivo."
  | StockInsuficienteOrden i s c =>
      "Stock insuficiente para ProductoDetalle ID " ++ texto i
      ++ ". Stock actual: " ++ texto s ++ ", solicitado: " ++ texto c
  | ErrorAlCrearOrden causa =>
      "Error al crear la orden de compra: " ++ mensaje causa
  | UsuarioNoEncontrado u => "Usuario con ID " ++ texto u ++ " no encontrado."
  | CuentaYaDesactivada => "La cuenta ya está desactivada."
  | CuentaYaActiva => "La cuenta ya está activa."
  | NuevoEmailEnUso => "El nuevo email ya está en uso por otra cuenta activa."
  | NuevoUserNameEnUso =>
      "El nuevo nombre de usuario ya está en uso por otra cuenta activa."
  | UsuarioNoEncontradoOInactivo u =>
      "Usuario con ID " ++ texto u ++ " no encontrado o inactivo."
  | DireccionNoEncontradaParaUsuario d u =>
      "Dirección con ID " ++ texto d ++ " no encontrada para el usuario "
      ++ texto u ++ "."
  | LocalidadNoEncontradaOYaDesactivada =>
      "Localidad no encontrada o ya desactivada."
  | LocalidadNoEncontradaOYaActiva => "Localidad no encontrada o ya está activa."
  | ProvinciaNoEncontrada => "Provincia no encontrada."
  | ProductoDetalleNoEncontradoOInactivoConId i =>
      "ProductoDetalle no encontrado o inactivo con ID: " ++ texto i
  | StockInsuficienteDetalle i s c =>
      "Stock insuficiente para el ProductoDetalle ID: " ++ texto i
      ++ ". Stock actual: " ++ texto s ++ ", Cantidad solicitada: " ++ texto c
  | ErrorDeTipo => "TypeError"
  | ErrorDeValidacion => "PrismaClientValidationError"
  | RegistroNoEncontrado => "P2025"
  | FalloBaseDeDatos => "database error"
  end%string.

(** ** The monad of service methods *)

(** The world a request runs in: the database, the clock ([new Date()]),
    the offset of the server's local time from UTC in milliseconds, and,
    for each write statement still to be issued, whether the database
    refuses it ([true]); an empty list refuses none. *)
Record Mundo (num : Type) : Type := mkMundo {
  bd : BD num;
  reloj : Z;
  zona : Z;
  fallas : list bool
}.
Arguments mkMundo {num}.
Arguments bd {num}.
Arguments reloj {num}.
Arguments zona {num}.
Arguments fallas {num}.

Inductive Resultado (A : Type) : Type :=
| Ok (a : A)
| Lanza (e : Error).
Arguments Ok {A}.
Arguments Lanza {A}.

Definition M (num A : Type) : Type := Mundo num -> Resultado A * Mundo num.

Section Monada.
Context {num : Type}.

Definition ret {A : Type} (a : A) : M num A := fun w => (Ok a, w).

Definition ligar {A B : Type} (m : M num A) (k : A -> M num B) : M num B :=
  fun w =>
    match m w with
    | (Ok a, w') => k a w'
    | (Lanza e, w') => (Lanza e, w')
    end.

Definition lanzar {A : Type} (e : Error) : M num A := fun w => (Lanza e, w).

Definition leerBD : M num (BD num) := fun w => (Ok (bd w), w).

(** [new Date()]: the readings of one request are taken at one instant. *)
Definition ahora : M num Z := fun w => (Ok (reloj w), w).

Definition zonaLocal : M num Z := fun w => (Ok (zona w), w).

(** A write statement reaches the database: it is refused, or it goes on. *)
Definition sentencia : M num unit :=
  fun w =>
    match fallas w with
    | true :: fs =>
        (Lanza FalloBaseDeDatos, mkMundo (bd w) (reloj w) (zona w) fs)
    | false :: fs => (Ok tt, mkMundo (bd w) (reloj w) (zona w) fs)
    | [] => (Ok tt, w)
    end.

Definition ponerBD (b : BD num) : M num unit :=
  fun w => (Ok tt, mkMundo b (reloj w) (zona w) (fallas w)).

(** [try { m } catch (error) { h error }] *)
Definition intentar {A : Type} (m : M num A) (h : Error -> M num A) : M num A :=
  fun w =>
    match m w with
    | (Ok a, w') => (Ok a, w')
    | (Lanza e, w') => h e w'
    end.

(** [prisma.$transaction(async (tx) => m)]: when [m] throws, the database is
    the one the transaction started from. *)
Definition transaccion {A : Type} (m : M num A) : M num A :=
  fun w =>
    match m w with
    | (Ok a, w') => (Ok a, w')
    | (Lanza e, w') =>
        (Lanza e, mkMundo (bd w) (reloj w') (zona w') (fallas w'))
    end.

End Monada.

Declare Scope monada_scope.
Delimit Scope monada_scope with monada.
Notation "x <- m ;; k" := (ligar m (fun x => k))
  (at level 61, m at next level, right associativity) : monada_scope.
Notation "m ;;; k" := (ligar m (fun _ => k))
  (at level 61, right associativity) : monada_scope.
Open Scope monada_scope.

(** ** The ORM client *)

Module Prisma.
Section Cliente.
Context {num R : Type} {E : Entidad R}.

(** The first row the [where] clause selects, rewritten by [data]. *)
Fixpoint actualizarPrimero (w : R -> bool) (f : R -> R) (t : list R)
  : option (R * list R) :=
  match t with
  | [] => None
  | r :: t' =>
      if w r then Some (f r, f r :: t')
      else match actualizarPrimero w f t' with
           | Some (r', t'') => Some (r', r :: t'')
           | None => None
           end
  end.

(** The first row the [where] clause selects, removed. *)
Fixpoint quitarPrimero (w : R -> bool) (t : list R) : option (R * list R) :=
  match t with
  | [] => None
  | r :: t' =>
      if w r then Some (r, t')
      else match quitarPrimero w t' with
           | Some (r', t'') => Some (r', r :: t'')
           | None => None
           end
  end.

(** [@default(autoincrement())] *)
Definition nuevoId (t : list R) : Z :=
  1 + fold_right Z.max 0 (map ent_id t).

Definition findUnique (T : Tabla num R) (w : R -> bool) : M num (option R) :=
  b <- leerBD ;; ret (find w (filas T b)).

Definition findFirst (T : Tabla num R) (w : R -> bool) : M num (option R) :=
  b <- leerBD ;; ret (find w (filas T b)).

Definition findMany (T : Tabla num R) (w : R -> bool) : M num (list R) :=
  b <- leerBD ;; ret (filter w (filas T b)).

Definition count (T : Tabla num R) (w : R -> bool) : M num Z :=
  b <- leerBD ;; ret (Z.of_nat (List.length (filter w (filas T b)))).

(** [create]: the new row gets the next id and goes to the end of the table. *)
Definition create (T : Tabla num R) (fila : Z -> R) : M num R :=
  sentencia ;;;
  b <- leerBD ;;
  let r := fila (nuevoId (filas T b)) in
  ponerBD (conFilas T (filas T b ++ [r]) b) ;;;
  ret r.

(** [update]: throws P2025 when the [where] clause selects no row. *)
Definition update (T : Tabla num R) (w : R -> bool) (f : R -> R) : M num R :=
  sentencia ;;;
  b <- leerBD ;;
  match actualizarPrimero w f (filas T b) with
  | None => lanzar RegistroNoEncontrado
  | Some (r, t) => ponerBD (conFilas T t b) ;;; ret r
  end.

(** [delete]: removes the row; throws P2025 when there is none. *)
Definition delete (T : Tabla num R) (w : R -> bool) : M num R :=
  sentencia ;;;
  b <- leerBD ;;
  match quitarPrimero w (filas T b) with
  | None => lanzar RegistroNoEncontrado
  | Some (r, t) => ponerBD (conFilas T t b) ;;; ret r
  end.

(** [deleteMany]: removes every row the [where] clause selects. *)
Definition deleteMany (T : Tabla num R) (w : R -> bool) : M num Z :=
  sentencia ;;;
  b <- leerBD ;;
  ponerBD (conFilas T (filter (fun r => negb (w r)) (filas T b)) b) ;;;
  ret (Z.of_nat (List.length (filter w (filas T b)))).

(** The row a relation field points to, as [include] loads it. *)
Definition relacion (T : Tabla num R) (i : Z) (b : BD num) : option R :=
  find (fun r => ent_id r =? i) (filas T b).

End Cliente.
End Prisma.

(** ** Request payloads and the authenticated user *)

Record AuthUser : Type := mkAuthUser {
  au_id : Z;
  au_email : string;
  au_rol : Rol
}.

Record CreateOrdenCompraDetallePayload : Type := mkCreateDetalle {
  cd_ordenCompraId : Z;
  cd_productoDetalleId : Z;
  cd_cantidad : Z
}.

(** [Partial<Omit<CreateOrdenCompraDetallePayload, 'ordenCompraId'>>] *)
Record UpdateOrdenCompraDetallePayload : Type := mkUpdateDetalle {
  ud_productoDetalleId : option Z;
  ud_cantidad : option Z
}.

Record CreateOrdenCompraDetalleNestedPayload : Type := mkNested {
  productoDetalleId : Z;
  cantidad : Z
}.

(** [detalles] is [None] when the request carries no such field. *)
Record CreateOrdenCompraPayload : Type := mkCreateOrden {
  direccionEnvio : string;
  detalles : option (list CreateOrdenCompraDetalleNestedPayload);
  userId : Z
}.

(** ** OrderDetailService *)

Module OrderDetailService.
Section Servicio.
Context {num : Type} {N : Numero num}.

(** [currentUser.rol === Rol.CLIENTE &&
     (!ordenCompra.usuario || ordenCompra.usuario.id !== currentUser.id)] *)
Definition clienteAjeno (currentUser : AuthUser) (dueno : option Usuario.t)
  : bool :=
  Rol_beq (au_rol currentUser) CLIENTE &&
  match dueno with
  | None => true
  | Some u => negb (Usuario.id u =? au_id currentUser)
  end.

(** [include: { usuario: true }] on an order. *)
Definition usuarioDe (b : BD num) (o : OrdenCompra.t num) : option Usuario.t :=
  match OrdenCompra.usuarioId o with
  | None => None
  | Some u => Prisma.relacion usuario u b
  end.

Definition create (data : CreateOrdenCompraDetallePayload)
  (currentUser : AuthUser) : M num (OrdenCompraDetalle.t num) :=
  o <- Prisma.findUnique ordenCompra
         (fun o => OrdenCompra.id o =? cd_ordenCompraId data) ;;
  match o with
  | None => lanzar OrdenCompraNoEncontrada
  | Some laOrden =>
    b <- leerBD ;;
    if clienteAjeno currentUser (usuarioDe b laOrden)
    then lanzar NoAutorizadoCrearDetalle
    else
    pd <- Prisma.findUnique productoDetalle
            (fun p => ProductoDetalle.id p =? cd_productoDetalleId data) ;;
    match pd with
    | None => lanzar DetalleProductoNoEncontrado
    | Some elProducto =>
      if ProductoDetalle.stockActual elProducto <? cd_cantidad data
      then lanzar (StockInsuficienteProducto
                     (ProductoDetalle.stockActual elProducto)
                     (cd_cantidad data))
      else
      let subtotalCalculado :=
        nmult (ProductoDetalle.precioCompra elProducto)
              (deEntero (cd_cantidad data)) in
      newDetalle <- Prisma.create ordenCompraDetalle
        (fun i => OrdenCompraDetalle.mk i true (cd_cantidad data)
                    subtotalCalculado (cd_ordenCompraId data)
                    (cd_productoDetalleId data)) ;;
      Prisma.update productoDetalle
        (fun p => ProductoDetalle.id p =? ProductoDetalle.id elProducto)
        (fun p => ProductoDetalle.conStockActual
                    (ProductoDetalle.stockActual p - cd_cantidad data) p) ;;;
      ret newDetalle
    end
  end.

(** The relations [include] adds to an order line. *)
Definition conOrdenYProducto (b : BD num) (d : OrdenCompraDetalle.t num)
  : OrdenCompraDetalle.t num * option (OrdenCompra.t num)
    * option (ProductoDetalle.t num) :=
  (d, Prisma.relacion ordenCompra (OrdenCompraDetalle.ordenCompraId d) b,
   Prisma.relacion productoDetalle (OrdenCompraDetalle.productoDetalleId d) b).

Definition findById (id : Z) (currentUser : AuthUser)
  : M num (option (OrdenCompraDetalle.t num * option (OrdenCompra.t num)
                   * option (ProductoDetalle.t num))) :=
  d <- Prisma.findUnique ordenCompraDetalle
         (fun d => (OrdenCompraDetalle.id d =? id)
                   && OrdenCompraDetalle.activo d) ;;
  match d with
  | None => ret None
  | Some detalle =>
    b <- leerBD ;;
    let orden := Prisma.relacion ordenCompra
                   (OrdenCompraDetalle.ordenCompraId detalle) b in
    if Rol_beq (au_rol currentUser) CLIENTE &&
       match orden with
       | None => true
       | Some o =>
           match usuarioDe b o with
           | None => true
           | Some u => negb (Usuario.id u =? au_id currentUser)
           end
       end
    then lanzar NoAutorizadoVerDetalle
    else ret (Some (conOrdenYProducto b detalle))
  end.

(** [activo: includeInactive ? undefined : true] *)
Definition findAll (includeInactive : bool)
  : M num (list (OrdenCompraDetalle.t num * option (OrdenCompra.t num)
                 * option (ProductoDetalle.t num))) :=
  ds <- Prisma.findMany ordenCompraDetalle
          (fun d => if includeInactive then true
                    else OrdenCompraDetalle.activo d) ;;
  b <- leerBD ;;
  ret (map (conOrdenYProducto b) ds).

Definition update (id : Z) (data : UpdateOrdenCompraDetallePayload)
  : M num (OrdenCompraDetalle.t num) :=
  e <- Prisma.findUnique ordenCompraDetalle
         (fun d => (OrdenCompraDetalle.id d =? id)
                   && OrdenCompraDetalle.activo d) ;;
  match e with
  | None => lanzar DetalleNoEncontradoONoActivo
  | Some existingDetalle =>
    b <- leerBD ;;
    let elProducto := Prisma.relacion productoDetalle
          (OrdenCompraDetalle.productoDetalleId existingDetalle) b in
    updateData <-
      match ud_cantidad data with
      | None => ret (fun d : OrdenCompraDetalle.t num => d)
      | Some newCantidad =>
        if newCantidad =? OrdenCompraDetalle.cantidad existingDetalle
        then ret (fun d : OrdenCompraDetalle.t num => d)
        else
        let oldCantidad := OrdenCompraDetalle.cantidad existingDetalle in
        let stockDelta := newCantidad - oldCantidad in
        match elProducto with
        | None => lanzar ProductoDetalleAsociadoNoEncontrado
        | Some p =>
          if (0 <? stockDelta) && (ProductoDetalle.stockActual p <? stockDelta)
          then lanzar (StockInsuficienteAumentar
                         (ProductoDetalle.stockActual p) stockDelta)
          else
          Prisma.update productoDetalle
            (fun q => ProductoDetalle.id q =? ProductoDetalle.id p)
            (fun q => ProductoDetalle.conStockActual
                        (ProductoDetalle.stockActual q - stockDelta) q) ;;;
          ret (OrdenCompraDetalle.conCantidad newCantidad
                 (nmult (ProductoDetalle.precioCompra p)
                        (deEntero newCantidad)))
        end
      end ;;
    intentar
      (Prisma.update ordenCompraDetalle
         (fun d => (OrdenCompraDetalle.id d =? id)
                   && OrdenCompraDetalle.activo d)
         updateData)
      (fun error =>
         match error with
         | RegistroNoEncontrado => lanzar DetalleNoEncontradoParaActualizar
         | _ => lanzar error
         end)
  end.

Definition delete (id : Z) : M num (OrdenCompraDetalle.t num) :=
  e <- Prisma.findUnique ordenCompraDetalle
         (fun d => OrdenCompraDetalle.id d =? id) ;;
  match e with
  | None => lanzar DetalleNoEncontradoOYaDesactivado
  | Some existingDetalle =>
    if negb (OrdenCompraDetalle.activo existingDetalle)
    then lanzar DetalleNoEncontradoOYaDesactivado
    else
    b <- leerBD ;;
    match Prisma.relacion productoDetalle
            (OrdenCompraDetalle.productoDetalleId existingDetalle) b with
    | Some p =>
        Prisma.update productoDetalle
          (fun q => ProductoDetalle.id q =? ProductoDetalle.id p)
          (fun q => ProductoDetalle.conStockActual
                      (ProductoDetalle.stockActual q
                       + OrdenCompraDetalle.cantidad existingDetalle) q) ;;;
        ret tt
    | None => ret tt
    end ;;;
    Prisma.update ordenCompraDetalle
      (fun d => OrdenCompraDetalle.id d =? id)
      (OrdenCompraDetalle.conActivo false)
  end.

Definition reactivate (id : Z) : M num (OrdenCompraDetalle.t num) :=
  e <- Prisma.findUnique ordenCompraDetalle
         (fun d => OrdenCompraDetalle.id d =? id) ;;
  match e with
  | None => lanzar DetalleNoEncontradoOYaActivo
  | Some existingDetalle =>
    if OrdenCompraDetalle.activo existingDetalle
    then lanzar DetalleNoEncontradoOYaActivo
    else
    b <- leerBD ;;
    match Prisma.relacion productoDetalle
            (OrdenCompraDetalle.productoDetalleId existingDetalle) b with
    | Some p =>
        if ProductoDetalle.stockActual p
           <? OrdenCompraDetalle.cantidad existingDetalle
        then lanzar (StockInsuficienteReactivar
                       (ProductoDetalle.stockActual p)
                       (OrdenCompraDetalle.cantidad existingDetalle))
        else
        Prisma.update productoDetalle
          (fun q => ProductoDetalle.id q =? ProductoDetalle.id p)
          (fun q => ProductoDetalle.conStockActual
                      (ProductoDetalle.stockActual q
                       - OrdenCompraDetalle.cantidad existingDetalle) q) ;;;
        ret tt
    | None => ret tt
    end ;;;
    Prisma.update ordenCompraDetalle
      (fun d => OrdenCompraDetalle.id d =? id)
      (OrdenCompraDetalle.conActivo true)
  end.

Definition findByOrderId (ordenCompraId : Z) (currentUser : AuthUser)
  : M num (list (OrdenCompraDetalle.t num * option (OrdenCompra.t num)
                 * option (ProductoDetalle.t num))) :=
  o <- Prisma.findUnique ordenCompra
         (fun o => OrdenCompra.id o =? ordenCompraId) ;;
  match o with
  | None => lanzar OrdenCompraNoEncontrada
  | Some laOrden =>
    b <- leerBD ;;
    if clienteAjeno currentUser (usuarioDe b laOrden)
    then lanzar NoAutorizadoVerDetallesOrden
    else
    ds <- Prisma.findMany ordenCompraDetalle
            (fun d => (OrdenCompraDetalle.ordenCompraId d =? ordenCompraId)
                      && OrdenCompraDetalle.activo d) ;;
    ret (map (conOrdenYProducto b) ds)
  end.

Definition findByProductDetailId (productoDetalleId : Z)
  : M num (list (OrdenCompraDetalle.t num * option (OrdenCompra.t num))) :=
  p <- Prisma.findUnique productoDetalle
         (fun p => ProductoDetalle.id p =? productoDetalleId) ;;
  match p with
  | None => lanzar DetalleProductoNoEncontrado
  | Some _ =>
    ds <- Prisma.findMany ordenCompraDetalle
            (fun d => (OrdenCompraDetalle.productoDetalleId d
                       =? productoDetalleId)
                      && OrdenCompraDetalle.activo d) ;;
    b <- leerBD ;;
    ret (map (fun d => (d, Prisma.relacion ordenCompra
                             (OrdenCompraDetalle.ordenCompraId d) b)) ds)
  end.

End Servicio.
End OrderDetailService.

(** ** JavaScript dates

    The methods of [Date] the services call, on epoch milliseconds, for a
    server whose local time is UTC plus a fixed offset [z]. *)

Module Fecha.

Definition DIA : Z := 86400000.

(** [new Date(t.getFullYear(), t.getMonth(), t.getDate()).getTime()]:
    the local midnight that starts the local day of [t]. *)
Definition soloFecha (z t : Z) : Z := (t + z) / DIA * DIA - z.

Definition getHours (z t : Z) : Z := (t + z) mod DIA / 3600000.
Definition getMinutes (z t : Z) : Z := (t + z) mod 3600000 / 60000.
Definition getSeconds (z t : Z) : Z := (t + z) mod 60000 / 1000.

Definition getUTCHours (t : Z) : Z := getHours 0 t.
Definition getUTCMinutes (t : Z) : Z := getMinutes 0 t.
Definition getUTCSeconds (t : Z) : Z := getSeconds 0 t.

(** [t.setUTCHours(h, m, s, ms)], which returns the new time. *)
Definition setUTCHours (h m s ms t : Z) : Z :=
  t / DIA * DIA + h * 3600000 + m * 60000 + s * 1000 + ms.

(** [t.setHours(h, m, s, ms)] *)
Definition setHours (z h m s ms t : Z) : Z :=
  soloFecha z t + h * 3600000 + m * 60000 + s * 1000 + ms.

(** [!x] for a number [x] that is not [NaN]. *)
Definition esFalso (x : Z) : bool := x =? 0.

End Fecha.

(** ** Text and ordering in queries *)

Module Texto.

Definition mayuscula (c : Ascii.ascii) : Ascii.ascii :=
  let n := Ascii.nat_of_ascii c in
  if ((97 <=? n) && (n <=? 122))%nat then Ascii.ascii_of_nat (n - 32) else c.

Fixpoint porCaracter (f : Ascii.ascii -> Ascii.ascii) (s : string) : string :=
  match s with
  | EmptyString => EmptyString
  | String c r => String (f c) (porCaracter f r)
  end.

(** Text of ASCII characters alone. *)
Definition esAscii (s : string) : bool :=
  forallb (fun c => (Ascii.nat_of_ascii c <? 128)%nat)
          (list_ascii_of_string s).

(** [s.toUpperCase()] for text of ASCII characters; the runtime's case
    tables for other characters are not modelled, and the rules that go
    through this function ask for ASCII text. *)
Definition toUpperCase (s : string) : string := porCaracter mayuscula s.

(** [pajar.includes(aguja)] *)
Fixpoint includes (pajar aguja : string) : bool :=
  String.prefix aguja pajar
  || match pajar with
     | EmptyString => false
     | String _ resto => includes resto aguja
     end.

(** Text is held as the bytes of its UTF-8 encoding; the runtime compares
    it by UTF-16 code units.  The code points of well-formed UTF-8: *)
Fixpoint puntosDeCodigo (bytes : list Z) : list Z :=
  match bytes with
  | [] => []
  | b0 :: r0 =>
    if b0 <? 192 then b0 :: puntosDeCodigo r0
    else
    match r0 with
    | [] => [b0]
    | b1 :: r1 =>
      if b0 <? 224
      then ((b0 - 192) * 64 + (b1 - 128)) :: puntosDeCodigo r1
      else
      match r1 with
      | [] => [b0; b1]
      | b2 :: r2 =>
        if b0 <? 240
        then ((b0 - 224) * 4096 + (b1 - 128) * 64 + (b2 - 128))
             :: puntosDeCodigo r2
        else
        match r2 with
        | [] => [b0; b1; b2]
        | b3 :: r3 =>
            ((b0 - 240) * 262144 + (b1 - 128) * 4096 + (b2 - 128) * 64
             + (b3 - 128)) :: puntosDeCodigo r3
        end
      end
    end
  end.

(** The UTF-16 code units of a code point: itself, or a surrogate pair. *)
Definition unidadesDe (punto : Z) : list Z :=
  if punto <? 65536 then [punto]
  else [55296 + (punto - 65536) / 1024; 56320 + (punto - 65536) mod 1024].

Definition unidadesUTF16 (s : string) : list Z :=
  flat_map unidadesDe
    (puntosDeCodigo
       (map (fun c => Z.of_nat (Ascii.nat_of_ascii c))
            (list_ascii_of_string s))).

(** [!(b < a)] for two lists of code units: the first unit that differs
    decides, and a prefix comes first. *)
Fixpoint menorIgual (a b : list Z) : bool :=
  match a, b with
  | [], _ => true
  | _ :: _, [] => false
  | x :: a', y :: b' => (x <? y) || ((x =? y) && menorIgual a' b')
  end.

(** The order of JavaScript strings. *)
Definition leb (a b : string) : bool :=
  menorIgual (unidadesUTF16 a) (unidadesUTF16 b).

End Texto.

(** [orderBy]: the rows in the order [le] gives, rows that compare equal in
    the order of the table. *)
Fixpoint insertarOrdenado {R : Type} (le : R -> R -> bool) (x : R) (t : list R)
  : list R :=
  match t with
  | [] => [x]
  | y :: resto =>
      if le x y then x :: y :: resto else y :: insertarOrdenado le x resto
  end.

Definition ordenarPor {R : Type} (le : R -> R -> bool) (t : list R) : list R :=
  fold_right (insertarOrdenado le) [] t.

(** [distinct: [campo]]: of the rows that agree on the field, the first. *)
Fixpoint distintoDesde {R K : Type} (igual : K -> K -> bool) (campo : R -> K)
  (vistos : list K) (t : list R) : list R :=
  match t with
  | [] => []
  | r :: resto =>
      if existsb (igual (campo r)) vistos
      then distintoDesde igual campo vistos resto
      else r :: distintoDesde igual campo (campo r :: vistos) resto
  end.

Definition distintoPor {R K : Type} (igual : K -> K -> bool) (campo : R -> K)
  (t : list R) : list R :=
  distintoDesde igual campo [] t.

(** ** OrderService *)

(** [Prisma.OrdenCompraDetalleCreateWithoutOrdenCompraInput], with
    [activo: true]. *)
Record DetalleSinOrden (num : Type) : Type := mkDetalleSinOrden {
  dso_cantidad : Z;
  dso_subtotal : num;
  dso_productoDetalleId : Z
}.
Arguments mkDetalleSinOrden {num}.
Arguments dso_cantidad {num}.
Arguments dso_subtotal {num}.
Arguments dso_productoDetalleId {num}.

(** What [crear] returns: the order with
    [include: { detalles: { include: { productoDetalle: true } } }]. *)
Record OrdenConDetalles (num : Type) : Type := mkOrdenConDetalles {
  ocd_orden : OrdenCompra.t num;
  ocd_detalles : list (OrdenCompraDetalle.t num * option (ProductoDetalle.t num))
}.
Arguments mkOrdenConDetalles {num}.
Arguments ocd_orden {num}.
Arguments ocd_detalles {num}.

Module OrderService.
Section Servicio.
Context {num : Type} {N : Numero num}.

(** [new Map(entries).get(k)]: the last entry with the key wins. *)
Definition mapGet {V : Type} (entries : list (Z * V)) (k : Z) : option V :=
  match find (fun e => fst e =? k) (rev entries) with
  | Some e => Some (snd e)
  | None => None
  end.

(** The [for] loop that checks each requested line and accumulates
    [totalCalculado] and [detallesParaCrear]. *)
Fixpoint armarDetalles
  (productosDetalleMap : list (Z * ProductoDetalle.t num))
  (pendientes : list CreateOrdenCompraDetalleNestedPayload)
  (totalCalculado : num) (detallesParaCrear : list (DetalleSinOrden num))
  : M num (num * list (DetalleSinOrden num)) :=
  match pendientes with
  | [] => ret (totalCalculado, detallesParaCrear)
  | detallePayload :: resto =>
    match mapGet productosDetalleMap (productoDetalleId detallePayload) with
    | None =>
        lanzar (ProductoDetalleNoEncontradoOInactivo
                  (productoDetalleId detallePayload))
    | Some elProducto =>
      if ProductoDetalle.stockActual elProducto <? cantidad detallePayload
      then lanzar (StockInsuficienteOrden (productoDetalleId detallePayload)
                     (ProductoDetalle.stockActual elProducto)
                     (cantidad detallePayload))
      else
      let subtotal := nmult (ProductoDetalle.precioCompra elProducto)
                            (deEntero (cantidad detallePayload)) in
      armarDetalles productosDetalleMap resto
        (nsuma totalCalculado subtotal)
        (detallesParaCrear ++
         [mkDetalleSinOrden (cantidad detallePayload) subtotal
            (productoDetalleId detallePayload)])
    end
  end.

(** [prisma.ordenCompra.create] with the [data] of [crear]: [total],
    [fechaCompra], [direccionEnvio], [activo] and the nested [detalles],
    and no [usuario].  The relation is required by the schema
    ([usuarioId Int], [NOT NULL]), so the client refuses the arguments with
    its validation error before any statement is sent. *)
Definition crearOrdenConDetalles (total : num) (direccion : string)
  (ds : list (DetalleSinOrden num)) : M num (OrdenConDetalles num) :=
  lanzar ErrorDeValidacion.

(** The [for] loop inside [prisma.$transaction] that writes the stock. *)
Fixpoint descontarStock
  (productosDetalleMap : list (Z * ProductoDetalle.t num))
  (pendientes : list CreateOrdenCompraDetalleNestedPayload) : M num unit :=
  match pendientes with
  | [] => ret tt
  | detallePayload :: resto =>
    match mapGet productosDetalleMap (productoDetalleId detallePayload) with
    | Some elProducto =>
        Prisma.update productoDetalle
          (fun p => ProductoDetalle.id p =? productoDetalleId detallePayload)
          (ProductoDetalle.conStockActual
             (ProductoDetalle.stockActual elProducto
              - cantidad detallePayload)) ;;;
        descontarStock productosDetalleMap resto
    | None => descontarStock productosDetalleMap resto
    end
  end.

Definition crear (ordenCompraData : CreateOrdenCompraPayload)
  : M num (OrdenConDetalles num) :=
  intentar
    (match detalles ordenCompraData with
     | None => lanzar OrdenSinProductos
     | Some [] => lanzar OrdenSinProductos
     | Some losDetalles =>
       let productoDetalleIds := map productoDetalleId losDetalles in
       productosDetallesExistentes <-
         Prisma.findMany productoDetalle
           (fun p => existsb (Z.eqb (ProductoDetalle.id p)) productoDetalleIds
                     && ProductoDetalle.activo p) ;;
       let productosDetalleMap :=
         map (fun pd => (ProductoDetalle.id pd, pd))
             productosDetallesExistentes in
       r <- armarDetalles productosDetalleMap losDetalles ncero [] ;;
       nuevaOrden <- crearOrdenConDetalles (fst r)
                       (direccionEnvio ordenCompraData) (snd r) ;;
       transaccion (descontarStock productosDetalleMap losDetalles) ;;;
       ret nuevaOrden
     end)
    (fun error => lanzar (ErrorAlCrearOrden error)).

(** [include: { detalles: { include: { productoDetalle: true } } }] *)
Definition conDetalles (b : BD num) (o : OrdenCompra.t num)
  : OrdenConDetalles num :=
  mkOrdenConDetalles o
    (map (fun d => (d, Prisma.relacion productoDetalle
                         (OrdenCompraDetalle.productoDetalleId d) b))
         (filter (fun d => OrdenCompraDetalle.ordenCompraId d
                           =? OrdenCompra.id o)
                 (ordenCompraDetalles b))).

Definition findById (id : Z) : M num (option (OrdenConDetalles num)) :=
  o <- Prisma.findUnique ordenCompra
         (fun o => (OrdenCompra.id o =? id) && OrdenCompra.activo o) ;;
  b <- leerBD ;;
  ret (option_map (conDetalles b) o).

Definition delete (id : Z) : M num (OrdenCompra.t num) :=
  Prisma.update ordenCompra (fun o => OrdenCompra.id o =? id)
    (OrdenCompra.conActivo false).

Definition reactivate (id : Z) : M num (OrdenCompra.t num) :=
  Prisma.update ordenCompra (fun o => OrdenCompra.id o =? id)
    (OrdenCompra.conActivo true).

Definition obtenerPorFecha (fecha : Z) : M num (list (OrdenConDetalles num)) :=
  z <- zonaLocal ;;
  let startOfDay := Fecha.setHours z 0 0 0 0 fecha in
  let endOfDay := Fecha.setHours z 23 59 59 999 fecha in
  os <- Prisma.findMany ordenCompra
          (fun o => (startOfDay <=? OrdenCompra.fechaCompra o)
                    && (OrdenCompra.fechaCompra o <=? endOfDay)
                    && OrdenCompra.activo o) ;;
  b <- leerBD ;;
  ret (map (conDetalles b) os).

End Servicio.
End OrderService.


Arguments OrderDetailService.clienteAjeno : simpl never.
Arguments OrderDetailService.usuarioDe : simpl never.

(** ** ProductService *)

(** The argument of [calcularPrecioFinal]:
    [{ precioVenta; tienePromocion; descuentos }]. *)
Record ProductoConDescuentos (num : Type) : Type := mkProductoConDescuentos {
  pp_precioVenta : num;
  pp_tienePromocion : bool;
  pp_descuentos : list (Descuento.t num)
}.
Arguments mkProductoConDescuentos {num}.
Arguments pp_precioVenta {num}.
Arguments pp_tienePromocion {num}.
Arguments pp_descuentos {num}.

(** A category with [include: { subcategorias: true }]; the field is absent
    ([None]) on the subcategories themselves. *)
Unset Elimination Schemes.
Inductive CategoriaConSub : Type :=
| mkCategoriaConSub (c : Categoria.t) (subcategorias : option (list CategoriaConSub)).

Inductive CategoriaDTO : Type :=
| mkCategoriaDTO (id : Z) (denominacion : string)
    (subcategorias : option (list CategoriaDTO)).
Set Elimination Schemes.

Record ImagenDTO : Type := mkImagenDTO {
  idto_id : Z;
  idto_denominacion : string
}.

Record ProductoDetalleDTO (num : Type) : Type := mkProductoDetalleDTO {
  pddto_id : Z;
  pddto_precioCompra : num;
  pddto_stockActual : Z;
  pddto_cantidad : Z;
  pddto_stockMaximo : Z;
  pddto_color : Color;
  pddto_talle : Talle
}.
Arguments mkProductoDetalleDTO {num}.
Arguments pddto_id {num}.

Record ProductoDTO (num : Type) : Type := mkProductoDTO {
  pdto_id : Z;
  pdto_denominacion : string;
  pdto_precioOriginal : num;
  pdto_precioFinal : num;
  pdto_tienePromocion : bool;
  pdto_sexo : Sexo;
  pdto_categorias : list CategoriaDTO;
  pdto_imagenes : list ImagenDTO;
  pdto_productos_detalles : list (ProductoDetalleDTO num)
}.
Arguments mkProductoDTO {num}.
Arguments pdto_id {num}.
Arguments pdto_denominacion {num}.
Arguments pdto_precioOriginal {num}.
Arguments pdto_precioFinal {num}.
Arguments pdto_tienePromocion {num}.
Arguments pdto_sexo {num}.
Arguments pdto_categorias {num}.
Arguments pdto_imagenes {num}.
Arguments pdto_productos_detalles {num}.

(** A product with
    [include: { categorias: { include: { subcategorias: true } },
                imagenes: true, productos_detalles: true, descuentos: true }]. *)
Record ProductoConRelaciones (num : Type) : Type := mkProductoConRelaciones {
  pr_producto : Producto.t num;
  pr_categorias : list CategoriaConSub;
  pr_imagenes : list Imagen.t;
  pr_productos_detalles : list (ProductoDetalle.t num);
  pr_descuentos : list (Descuento.t num)
}.
Arguments mkProductoConRelaciones {num}.
Arguments pr_producto {num}.
Arguments pr_categorias {num}.
Arguments pr_imagenes {num}.
Arguments pr_productos_detalles {num}.
Arguments pr_descuentos {num}.

(** [Promise.all(xs.map(f))] *)
Fixpoint todos {num A B : Type} (f : A -> M num B) (xs : list A)
  : M num (list B) :=
  match xs with
  | [] => ret []
  | x :: resto => y <- f x ;; ys <- todos f resto ;; ret (y :: ys)
  end.

Definition Color_deTexto (s : string) : option Color :=
  find (fun c => String.eqb s
     match c with
     | AZUL => "AZUL" | BLANCO => "BLANCO" | CELESTE => "CELESTE"
     | NEGRO => "NEGRO" | VERDE => "VERDE" | MULTICOLOR => "MULTICOLOR"
     | ROJO => "ROJO" | ROSA => "ROSA" | MARRON => "MARRON"
     | AMARILLO => "AMARILLO" | VIOLETA => "VIOLETA" | GRIS => "GRIS"
     end)
    [AZUL; BLANCO; CELESTE; NEGRO; VERDE; MULTICOLOR;
     ROJO; ROSA; MARRON; AMARILLO; VIOLETA; GRIS].

Definition Talle_deTexto (s : string) : option Talle :=
  find (fun t => String.eqb s
     match t with
     | XS => "XS" | S_ => "S" | M_ => "M" | L_ => "L" | XL => "XL"
     | XXL => "XXL" | TALLE_25 => "TALLE_25" | TALLE_26 => "TALLE_26"
     | TALLE_27 => "TALLE_27" | TALLE_28 => "TALLE_28"
     | TALLE_29 => "TALLE_29" | TALLE_30 => "TALLE_30"
     | TALLE_31 => "TALLE_31" | TALLE_32 => "TALLE_32"
     | TALLE_33 => "TALLE_33" | TALLE_34 => "TALLE_34"
     | TALLE_35 => "TALLE_35" | TALLE_36 => "TALLE_36"
     | TALLE_37 => "TALLE_37" | TALLE_38 => "TALLE_38"
     | TALLE_39 => "TALLE_39" | TALLE_40 => "TALLE_40"
     | TALLE_41 => "TALLE_41" | TALLE_42 => "TALLE_42"
     | TALLE_43 => "TALLE_43" | TALLE_44 => "TALLE_44"
     | TALLE_45 => "TALLE_45" | TALLE_46 => "TALLE_46"
     | TALLE_47 => "TALLE_47" | TALLE_48 => "TALLE_48"
     | TALLE_49 => "TALLE_49" | TALLE_50 => "TALLE_50"
     | TALLE_51 => "TALLE_51" | TALLE_52 => "TALLE_52"
     end)
    [XS; S_; M_; L_; XL; XXL; TALLE_25; TALLE_26; TALLE_27; TALLE_28;
     TALLE_29; TALLE_30; TALLE_31; TALLE_32; TALLE_33; TALLE_34; TALLE_35;
     TALLE_36; TALLE_37; TALLE_38; TALLE_39; TALLE_40; TALLE_41; TALLE_42;
     TALLE_43; TALLE_44; TALLE_45; TALLE_46; TALLE_47; TALLE_48; TALLE_49;
     TALLE_50; TALLE_51; TALLE_52].

(** [c.toString()] on a value of an [enum]: its name. *)
Definition Color_aTexto (c : Color) : string :=
  match c with
  | AZUL => "AZUL" | BLANCO => "BLANCO" | CELESTE => "CELESTE"
  | NEGRO => "NEGRO" | VERDE => "VERDE" | MULTICOLOR => "MULTICOLOR"
  | ROJO => "ROJO" | ROSA => "ROSA" | MARRON => "MARRON"
  | AMARILLO => "AMARILLO" | VIOLETA => "VIOLETA" | GRIS => "GRIS"
  end.

Definition Talle_aTexto (t : Talle) : string :=
  match t with
  | XS => "XS" | S_ => "S" | M_ => "M" | L_ => "L" | XL => "XL"
  | XXL => "XXL" | TALLE_25 => "TALLE_25" | TALLE_26 => "TALLE_26"
  | TALLE_27 => "TALLE_27" | TALLE_28 => "TALLE_28"
  | TALLE_29 => "TALLE_29" | TALLE_30 => "TALLE_30"
  | TALLE_31 => "TALLE_31" | TALLE_32 => "TALLE_32"
  | TALLE_33 => "TALLE_33" | TALLE_34 => "TALLE_34"
  | TALLE_35 => "TALLE_35" | TALLE_36 => "TALLE_36"
  | TALLE_37 => "TALLE_37" | TALLE_38 => "TALLE_38"
  | TALLE_39 => "TALLE_39" | TALLE_40 => "TALLE_40"
  | TALLE_41 => "TALLE_41" | TALLE_42 => "TALLE_42"
  | TALLE_43 => "TALLE_43" | TALLE_44 => "TALLE_44"
  | TALLE_45 => "TALLE_45" | TALLE_46 => "TALLE_46"
  | TALLE_47 => "TALLE_47" | TALLE_48 => "TALLE_48"
  | TALLE_49 => "TALLE_49" | TALLE_50 => "TALLE_50"
  | TALLE_51 => "TALLE_51" | TALLE_52 => "TALLE_52"
  end.

(** The position of a value in its [enum], which is how the database
    orders the column. *)
Definition Sexo_indice (s : Sexo) : Z :=
  match s with
  | FEMENINO => 1 | MASCULINO => 2 | UNISEX_CHILD => 3 | UNISEX => 4
  | OTRO => 5
  end.

Inductive OrderBy : Set :=
| PorDenominacion | PorPrecioVenta | PorSexo | PorTienePromocion | PorId.

Inductive OrderDirection : Set := Asc | Desc.

Record ProductFilters (num : Type) : Type := mkProductFilters {
  f_denominacion : option string;
  f_categorias : option (list string);
  f_sexo : option Sexo;
  f_tienePromocion : option bool;
  f_minPrice : option num;
  f_maxPrice : option num;
  f_colores : option (list string);
  f_talles : option (list string);
  f_stockMinimo : option Z;
  f_orderBy : option OrderBy;
  f_orderDirection : option OrderDirection
}.
Arguments mkProductFilters {num}.
Arguments f_denominacion {num}.
Arguments f_categorias {num}.
Arguments f_sexo {num}.
Arguments f_tienePromocion {num}.
Arguments f_minPrice {num}.
Arguments f_maxPrice {num}.
Arguments f_colores {num}.
Arguments f_talles {num}.
Arguments f_stockMinimo {num}.
Arguments f_orderBy {num}.
Arguments f_orderDirection {num}.

Module ProductService.
Section Servicio.
Context {num : Type} {N : Numero num}.

Fixpoint mapearCategoriaADTO (categoriaEntity : CategoriaConSub) : CategoriaDTO :=
  match categoriaEntity with
  | mkCategoriaConSub c subcategorias =>
      mkCategoriaDTO (Categoria.id c) (Categoria.denominacion c)
        match subcategorias with
        | Some (s :: resto) => Some (map mapearCategoriaADTO (s :: resto))
        | _ => None
        end
  end.

(** The bounds and the clock readings the loop of [calcularPrecioFinal]
    computes for one discount, under the names the source gives them.  The
    four columns are required, so the [null] branch of each conditional
    never runs. *)
Definition hoySoloFecha (z hoy : Z) : Z := Fecha.soloFecha z hoy.

Definition horaActualSegundos (z hoy : Z) : Z :=
  Fecha.getHours z hoy * 3600 + Fecha.getMinutes z hoy * 60
  + Fecha.getSeconds z hoy.

Definition fechaDesde (d : Descuento.t num) : Z :=
  Fecha.setUTCHours 0 0 0 0 (Descuento.fechaDesde d).

Definition fechaHasta (d : Descuento.t num) : Z :=
  Fecha.setUTCHours 23 59 59 999 (Descuento.fechaHasta d).

Definition horaDesdeSegundos (d : Descuento.t num) : Z :=
  Fecha.getUTCHours (Descuento.horaDesde d) * 3600
  + Fecha.getUTCMinutes (Descuento.horaDesde d) * 60
  + Fecha.getUTCSeconds (Descuento.horaDesde d).

Definition horaHastaSegundos (d : Descuento.t num) : Z :=
  Fecha.getUTCHours (Descuento.horaHasta d) * 3600
  + Fecha.getUTCMinutes (Descuento.horaHasta d) * 60
  + Fecha.getUTCSeconds (Descuento.horaHasta d).

Definition fechaValida (z hoy : Z) (d : Descuento.t num) : bool :=
  (Fecha.esFalso (fechaDesde d) || (fechaDesde d <=? hoySoloFecha z hoy))
  && (Fecha.esFalso (fechaHasta d) || (hoySoloFecha z hoy <=? fechaHasta d)).

Definition horaValida (z hoy : Z) (d : Descuento.t num) : bool :=
  (Fecha.esFalso (horaDesdeSegundos d)
   || (horaDesdeSegundos d <=? horaActualSegundos z hoy))
  && (Fecha.esFalso (horaHastaSegundos d)
      || (horaActualSegundos z hoy <=? horaHastaSegundos d)).

(** One turn of the loop: the new value of [precioConDescuentoMasAlto]. *)
Definition aplicarDescuento (z hoy : Z) (precioActual : num)
  (precioConDescuentoMasAlto : num) (d : Descuento.t num) : num :=
  if fechaValida z hoy d && horaValida z hoy d then
    let precioAplicandoEsteDescuento :=
      nmult precioActual (nresta nuno (Descuento.precioPromocional d)) in
    if nmenor precioAplicandoEsteDescuento precioConDescuentoMasAlto
    then precioAplicandoEsteDescuento
    else precioConDescuentoMasAlto
  else precioConDescuentoMasAlto.

Definition calcularPrecioFinal (producto : ProductoConDescuentos num)
  : M num num :=
  let precioActual := pp_precioVenta producto in
  if negb (pp_tienePromocion producto)
     || (Z.of_nat (List.length (pp_descuentos producto)) =? 0)
  then ret precioActual
  else
  hoy <- ahora ;;
  z <- zonaLocal ;;
  ret (fold_left (aplicarDescuento z hoy precioActual)
         (pp_descuentos producto) precioActual).

Definition paraPrecio (p : ProductoConRelaciones num)
  : ProductoConDescuentos num :=
  mkProductoConDescuentos (Producto.precioVenta (pr_producto p))
    (Producto.tienePromocion (pr_producto p)) (pr_descuentos p).

Definition mapearProductoADTO (p : ProductoConRelaciones num)
  : M num (ProductoDTO num) :=
  precioFinal <- calcularPrecioFinal (paraPrecio p) ;;
  ret (mkProductoDTO
         (Producto.id (pr_producto p))
         (Producto.denominacion (pr_producto p))
         (Producto.precioVenta (pr_producto p))
         precioFinal
         (Producto.tienePromocion (pr_producto p))
         (Producto.sexo (pr_producto p))
         (map mapearCategoriaADTO (pr_categorias p))
         (map (fun img => mkImagenDTO (Imagen.id img) (Imagen.denominacion img))
              (pr_imagenes p))
         (map (fun pd => mkProductoDetalleDTO
                           (ProductoDetalle.id pd)
                           (ProductoDetalle.precioCompra pd)
                           (ProductoDetalle.stockActual pd)
                           (ProductoDetalle.cantidad pd)
                           (ProductoDetalle.stockMaximo pd)
                           (ProductoDetalle.color pd)
                           (ProductoDetalle.talle pd))
              (pr_productos_detalles p))).

(** The relations the product queries [include]. *)
Definition conRelaciones (b : BD num) (p : Producto.t num)
  : ProductoConRelaciones num :=
  mkProductoConRelaciones p
    (map (fun c =>
            mkCategoriaConSub c
              (Some (map (fun s => mkCategoriaConSub s None)
                         (filter (fun s =>
                                    match Categoria.categoriaPadreId s with
                                    | Some padre => padre =? Categoria.id c
                                    | None => false
                                    end)
                                 (categorias b)))))
         (filter (fun c => existsb (fun pc => (fst pc =? Producto.id p)
                                            && (snd pc =? Categoria.id c))
                                   (productoCategorias b))
                 (categorias b)))
    (filter (fun i => match Imagen.productoId i with
                      | Some q => q =? Producto.id p
                      | None => false
                      end)
            (imagenes b))
    (filter (fun pd => ProductoDetalle.productoId pd =? Producto.id p)
            (productoDetalles b))
    (filter (fun d => existsb (fun pd => (fst pd =? Producto.id p)
                                       && (snd pd =? Descuento.id d))
                              (productoDescuentos b))
            (descuentos b)).

Definition obtenerTodosLosProductosDTO : M num (list (ProductoDTO num)) :=
  todosLosProductos <- Prisma.findMany producto Producto.activo ;;
  b <- leerBD ;;
  todos mapearProductoADTO (map (conRelaciones b) todosLosProductos).

Definition obtenerProductosPromocionalesDTO : M num (list (ProductoDTO num)) :=
  productosPromocionales <-
    Prisma.findMany producto
      (fun p => Producto.activo p && Producto.tienePromocion p) ;;
  b <- leerBD ;;
  filtrados <-
    todos (fun p =>
             precioFinal <- calcularPrecioFinal (paraPrecio p) ;;
             if nmenor precioFinal (Producto.precioVenta (pr_producto p))
             then dto <- mapearProductoADTO p ;; ret (Some dto)
             else ret None)
          (map (conRelaciones b) productosPromocionales) ;;
  ret (flat_map (fun o => match o with Some dto => [dto] | None => [] end)
                filtrados).

Definition obtenerProductoDTOPorId (id : Z) : M num (option (ProductoDTO num)) :=
  p <- Prisma.findUnique producto
         (fun p => (Producto.id p =? id) && Producto.activo p) ;;
  match p with
  | None => ret None
  | Some elProducto =>
      b <- leerBD ;;
      dto <- mapearProductoADTO (conRelaciones b elProducto) ;;
      ret (Some dto)
  end.

Definition deleteProduct (id : Z) : M num (option (Producto.t num)) :=
  p <- Prisma.findUnique producto (fun p => Producto.id p =? id) ;;
  match p with
  | None => ret None
  | Some _ =>
      r <- Prisma.update producto (fun p => Producto.id p =? id)
             (Producto.conActivo false) ;;
      ret (Some r)
  end.

Definition reactivateProduct (id : Z) : M num (option (Producto.t num)) :=
  p <- Prisma.findUnique producto (fun p => Producto.id p =? id) ;;
  match p with
  | None => ret None
  | Some _ =>
      r <- Prisma.update producto (fun p => Producto.id p =? id)
             (Producto.conActivo true) ;;
      ret (Some r)
  end.

(** [xs && xs.length > 0 ? validos(xs) : []] for [colores] and [talles]. *)
Definition enumsValidos {A : Type} (deTexto : string -> option A)
  (xs : option (list string)) : list A :=
  match xs with
  | None => []
  | Some l =>
      flat_map (fun s => match deTexto (Texto.toUpperCase s) with
                         | Some a => [a]
                         | None => []
                         end) l
  end.

Definition noVacia {A : Type} (l : list A) : bool :=
  match l with
  | [] => false
  | _ :: _ => true
  end.

(** [productoDetalleSomeFilter] *)
Definition productoDetalleSomeFilter (filters : ProductFilters num)
  (pd : ProductoDetalle.t num) : bool :=
  let validEnumColors := enumsValidos Color_deTexto (f_colores filters) in
  let validEnumTalles := enumsValidos Talle_deTexto (f_talles filters) in
  ProductoDetalle.activo pd
  && (if noVacia validEnumColors
      then existsb (Color_beq (ProductoDetalle.color pd)) validEnumColors
      else true)
  && (if noVacia validEnumTalles
      then existsb (Talle_beq (ProductoDetalle.talle pd)) validEnumTalles
      else true)
  && match f_stockMinimo filters with
     | Some m => m <=? ProductoDetalle.stockActual pd
     | None => true
     end.

(** Some key other than [activo] was set on [productoDetalleSomeFilter]. *)
Definition hasSpecificProductDetailFilters (filters : ProductFilters num) : bool :=
  noVacia (enumsValidos Color_deTexto (f_colores filters))
  || noVacia (enumsValidos Talle_deTexto (f_talles filters))
  || match f_stockMinimo filters with Some _ => true | None => false end.

(** The [where] clause of [filtrarYOrdenarProductos] when no
    [denominacion] is asked for; the names of categories compare here by
    code unit, and in the database by the collation of the column. *)
Definition whereDe (filters : ProductFilters num) (b : BD num)
  (p : Producto.t num) : bool :=
  Producto.activo p
  && match f_sexo filters with
     | Some s => Sexo_beq (Producto.sexo p) s
     | None => true
     end
  && match f_tienePromocion filters with
     | Some t => Bool.eqb (Producto.tienePromocion p) t
     | None => true
     end
  && match f_minPrice filters with
     | Some m => nmenorIg m (Producto.precioVenta p)
     | None => true
     end
  && match f_maxPrice filters with
     | Some m => nmenorIg (Producto.precioVenta p) m
     | None => true
     end
  && match f_categorias filters with
     | Some (n :: ns) =>
         existsb (fun c => existsb (String.eqb (Categoria.denominacion c))
                                   (n :: ns)
                           && Categoria.activo c
                           && existsb (fun pc => (fst pc =? Producto.id p)
                                                 && (snd pc =? Categoria.id c))
                                      (productoCategorias b))
                 (categorias b)
     | _ => true
     end
  && (if hasSpecificProductDetailFilters filters
      then existsb (fun pd => (ProductoDetalle.productoId pd =? Producto.id p)
                              && productoDetalleSomeFilter filters pd)
                   (productoDetalles b)
      else true).

(** [{ [orderBy]: orderDirection || 'asc' }]; text compares by code unit
    here, and by the collation of the column in the database. *)
Definition orderByOption (campo : OrderBy) (direction : option OrderDirection)
  (p q : Producto.t num) : bool :=
  let le (x y : Producto.t num) : bool :=
    match campo with
    | PorDenominacion =>
        String.leb (Producto.denominacion x) (Producto.denominacion y)
    | PorPrecioVenta => nmenorIg (Producto.precioVenta x) (Producto.precioVenta y)
    | PorSexo => Sexo_indice (Producto.sexo x) <=? Sexo_indice (Producto.sexo y)
    | PorTienePromocion =>
        implb (Producto.tienePromocion x) (Producto.tienePromocion y)
    | PorId => Producto.id x <=? Producto.id y
    end in
  match direction with
  | Some Desc => le q p
  | _ => le p q
  end.

(** [if (denominacion)] adds [{ contains, mode: 'insensitive' }] to the
    [where] clause; [mode] is no argument of the client generated for
    MySQL, the provider of the schema, and [findMany] throws its
    validation error. *)
Definition filtrarYOrdenarProductos (filters : ProductFilters num)
  : M num (list (ProductoDTO num)) :=
  b <- leerBD ;;
  encontrados <-
    match f_denominacion filters with
    | Some (String _ _) => lanzar ErrorDeValidacion
    | _ => Prisma.findMany producto (whereDe filters b)
    end ;;
  let productosFiltradosYOrdenados :=
    match f_orderBy filters with
    | Some campo =>
        ordenarPor (orderByOption campo (f_orderDirection filters)) encontrados
    | None => encontrados
    end in
  todos mapearProductoADTO
        (map (conRelaciones b) productosFiltradosYOrdenados).

(** [.sort()] with no comparator: text in the order of its UTF-16 code
    units. *)
Definition sort (xs : list string) : list string := ordenarPor Texto.leb xs.

Definition getAllAvailableCategories : M num (list string) :=
  categories <- Prisma.findMany categoria Categoria.activo ;;
  ret (sort (map Categoria.denominacion
               (distintoPor String.eqb Categoria.denominacion categories))).

(** The columns [color] and [talle] are required, so the [filter] that drops
    [null] keeps every row. *)
Definition getAllAvailableColors : M num (list string) :=
  colors <- Prisma.findMany productoDetalle ProductoDetalle.activo ;;
  ret (sort (map Color_aTexto
               (map ProductoDetalle.color
                  (distintoPor Color_beq ProductoDetalle.color colors)))).

Definition getAllAvailableTalles : M num (list string) :=
  talles <- Prisma.findMany productoDetalle ProductoDetalle.activo ;;
  ret (sort (map Talle_aTexto
               (map ProductoDetalle.talle
                  (distintoPor Talle_beq ProductoDetalle.talle talles)))).

End Servicio.
End ProductService.

(** ** UserService *)

(** An address with [include: { localidad: { include: { provincia: true } } }]. *)
Record DireccionConLocalidad : Type := mkDireccionConLocalidad {
  dl_direccion : Direccion.t;
  dl_localidad : option (Localidad.t * option Provincia.t)
}.

(** [UsuarioWithRelations] *)
Record UsuarioWithRelations : Type := mkUsuarioWithRelations {
  ur_usuario : Usuario.t;
  ur_imagenUser : option Imagen.t;
  ur_direcciones : list DireccionConLocalidad
}.

Record ProvinciaResponseDTO : Type := mkProvinciaResponseDTO {
  prdto_id : Z;
  prdto_nombre : string
}.

Record LocalidadResponseDTO : Type := mkLocalidadResponseDTO {
  lrdto_id : Z;
  lrdto_nombre : string;
  lrdto_provincia : option ProvinciaResponseDTO
}.

Record AddressResponseDTO : Type := mkAddressResponseDTO {
  ardto_id : Z;
  ardto_calle : string;
  ardto_numero : Z;
  ardto_piso : option string;
  ardto_departamento : option string;
  ardto_cp : Z;
  ardto_localidad : LocalidadResponseDTO
}.

Module UserService.
Section Servicio.
Context {num : Type}.

Definition conLocalidad (b : BD num) (d : Direccion.t) : DireccionConLocalidad :=
  mkDireccionConLocalidad d
    (option_map
       (fun l => (l, Prisma.relacion provincia (Localidad.provinciaId l) b))
       (Prisma.relacion localidad (Direccion.localidadId d) b)).

(** [include: { imagenUser: true, direcciones: { include: ... } }] *)
Definition conRelaciones (b : BD num) (u : Usuario.t) : UsuarioWithRelations :=
  mkUsuarioWithRelations u
    match Usuario.imagenId u with
    | Some i => Prisma.relacion imagen i b
    | None => None
    end
    (map (conLocalidad b)
         (filter (fun d => match Direccion.usuarioId d with
                           | Some i => i =? Usuario.id u
                           | None => false
                           end)
                 (direcciones b))).

(** [direccion.localidad.id] throws when the relation is not there. *)
Definition mapToDomicilioDTO (d : DireccionConLocalidad)
  : M num AddressResponseDTO :=
  match dl_localidad d with
  | None => lanzar ErrorDeTipo
  | Some (l, p) =>
      ret (mkAddressResponseDTO
             (Direccion.id (dl_direccion d))
             (Direccion.calle (dl_direccion d))
             (Direccion.numero (dl_direccion d))
             (Direccion.piso (dl_direccion d))
             (Direccion.departamento (dl_direccion d))
             (Direccion.cp (dl_direccion d))
             (mkLocalidadResponseDTO (Localidad.id l) (Localidad.nombre l)
                (option_map
                   (fun q => mkProvinciaResponseDTO (Provincia.id q)
                               (Provincia.nombre q))
                   p)))
  end.

(** [if (!includeInactive) whereClause.activo = true] *)
Definition soloActivos (includeInactive : bool) (u : Usuario.t) : bool :=
  if includeInactive then true else Usuario.activo u.

Definition findById (id : Z) (includeInactive : bool)
  : M num (option UsuarioWithRelations) :=
  u <- Prisma.findUnique usuario
         (fun u => (Usuario.id u =? id) && soloActivos includeInactive u) ;;
  b <- leerBD ;;
  ret (option_map (conRelaciones b) u).

Definition findAll (includeInactive : bool) : M num (list UsuarioWithRelations) :=
  us <- Prisma.findMany usuario (soloActivos includeInactive) ;;
  b <- leerBD ;;
  ret (map (conRelaciones b) us).

(** [where: { userName }].  Text in a [where] clause is compared here code
    unit by code unit.  The collation of the tables ([utf8mb4_unicode_ci])
    also equates texts that differ in case or accents, and the unique
    indexes on [email] and [userName] refuse an update that repeats a value
    of any row: the database finds and refuses at least what is found and
    refused here. *)
Definition tieneUserName (userName : string) (u : Usuario.t) : bool :=
  match Usuario.userName u with
  | Some n => String.eqb n userName
  | None => false
  end.

Definition findByUserName (userName : string) (includeInactive : bool)
  : M num (option UsuarioWithRelations) :=
  u <- Prisma.findFirst usuario
         (fun u => tieneUserName userName u && soloActivos includeInactive u) ;;
  b <- leerBD ;;
  ret (option_map (conRelaciones b) u).

Definition findByEmail (email : string) (includeInactive : bool)
  : M num (option UsuarioWithRelations) :=
  u <- Prisma.findFirst usuario
         (fun u => String.eqb (Usuario.email u) email
                   && soloActivos includeInactive u) ;;
  b <- leerBD ;;
  ret (option_map (conRelaciones b) u).

Definition countByEmailAndActivoTrue (email : string) : M num Z :=
  Prisma.count usuario
    (fun u => String.eqb (Usuario.email u) email && Usuario.activo u).

(** [uniqueId] is the value [uuidv4()] returns. *)
Definition deactivateAccount (uniqueId : string) (userId : Z)
  : M num UsuarioWithRelations :=
  u <- Prisma.findUnique usuario (fun u => Usuario.id u =? userId) ;;
  match u with
  | None => lanzar (UsuarioNoEncontrado userId)
  | Some elUsuario =>
    if negb (Usuario.activo elUsuario) then lanzar CuentaYaDesactivada
    else
    let deactivatedEmail :=
      ("deactivated_" ++ uniqueId ++ "@ecommerce.com")%string in
    let deactivatedUserName := ("deactivated_" ++ uniqueId)%string in
    fecha <- ahora ;;
    r <- Prisma.update usuario (fun u => Usuario.id u =? userId)
           (Usuario.conCuenta false deactivatedEmail
              (Some deactivatedUserName) (Some fecha) fecha) ;;
    b <- leerBD ;;
    ret (conRelaciones b r)
  end.

Definition reactivateAccount (userId : Z) (newEmail newUserName : string)
  : M num UsuarioWithRelations :=
  u <- Prisma.findUnique usuario (fun u => Usuario.id u =? userId) ;;
  match u with
  | None => lanzar (UsuarioNoEncontrado userId)
  | Some elUsuario =>
    if Usuario.activo elUsuario then lanzar CuentaYaActiva
    else
    existingUserByEmail <-
      Prisma.findFirst usuario
        (fun u => String.eqb (Usuario.email u) newEmail && Usuario.activo u) ;;
    if match existingUserByEmail with
       | Some e => negb (Usuario.id e =? userId)
       | None => false
       end
    then lanzar NuevoEmailEnUso
    else
    existingUserByUsername <-
      Prisma.findFirst usuario
        (fun u => tieneUserName newUserName u && Usuario.activo u) ;;
    if match existingUserByUsername with
       | Some e => negb (Usuario.id e =? userId)
       | None => false
       end
    then lanzar NuevoUserNameEnUso
    else
    fecha <- ahora ;;
    r <- Prisma.update usuario (fun u => Usuario.id u =? userId)
           (Usuario.conCuenta true newEmail (Some newUserName) None fecha) ;;
    b <- leerBD ;;
    ret (conRelaciones b r)
  end.

Definition getDireccionesByUserId (userId : Z) : M num (list AddressResponseDTO) :=
  u <- Prisma.findUnique usuario
         (fun u => (Usuario.id u =? userId) && Usuario.activo u) ;;
  match u with
  | None => lanzar (UsuarioNoEncontradoOInactivo userId)
  | Some elUsuario =>
      b <- leerBD ;;
      todos mapToDomicilioDTO (ur_direcciones (conRelaciones b elUsuario))
  end.

Definition esDe (userId : Z) (d : Direccion.t) : bool :=
  match Direccion.usuarioId d with
  | Some i => i =? userId
  | None => false
  end.

Definition removeDireccionFromUser (userId direccionId : Z) : M num unit :=
  u <- Prisma.findUnique usuario
         (fun u => (Usuario.id u =? userId) && Usuario.activo u) ;;
  match u with
  | None => lanzar (UsuarioNoEncontradoOInactivo userId)
  | Some _ =>
    existingDireccion <-
      Prisma.findUnique direccion
        (fun d => (Direccion.id d =? direccionId) && esDe userId d) ;;
    match existingDireccion with
    | None => lanzar (DireccionNoEncontradaParaUsuario direccionId userId)
    | Some _ =>
        Prisma.delete direccion (fun d => Direccion.id d =? direccionId) ;;;
        ret tt
    end
  end.

End Servicio.
End UserService.

(** ** ProductDetailService *)

Module ProductDetailService.
Section Servicio.
Context {num : Type} {N : Numero num}.

Definition findById (id : Z) : M num (option (ProductoDetalle.t num)) :=
  Prisma.findUnique productoDetalle
    (fun p => (ProductoDetalle.id p =? id) && ProductoDetalle.activo p).

Definition delete (id : Z) : M num (ProductoDetalle.t num) :=
  Prisma.update productoDetalle (fun p => ProductoDetalle.id p =? id)
    (ProductoDetalle.conActivo false).

Definition reactivate (id : Z) : M num (ProductoDetalle.t num) :=
  Prisma.update productoDetalle (fun p => ProductoDetalle.id p =? id)
    (ProductoDetalle.conActivo true).

Definition findAllByProductoId (productoId : Z)
  : M num (list (ProductoDetalle.t num)) :=
  Prisma.findMany productoDetalle
    (fun p => (ProductoDetalle.productoId p =? productoId)
              && ProductoDetalle.activo p).

Definition findByProductoIdAndTalleAndColor (productoId : Z) (talle : Talle)
  (color : Color) : M num (option (ProductoDetalle.t num)) :=
  Prisma.findFirst productoDetalle
    (fun p => (ProductoDetalle.productoId p =? productoId)
              && Talle_beq (ProductoDetalle.talle p) talle
              && Color_beq (ProductoDetalle.color p) color
              && ProductoDetalle.activo p).

Definition findAllByStockActualGreaterThan (stockMinimo : Z)
  : M num (list (ProductoDetalle.t num)) :=
  Prisma.findMany productoDetalle
    (fun p => (stockMinimo <? ProductoDetalle.stockActual p)
              && ProductoDetalle.activo p).

(** An absent filter ([undefined]) adds no condition. *)
Definition siDefinido {A : Type} (o : option A) (c : A -> bool) : bool :=
  match o with
  | Some a => c a
  | None => true
  end.

Definition filtrarPorOpciones (productoId : option Z) (color : option Color)
  (talle : option Talle) (stockMin : option Z)
  : M num (list (ProductoDetalle.t num)) :=
  Prisma.findMany productoDetalle
    (fun p => ProductoDetalle.activo p
              && siDefinido productoId (Z.eqb (ProductoDetalle.productoId p))
              && siDefinido color (Color_beq (ProductoDetalle.color p))
              && siDefinido talle (Talle_beq (ProductoDetalle.talle p))
              && siDefinido stockMin
                   (fun m => m <=? ProductoDetalle.stockActual p)).

Definition descontarStock (productoDetalleId cantidad : Z) : M num unit :=
  transaccion
    (d <- Prisma.findUnique productoDetalle
            (fun p => (ProductoDetalle.id p =? productoDetalleId)
                      && ProductoDetalle.activo p) ;;
     match d with
     | None => lanzar (ProductoDetalleNoEncontradoOInactivoConId productoDetalleId)
     | Some detalle =>
       if ProductoDetalle.stockActual detalle <? cantidad
       then lanzar (StockInsuficienteDetalle productoDetalleId
                      (ProductoDetalle.stockActual detalle) cantidad)
       else
       Prisma.update productoDetalle
         (fun p => ProductoDetalle.id p =? productoDetalleId)
         (ProductoDetalle.conStockActual
            (ProductoDetalle.stockActual detalle - cantidad)) ;;;
       ret tt
     end).

Definition obtenerTallesDisponibles (productoId : Z) : M num (list Talle) :=
  detalles <- Prisma.findMany productoDetalle
                (fun p => (ProductoDetalle.productoId p =? productoId)
                          && ProductoDetalle.activo p) ;;
  ret (map ProductoDetalle.talle
         (distintoPor Talle_beq ProductoDetalle.talle detalles)).

Definition obtenerColoresDisponibles (productoId : Z) : M num (list Color) :=
  detalles <- Prisma.findMany productoDetalle
                (fun p => (ProductoDetalle.productoId p =? productoId)
                          && ProductoDetalle.activo p) ;;
  ret (map ProductoDetalle.color
         (distintoPor Color_beq ProductoDetalle.color detalles)).

Definition estaDisponible (productoId : Z) (talle : Talle) (color : Color)
  : M num bool :=
  detalle <- Prisma.findFirst productoDetalle
               (fun p => (ProductoDetalle.productoId p =? productoId)
                         && Talle_beq (ProductoDetalle.talle p) talle
                         && Color_beq (ProductoDetalle.color p) color
                         && ProductoDetalle.activo p
                         && (0 <? ProductoDetalle.stockActual p)) ;;
  ret (match detalle with Some _ => true | None => false end).

End Servicio.
End ProductDetailService.

(** ** DiscountService *)

Module DiscountService.
Section Servicio.
Context {num : Type}.

(** [include: { productos: true }] *)
Definition conProductos (b : BD num) (d : Descuento.t num)
  : Descuento.t num * list (Producto.t num) :=
  (d, filter (fun p => existsb (fun pd => (fst pd =? Producto.id p)
                                        && (snd pd =? Descuento.id d))
                               (productoDescuentos b))
             (productos b)).

Definition findById (id : Z)
  : M num (option (Descuento.t num * list (Producto.t num))) :=
  d <- Prisma.findUnique descuento
         (fun d => (Descuento.id d =? id) && Descuento.activo d) ;;
  b <- leerBD ;;
  ret (option_map (conProductos b) d).

Definition findAll : M num (list (Descuento.t num * list (Producto.t num))) :=
  ds <- Prisma.findMany descuento Descuento.activo ;;
  b <- leerBD ;;
  ret (map (conProductos b) ds).

Definition delete (id : Z) : M num (Descuento.t num) :=
  Prisma.update descuento (fun d => Descuento.id d =? id)
    (Descuento.conActivo false).

Definition reactivate (id : Z) : M num (Descuento.t num) :=
  Prisma.update descuento (fun d => Descuento.id d =? id)
    (Descuento.conActivo true).

End Servicio.
End DiscountService.

(** ** CategoryService *)

(** A category with the relations [includeRelations] asks for. *)
Record CategoriaConRelaciones : Type := mkCategoriaConRelaciones {
  cr_categoria : Categoria.t;
  cr_categoriaPadre : option Categoria.t;
  cr_subcategorias : list Categoria.t
}.

Module CategoryService.
Section Servicio.
Context {num : Type}.

Definition padreDe (b : BD num) (c : Categoria.t) : option Categoria.t :=
  match Categoria.categoriaPadreId c with
  | Some i => Prisma.relacion categoria i b
  | None => None
  end.

Definition hijasDe (b : BD num) (c : Categoria.t) : list Categoria.t :=
  filter (fun s => match Categoria.categoriaPadreId s with
                   | Some i => i =? Categoria.id c
                   | None => false
                   end)
         (categorias b).

(** [include: includeRelations ? { categoriaPadre: true, subcategorias: true }
                               : undefined] *)
Definition conRelaciones (includeRelations : bool) (b : BD num)
  (c : Categoria.t) : CategoriaConRelaciones :=
  if includeRelations
  then mkCategoriaConRelaciones c (padreDe b c) (hijasDe b c)
  else mkCategoriaConRelaciones c None [].

Definition getAllCategories (includeRelations : bool)
  : M num (list CategoriaConRelaciones) :=
  cs <- Prisma.findMany categoria Categoria.activo ;;
  b <- leerBD ;;
  ret (map (conRelaciones includeRelations b) cs).

Definition getCategoryById (id : Z) (includeRelations : bool)
  : M num (option CategoriaConRelaciones) :=
  c <- Prisma.findUnique categoria
         (fun c => (Categoria.id c =? id) && Categoria.activo c) ;;
  b <- leerBD ;;
  ret (option_map (conRelaciones includeRelations b) c).

Definition deleteCategory (id : Z) : M num Categoria.t :=
  Prisma.update categoria (fun c => Categoria.id c =? id)
    (Categoria.conActivo false).

Definition reactivateCategory (id : Z) : M num Categoria.t :=
  Prisma.update categoria (fun c => Categoria.id c =? id)
    (Categoria.conActivo true).

Definition listSubcategories (idPadre : Z) : M num (list CategoriaConRelaciones) :=
  cs <- Prisma.findMany categoria
          (fun c => match Categoria.categoriaPadreId c with
                    | Some i => i =? idPadre
                    | None => false
                    end && Categoria.activo c) ;;
  b <- leerBD ;;
  ret (map (fun c => mkCategoriaConRelaciones c (padreDe b c) []) cs).

Definition listRootCategories : M num (list CategoriaConRelaciones) :=
  cs <- Prisma.findMany categoria
          (fun c => match Categoria.categoriaPadreId c with
                    | Some _ => false
                    | None => true
                    end && Categoria.activo c) ;;
  b <- leerBD ;;
  ret (map (fun c => mkCategoriaConRelaciones c None (hijasDe b c)) cs).

End Servicio.
End CategoryService.

(** ** ImagenService *)

(** An image with [include: { producto: true, usuario: true }]. *)
Record ImagenConRelaciones (num : Type) : Type := mkImagenConRelaciones {
  ir_imagen : Imagen.t;
  ir_producto : option (Producto.t num);
  ir_usuario : option Usuario.t
}.
Arguments mkImagenConRelaciones {num}.
Arguments ir_imagen {num}.
Arguments ir_producto {num}.
Arguments ir_usuario {num}.

Module ImagenService.
Section Servicio.
Context {num : Type}.

Definition conRelaciones (b : BD num) (i : Imagen.t) : ImagenConRelaciones num :=
  mkImagenConRelaciones i
    match Imagen.productoId i with
    | Some p => Prisma.relacion producto p b
    | None => None
    end
    (find (fun u => match Usuario.imagenId u with
                    | Some j => j =? Imagen.id i
                    | None => false
                    end)
          (usuarios b)).

Definition findById (id : Z) : M num (option (ImagenConRelaciones num)) :=
  i <- Prisma.findUnique imagen
         (fun i => (Imagen.id i =? id) && Imagen.activo i) ;;
  b <- leerBD ;;
  ret (option_map (conRelaciones b) i).

Definition findAll (includeInactive : bool)
  : M num (list (ImagenConRelaciones num)) :=
  imgs <- Prisma.findMany imagen
            (fun i => if includeInactive then true else Imagen.activo i) ;;
  b <- leerBD ;;
  ret (map (conRelaciones b) imgs).

Definition delete (id : Z) : M num Imagen.t :=
  Prisma.update imagen (fun i => Imagen.id i =? id) (Imagen.conActivo false).

Definition reactivate (id : Z) : M num Imagen.t :=
  Prisma.update imagen (fun i => Imagen.id i =? id) (Imagen.conActivo true).

End Servicio.
End ImagenService.

(** ** AddressService *)

(** An address with [include: { localidad: true, usuario: true }]. *)
Record DireccionConRelaciones : Type := mkDireccionConRelaciones {
  dr_direccion : Direccion.t;
  dr_localidad : option Localidad.t;
  dr_usuario : option Usuario.t
}.

Module AddressService.
Section Servicio.
Context {num : Type}.

Definition conRelaciones (b : BD num) (d : Direccion.t) : DireccionConRelaciones :=
  mkDireccionConRelaciones d
    (Prisma.relacion localidad (Direccion.localidadId d) b)
    match Direccion.usuarioId d with
    | Some u => Prisma.relacion usuario u b
    | None => None
    end.

Definition findById (id : Z) : M num (option DireccionConRelaciones) :=
  d <- Prisma.findUnique direccion
         (fun d => (Direccion.id d =? id) && Direccion.activo d) ;;
  b <- leerBD ;;
  ret (option_map (conRelaciones b) d).

Definition delete (id : Z) : M num Direccion.t :=
  Prisma.update direccion (fun d => Direccion.id d =? id)
    (Direccion.conActivo false).

Definition reactivate (id : Z) : M num Direccion.t :=
  Prisma.update direccion (fun d => Direccion.id d =? id)
    (Direccion.conActivo true).

Definition listarPorLocalidad (idLocalidad : Z)
  : M num (list DireccionConRelaciones) :=
  ds <- Prisma.findMany direccion
          (fun d => (Direccion.localidadId d =? idLocalidad)
                    && Direccion.activo d) ;;
  b <- leerBD ;;
  ret (map (conRelaciones b) ds).

Definition listarPorUsuarioId (idUsuario : Z)
  : M num (list DireccionConRelaciones) :=
  ds <- Prisma.findMany direccion
          (fun d => UserService.esDe idUsuario d && Direccion.activo d) ;;
  b <- leerBD ;;
  ret (map (conRelaciones b) ds).

Definition findAll (includeInactive : bool)
  : M num (list DireccionConRelaciones) :=
  ds <- Prisma.findMany direccion
          (fun d => if includeInactive then true else Direccion.activo d) ;;
  b <- leerBD ;;
  ret (map (conRelaciones b) ds).

End Servicio.
End AddressService.

(** ** LocationService *)

Record CreateLocalidadPayload : Type := mkCreateLocalidad {
  cl_nombre : string;
  cl_provinciaId : Z;
  cl_activo : option bool
}.

Module LocationService.
Section Servicio.
Context {num : Type}.

(** [include: { provincia: true }] *)
Definition conProvincia (b : BD num) (l : Localidad.t)
  : Localidad.t * option Provincia.t :=
  (l, Prisma.relacion provincia (Localidad.provinciaId l) b).

Definition create (data : CreateLocalidadPayload) : M num Localidad.t :=
  provinciaExists <-
    Prisma.findUnique provincia
      (fun p => Provincia.id p =? cl_provinciaId data) ;;
  match provinciaExists with
  | None => lanzar ProvinciaNoEncontrada
  | Some _ =>
      Prisma.create localidad
        (fun i => Localidad.mk i true (cl_nombre data) (cl_provinciaId data))
  end.

Definition findById (id : Z) : M num (option (Localidad.t * option Provincia.t)) :=
  l <- Prisma.findUnique localidad
         (fun l => (Localidad.id l =? id) && Localidad.activo l) ;;
  b <- leerBD ;;
  ret (option_map (conProvincia b) l).

Definition findAll (includeInactive : bool)
  : M num (list (Localidad.t * option Provincia.t)) :=
  ls <- Prisma.findMany localidad
          (fun l => if includeInactive then true else Localidad.activo l) ;;
  b <- leerBD ;;
  ret (map (conProvincia b) ls).

Definition findByProvinciaId (provinciaId : Z)
  : M num (list (Localidad.t * option Provincia.t)) :=
  p <- Prisma.findUnique provincia (fun p => Provincia.id p =? provinciaId) ;;
  match p with
  | None => lanzar ProvinciaNoEncontrada
  | Some _ =>
      ls <- Prisma.findMany localidad
              (fun l => (Localidad.provinciaId l =? provinciaId)
                        && Localidad.activo l) ;;
      b <- leerBD ;;
      ret (map (conProvincia b) ls)
  end.

Definition delete (id : Z) : M num Localidad.t :=
  intentar
    (Prisma.update localidad
       (fun l => (Localidad.id l =? id) && Localidad.activo l)
       (Localidad.conActivo false))
    (fun error =>
       match error with
       | RegistroNoEncontrado => lanzar LocalidadNoEncontradaOYaDesactivada
       | _ => lanzar error
       end).

Definition reactivate (id : Z) : M num Localidad.t :=
  intentar
    (Prisma.update localidad
       (fun l => (Localidad.id l =? id) && negb (Localidad.activo l))
       (Localidad.conActivo true))
    (fun error =>
       match error with
       | RegistroNoEncontrado => lanzar LocalidadNoEncontradaOYaActiva
       | _ => lanzar error
       end).

End Servicio.
End LocationService.

(** ** ProvinceService *)

Module ProvinceService.
Section Servicio.
Context {num : Type}.

(** [orderBy: { nombre: 'asc' }]; text compares by code unit here, and by
    the collation of the column in the database. *)
Definition findAll : M num (list Provincia.t) :=
  ps <- Prisma.findMany provincia Provincia.activo ;;
  ret (ordenarPor (fun p q => String.leb (Provincia.nombre p) (Provincia.nombre q))
                  ps).

Definition findById (id : Z) : M num (option Provincia.t) :=
  Prisma.findUnique provincia
    (fun p => (Provincia.id p =? id) && Provincia.activo p).

(** [findFirst] with [nombre: { equals: nombre, mode: 'insensitive' }]:
    [mode] is no argument of the client generated for MySQL, and the call
    throws its validation error. *)
Definition findByNombre (nombre : string) : M num (option Provincia.t) :=
  lanzar ErrorDeValidacion.

Definition delete (id : Z) : M num (option Provincia.t) :=
  intentar
    (p <- Prisma.update provincia
            (fun p => (Provincia.id p =? id) && Provincia.activo p)
            (Provincia.conActivo false) ;;
     ret (Some p))
    (fun error =>
       match error with
       | RegistroNoEncontrado => ret None
       | _ => lanzar error
       end).

Definition reactivate (id : Z) : M num (option Provincia.t) :=
  intentar
    (p <- Prisma.findUnique provincia (fun p => Provincia.id p =? id) ;;
     match p with
     | None => ret None
     | Some laProvincia =>
         if Provincia.activo laProvincia then ret (Some laProvincia)
         else
         r <- Prisma.update provincia (fun p => Provincia.id p =? id)
                (Provincia.conActivo true) ;;
         ret (Some r)
     end)
    (fun error =>
       match error with
       | RegistroNoEncontrado => ret None
       | _ => lanzar error
       end).

End Servicio.
End ProvinceService.

(** ** The routes of order lines *)

Module OrderDetailRoutes.

(** [handleOrderDetailError]: the status of the response for an error of
    the service.  Of the ORM's errors the model raises P2025 alone; P2003
    and P2002 do not arise in it. *)
Definition handleOrderDetailError (error : Error) : Z :=
  match error with
  | RegistroNoEncontrado => 404
  | _ =>
    let message := mensaje error in
    if Texto.includes message "Missing required fields"
       || Texto.includes message "ID inválido"
       || Texto.includes message "No data provided"
    then 400
    else if Texto.includes message "not found"
            || Texto.includes message "no encontrado"
            || Texto.includes message "no existe"
    then 404
    else if Texto.includes message "already deactivated"
            || Texto.includes message "ya desactivado"
            || Texto.includes message "already active"
    then 400
    else 500
  end.

End OrderDetailRoutes.

(** ** The rules under study *)

Section Reglas.
Context {num : Type} {N : Numero num}.

(** *** Order lines and stock *)

(** What a successful [OrderDetailService.create] leaves behind: the new
    active line at the end of its table, and the variant with its stock
    lowered by the requested quantity. *)
Definition lineaCreada (w w' : Mundo num)
  (data : CreateOrdenCompraDetallePayload) (pd : ProductoDetalle.t num)
  (d : OrdenCompraDetalle.t num) : Prop :=
  ordenCompraDetalles (bd w') = ordenCompraDetalles (bd w) ++ [d]
  /\ OrdenCompraDetalle.activo d = true
  /\ OrdenCompraDetalle.cantidad d = cd_cantidad data
  /\ OrdenCompraDetalle.ordenCompraId d = cd_ordenCompraId data
  /\ OrdenCompraDetalle.productoDetalleId d = cd_productoDetalleId data
  /\ OrdenCompraDetalle.subtotal d
     = nmult (ProductoDetalle.precioCompra pd) (deEntero (cd_cantidad data))
  /\ Prisma.relacion productoDetalle (cd_productoDetalleId data) (bd w')
     = Some (ProductoDetalle.mk (ProductoDetalle.id pd)
               (ProductoDetalle.activo pd) (ProductoDetalle.precioCompra pd)
               (ProductoDetalle.stockActual pd - cd_cantidad data)
               (ProductoDetalle.cantidad pd) (ProductoDetalle.stockMaximo pd)
               (ProductoDetalle.color pd) (ProductoDetalle.talle pd)
               (ProductoDetalle.productoId pd)).

(** The rule for every request on an existing order and an existing
    variant, whoever sends it, on a database that refuses no statement. *)
Definition reglaCreacionDeLinea (w : Mundo num)
  (data : CreateOrdenCompraDetallePayload) (currentUser : AuthUser) : Prop :=
  fallas w = [] ->
  forall o pd,
    find (fun o => OrdenCompra.id o =? cd_ordenCompraId data)
         (ordenesCompra (bd w)) = Some o ->
    find (fun p => ProductoDetalle.id p =? cd_productoDetalleId data)
         (productoDetalles (bd w)) = Some pd ->
    (ProductoDetalle.stockActual pd < cd_cantidad data ->
     exists e, OrderDetailService.create data currentUser w = (Lanza e, w))
    /\ (cd_cantidad data <= ProductoDetalle.stockActual pd ->
        exists d w', OrderDetailService.create data currentUser w = (Ok d, w')
                     /\ lineaCreada w w' data pd d).

(** *** Orders *)


(** *** The discount window *)

(** The calendar day and the time of day, in seconds, that a clock at the
    offset [c] from UTC shows at the instant [t]. *)
Definition diaEn (c t : Z) : Z := (t + c) / Fecha.DIA.

Definition segundosEn (c t : Z) : Z :=
  Fecha.getHours c t * 3600 + Fecha.getMinutes c t * 60 + Fecha.getSeconds c t.

(** The instant [hoy] lies inside the window of the discount [d], both read
    on one clock, the one at the offset [c]: the day of [hoy] is between the
    calendar days [fechaDesde] and [fechaHasta], which the database keeps as
    midnights of UTC, and its time of day between the times of day of
    [horaDesde] and [horaHasta]. *)
Definition enVentana (c hoy : Z) (d : Descuento.t num) : bool :=
  (diaEn 0 (Descuento.fechaDesde d) <=? diaEn c hoy)
  && (diaEn c hoy <=? diaEn 0 (Descuento.fechaHasta d))
  && (segundosEn c (Descuento.horaDesde d) <=? segundosEn c hoy)
  && (segundosEn c hoy <=? segundosEn c (Descuento.horaHasta d)).

(** The price with the discount [d]. *)
Definition precioCon (precioVenta : num) (d : Descuento.t num) : num :=
  nmult precioVenta (nresta nuno (Descuento.precioPromocional d)).

(** The lower of two prices, the first when neither is lower. *)
Definition menorPrecio (a b : num) : num := if nmenor b a then b else a.

(** The lowest of the original price and the prices with the discounts
    whose window holds [hoy]. *)
Definition precioMasBajo (c hoy : Z) (precioVenta : num)
  (ds : list (Descuento.t num)) : num :=
  fold_left menorPrecio
    (map (precioCon precioVenta) (filter (enVentana c hoy) ds)) precioVenta.

(** *** Soft delete *)

(** The delete operations of the services. *)
Inductive Borrado : Type :=
| Order_delete (id : Z)
| OrderDetail_delete (id : Z)
| Product_deleteProduct (id : Z)
| ProductDetail_delete (id : Z)
| Discount_delete (id : Z)
| Category_deleteCategory (id : Z)
| Imagen_delete (id : Z)
| Address_delete (id : Z)
| Location_delete (id : Z)
| Province_delete (id : Z)
| User_deactivateAccount (uniqueId : string) (userId : Z)
| User_removeDireccionFromUser (userId direccionId : Z).

Definition ejecutarBorrado (op : Borrado) : M num unit :=
  match op with
  | Order_delete i => OrderService.delete i ;;; ret tt
  | OrderDetail_delete i => OrderDetailService.delete i ;;; ret tt
  | Product_deleteProduct i => ProductService.deleteProduct i ;;; ret tt
  | ProductDetail_delete i => ProductDetailService.delete i ;;; ret tt
  | Discount_delete i => DiscountService.delete i ;;; ret tt
  | Category_deleteCategory i => CategoryService.deleteCategory i ;;; ret tt
  | Imagen_delete i => ImagenService.delete i ;;; ret tt
  | Address_delete i => AddressService.delete i ;;; ret tt
  | Location_delete i => LocationService.delete i ;;; ret tt
  | Province_delete i => ProvinceService.delete i ;;; ret tt
  | User_deactivateAccount u i => UserService.deactivateAccount u i ;;; ret tt
  | User_removeDireccionFromUser u d => UserService.removeDireccionFromUser u d
  end.

(** The one operation that calls [prisma.direccion.delete]. *)
Definition esFisico (op : Borrado) : bool :=
  match op with
  | User_removeDireccionFromUser _ _ => true
  | _ => false
  end.

(** Every table holds the rows, by id, it held before, and the two join
    tables are as they were. *)
Definition mismasFilas (b b' : BD num) : Prop :=
  map ent_id (categorias b') = map ent_id (categorias b)
  /\ map ent_id (descuentos b') = map ent_id (descuentos b)
  /\ map ent_id (direcciones b') = map ent_id (direcciones b)
  /\ map ent_id (imagenes b') = map ent_id (imagenes b)
  /\ map ent_id (localidades b') = map ent_id (localidades b)
  /\ map ent_id (ordenesCompra b') = map ent_id (ordenesCompra b)
  /\ map ent_id (ordenCompraDetalles b') = map ent_id (ordenCompraDetalles b)
  /\ map ent_id (productos b') = map ent_id (productos b)
  /\ map ent_id (productoDetalles b') = map ent_id (productoDetalles b)
  /\ map ent_id (provincias b') = map ent_id (provincias b)
  /\ map ent_id (usuarios b') = map ent_id (usuarios b)
  /\ productoCategorias b' = productoCategorias b
  /\ productoDescuentos b' = productoDescuentos b.

(** A table handle reads back what it wrote and touches no other table. *)
Definition tablaLegal {R : Type} {E : Entidad R} (T : Tabla num R) : Prop :=
  (forall t b, filas T (conFilas T t b) = t)
  /\ (forall t b, map ent_id t = map ent_id (filas T b) ->
                  mismasFilas b (conFilas T t b)).

Definition inactivaEn {R : Type} {E : Entidad R} (T : Tabla num R) (i : Z)
  (b : BD num) : Prop :=
  forall r, Prisma.relacion T i b = Some r -> ent_activo r = false.

(** The row the operation names is inactive. *)
Definition quedaInactiva (op : Borrado) (b : BD num) : Prop :=
  match op with
  | Order_delete i => inactivaEn ordenCompra i b
  | OrderDetail_delete i => inactivaEn ordenCompraDetalle i b
  | Product_deleteProduct i => inactivaEn producto i b
  | ProductDetail_delete i => inactivaEn productoDetalle i b
  | Discount_delete i => inactivaEn descuento i b
  | Category_deleteCategory i => inactivaEn categoria i b
  | Imagen_delete i => inactivaEn imagen i b
  | Address_delete i => inactivaEn direccion i b
  | Location_delete i => inactivaEn localidad i b
  | Province_delete i => inactivaEn provincia i b
  | User_deactivateAccount _ i => inactivaEn usuario i b
  | User_removeDireccionFromUser _ d => inactivaEn direccion d b
  end.

(** The operation removes no row, and when it succeeds the row it names is
    inactive. *)
Definition borradoLogico (op : Borrado) : Prop :=
  forall (w w' : Mundo num) (r : Resultado unit),
    ejecutarBorrado op w = (r, w') ->
    mismasFilas (bd w) (bd w') /\ (r = Ok tt -> quedaInactiva op (bd w')).

(** *** Default queries *)

(** [m] returns only rows [esActivo] accepts, in the database it ran on. *)
Definition devuelveActivos {X : Type} (m : M num (list X))
  (esActivo : BD num -> X -> bool) : Prop :=
  forall w rs w', m w = (Ok rs, w') ->
    Forall (fun x => esActivo (bd w) x = true) rs.

Definition devuelveActivo {X : Type} (m : M num (option X))
  (esActivo : BD num -> X -> bool) : Prop :=
  forall w x w', m w = (Ok (Some x), w') -> esActivo (bd w) x = true.

(** A DTO that carries no [activo] stands for the row of its id. *)
Definition productoActivo (b : BD num) (dto : ProductoDTO num) : bool :=
  existsb (fun p => (Producto.id p =? pdto_id dto) && Producto.activo p)
          (productos b).

(** An order line and the rows embedded in it are all active. *)
Definition lineaTodaActiva
  (r : OrdenCompraDetalle.t num * option (OrdenCompra.t num)
       * option (ProductoDetalle.t num)) : bool :=
  OrdenCompraDetalle.activo (fst (fst r))
  && match snd (fst r) with
     | Some o => OrdenCompra.activo o
     | None => true
     end
  && match snd r with
     | Some p => ProductoDetalle.activo p
     | None => true
     end.

End Reglas.

(** ** Further rules *)

(** Filters whose text the model reads as the database and the runtime do:
    no [denominacion], which the client refuses; no [categorias], whose
    names the database compares under the collation of the column; and
    names of colours and talles in ASCII, where [toUpperCase] is the
    runtime's. *)
Definition sinDenominacion {num : Type} (f : ProductFilters num) : bool :=
  match f_denominacion f with
  | Some (String _ _) => false
  | _ => true
  end.

Definition sinCategorias {num : Type} (f : ProductFilters num) : bool :=
  match f_categorias f with
  | Some (_ :: _) => false
  | _ => true
  end.

Definition nombresAscii (xs : option (list string)) : bool :=
  match xs with
  | Some l => forallb Texto.esAscii l
  | None => true
  end.

(** The filters without the colours, and without the talles. *)
Definition sinColores {num : Type} (f : ProductFilters num) : ProductFilters num :=
  mkProductFilters (f_denominacion f) (f_categorias f) (f_sexo f)
    (f_tienePromocion f) (f_minPrice f) (f_maxPrice f) None (f_talles f)
    (f_stockMinimo f) (f_orderBy f) (f_orderDirection f).

Definition sinTalles {num : Type} (f : ProductFilters num) : ProductFilters num :=
  mkProductFilters (f_denominacion f) (f_categorias f) (f_sexo f)
    (f_tienePromocion f) (f_minPrice f) (f_maxPrice f) (f_colores f) None
    (f_stockMinimo f) (f_orderBy f) (f_orderDirection f).

(** Two DTOs are in the order [orderBy] and [orderDirection] ask for; a
    missing direction is ascending. *)
Definition enOrden {num : Type} {N : Numero num} (campo : OrderBy)
  (direction : option OrderDirection) (a b : ProductoDTO num) : bool :=
  let le (x y : ProductoDTO num) : bool :=
    match campo with
    | PorDenominacion =>
        String.leb (pdto_denominacion x) (pdto_denominacion y)
    | PorPrecioVenta => nmenorIg (pdto_precioOriginal x) (pdto_precioOriginal y)
    | PorSexo => Sexo_indice (pdto_sexo x) <=? Sexo_indice (pdto_sexo y)
    | PorTienePromocion =>
        implb (pdto_tienePromocion x) (pdto_tienePromocion y)
    | PorId => pdto_id x <=? pdto_id y
    end in
  match direction with
  | Some Desc => le b a
  | _ => le a b
  end.

(** ** A shop to run the services on *)

Module Ejemplo.

Definition usuarioDe (i : Z) (a : bool) (n e : string) (r : Rol)
  (baja : option Z) : Usuario.t :=
  Usuario.mk i a None (Some n) n "Gomez" e None None None None r None
    "secreto" 0 0 baja.

Definition ana : Usuario.t :=
  usuarioDe 1 true "ana" "ana@example.com" CLIENTE None.
Definition beto : Usuario.t :=
  usuarioDe 2 true "beto" "beto@example.com" CLIENTE None.
(** An account that was deactivated. *)
Definition carla : Usuario.t :=
  usuarioDe 3 false "deactivated_7f" "deactivated_7f@ecommerce.com" CLIENTE
    (Some 1000).
Definition dora : Usuario.t :=
  usuarioDe 4 true "dora" "dora@example.com" ADMIN None.

Definition camisa : Producto.t float :=
  Producto.mk 1 true "Camisa" 100%float UNISEX true.

Definition camisaM : ProductoDetalle.t float :=
  ProductoDetalle.mk 1 true 10%float 5 5 50 AZUL M_ 1.
(** A variant that was soft-deleted. *)
Definition camisaL : ProductoDetalle.t float :=
  ProductoDetalle.mk 2 false 20%float 3 3 50 AZUL L_ 1.

Definition ordenDeAna : OrdenCompra.t float :=
  OrdenCompra.mk 1 true 40%float 1749945600000 "Calle 1" (Some 1).

Definition lineaM : OrdenCompraDetalle.t float :=
  OrdenCompraDetalle.mk 1 true 2 20%float 1 1.
Definition lineaL : OrdenCompraDetalle.t float :=
  OrdenCompraDetalle.mk 2 true 1 20%float 1 2.
(** A line that was soft-deleted. *)
Definition lineaBaja : OrdenCompraDetalle.t float :=
  OrdenCompraDetalle.mk 3 false 4 40%float 1 1.

Definition mendoza : Provincia.t := Provincia.mk 1 true "Mendoza".
Definition maipu : Localidad.t := Localidad.mk 1 true "Maipu" 1.

Definition casa : Direccion.t :=
  Direccion.mk 1 true "San Martin" 100 None None 5500 1 (Some 1).
(** An address that [AddressService.delete] soft-deleted. *)
Definition oficina : Direccion.t :=
  Direccion.mk 2 false "Belgrano" 200 None None 5500 1 (Some 1).

(** 2025-06-01 to 2025-06-30, each day from 00:00:00.000 to 00:00:00.500
    UTC, half price. *)
Definition medianoche : Descuento.t float :=
  Descuento.mk 1 true "Medianoche" 1748736000000 1751241600000 0 500 None
    0.5%float.

(** 2025-06-01 to 2025-06-30, each day from 09:00:00 to 18:00:00 UTC, a
    quarter off. *)
Definition diurno : Descuento.t float :=
  Descuento.mk 2 true "Diurno" 1748736000000 1751241600000 32400000 64800000
    None 0.25%float.

(** 2025-06-01 to 2025-06-30, each day from 10:00:00 to 18:00:00 of
    Argentina, UTC-3, a quarter off: the row [DiscountService.create] stores
    on a server that keeps that time, where
    [new Date("1970-01-01T10:00:00")] is 13:00:00 UTC. *)
Definition comercial : Descuento.t float :=
  Descuento.mk 3 true "Comercial" 1748736000000 1751241600000 46800000
    75600000 None 0.25%float.

Definition tienda : BD float :=
  mkBD [] [medianoche; diurno] [casa; oficina] [] [maipu] [ordenDeAna]
    [lineaM; lineaL; lineaBaja] [camisa] [camisaM; camisaL] [mendoza]
    [ana; beto; carla; dora] [] [(1, 2)].

(** 2025-06-15 12:00:00 UTC on a server that keeps UTC, and a database
    that refuses no statement. *)
Definition mediodia : Mundo float := mkMundo tienda 1749988800000 0 [].

(** The same, at 2025-06-15 22:30:00 UTC. *)
Definition noche : Mundo float := mkMundo tienda 1750026600000 0 [].

(** 2025-06-15 11:00:00 in Mendoza, 14:00:00 UTC, on a server that keeps
    the time of Argentina, UTC-3. *)
Definition enMendoza : Mundo float :=
  mkMundo tienda 1749996000000 (-10800000) [].

(** The same as [mediodia], with a database that takes the first write and
    refuses the second. *)
Definition segundaFalla : Mundo float := mkMundo tienda 1749988800000 0 [false; true].

Definition comoAna : AuthUser := mkAuthUser 1 "ana@example.com" CLIENTE.
Definition comoBeto : AuthUser := mkAuthUser 2 "beto@example.com" CLIENTE.
Definition comoDora : AuthUser := mkAuthUser 4 "dora@example.com" ADMIN.

(** Two more shirts for the order of Ana. *)
Definition dosCamisas : CreateOrdenCompraDetallePayload := mkCreateDetalle 1 1 2.

Definition pedido : CreateOrdenCompraPayload :=
  mkCreateOrden "Calle 2" (Some [mkNested 1 2; mkNested 1 3]) 1.

Definition pedidoSimple : CreateOrdenCompraPayload :=
  mkCreateOrden "Calle 2" (Some [mkNested 1 2]) 1.

(** The shirt with the discount that ends in the first second of the day. *)
Definition camisaDeMedianoche : ProductoConDescuentos float :=
  mkProductoConDescuentos 100%float true [medianoche].

Definition camisaDiurna : ProductoConDescuentos float :=
  mkProductoConDescuentos 100%float true [diurno].

Definition camisaComercial : ProductoConDescuentos float :=
  mkProductoConDescuentos 100%float true [comercial].

End Ejemplo.

(** ** A shop with categories and a second product *)

Module Surtido.

Definition ropa : Categoria.t := Categoria.mk 1 true "Ropa" None.
Definition remeras : Categoria.t := Categoria.mk 2 true "Remeras" (Some 1).
(** A subcategory that was soft-deleted. *)
Definition buzos : Categoria.t := Categoria.mk 3 false "Buzos" (Some 1).

Definition pantalon : Producto.t float :=
  Producto.mk 2 true "Pantalon" 80%float UNISEX false.

Definition tienda : BD float :=
  conFilas categoria [ropa; remeras; buzos]
    (conFilas producto [Ejemplo.camisa; pantalon] Ejemplo.tienda).

(** 2025-06-15 12:00:00 UTC on a server that keeps UTC, and a database
    that refuses no statement. *)
Definition mediodia : Mundo float := mkMundo tienda 1749988800000 0 [].

(** Every product, dearest first. *)
Definition porPrecio : ProductFilters float :=
  mkProductFilters None None None None None None None None None
    (Some PorPrecioVenta) (Some Desc).

(** The products of at most 90. *)
Definition hastaNoventa : ProductFilters float :=
  mkProductFilters None None None None None (Some 90%float) None None None
    None None.

(** The products whose name contains "cam". *)
Definition conNombre : ProductFilters float :=
  mkProductFilters (Some "cam"%string) None None None None None None None
    None None None.

(** The products in a colour the shop does not know. *)
Definition turquesa : ProductFilters float :=
  mkProductFilters None None None None None None
    (Some ["turquesa"%string]) None None None None.

(** A payload that asks for an inactive localidad. *)
Definition godoyCruz : CreateLocalidadPayload :=
  mkCreateLocalidad "Godoy Cruz" 1 (Some false).

End Surtido.

(** * Properties *)

(** ** The ORM client *)

Section HechosPrisma.
Context {num R : Type} {E : Entidad R}.

Lemma actualizarPrimero_find (w : R -> bool) (f : R -> R) (t : list R) (r : R) :
  find w t = Some r ->
  exists t', Prisma.actualizarPrimero w f t = Some (f r, t')
             /\ (w (f r) = true -> find w t' = Some (f r))
             /\ ((forall x, ent_id (f x) = ent_id x) ->
                 map ent_id t' = map ent_id t).
Proof.
  induction t as [|x t IH]; simpl; intros Hf; [discriminate|].
  destruct (w x) eqn:Hx.
  - inversion Hf; subst. exists (f r :: t). split; [reflexivity|]. split.
    + intros Hw. simpl. now rewrite Hw.
    + intros Hid. simpl. now rewrite Hid.
  - destruct (IH Hf) as (t' & Hu & Hfind & Hids). rewrite Hu.
    exists (x :: t'). split; [reflexivity|]. split.
    + intros Hw. simpl. rewrite Hx. auto.
    + intros Hid. simpl. now rewrite Hids.
Qed.

End HechosPrisma.

(** ** Order lines and stock *)

Section LineasYStock.
Context {num : Type} {N : Numero num}.

(** C1, as the code has it.  On an existing order and an existing variant:
    when the requested quantity exceeds [stockActual] the request fails and
    the world is as it was, so no line is created; a CLIENTE who is not the
    user of the order is refused with the error of the text "No autorizado
    para crear detalles en esta orden de compra." and the world is as it
    was; otherwise, for an ADMIN or for the CLIENTE who is the user of the
    order, on a database that refuses no statement, the line is created
    and the variant is stored with its stock lowered by exactly the
    requested quantity and every other column as it was. *)
Theorem create_descuenta_stock (data : CreateOrdenCompraDetallePayload)
  (currentUser : AuthUser) (w : Mundo num) (o : OrdenCompra.t num)
  (pd : ProductoDetalle.t num) :
  find (fun o => OrdenCompra.id o =? cd_ordenCompraId data)
       (ordenesCompra (bd w)) = Some o ->
  find (fun p => ProductoDetalle.id p =? cd_productoDetalleId data)
       (productoDetalles (bd w)) = Some pd ->
  (ProductoDetalle.stockActual pd < cd_cantidad data ->
   exists e, OrderDetailService.create data currentUser w = (Lanza e, w))
  /\ (au_rol currentUser = CLIENTE ->
      OrdenCompra.usuarioId o <> Some (au_id currentUser) ->
      OrderDetailService.create data currentUser w
      = (Lanza NoAutorizadoCrearDetalle, w)
      /\ mensaje NoAutorizadoCrearDetalle
         = "No autorizado para crear detalles en esta orden de compra."%string)
  /\ (cd_cantidad data <= ProductoDetalle.stockActual pd ->
      au_rol currentUser = ADMIN
      \/ (OrdenCompra.usuarioId o = Some (au_id currentUser)
          /\ exists u, Prisma.relacion usuario (au_id currentUser) (bd w)
                       = Some u) ->
      fallas w = [] ->
      exists d w', OrderDetailService.create data currentUser w = (Ok d, w')
                   /\ lineaCreada w w' data pd d
                   /\ forall pd',
                        Prisma.relacion productoDetalle
                          (cd_productoDetalleId data) (bd w') = Some pd' ->
                        ProductoDetalle.stockActual pd'
                        = ProductoDetalle.stockActual pd - cd_cantidad data).
Proof.
  intros Ho Hp. split; [|split].
  - intros Hlt.
    unfold OrderDetailService.create, Prisma.findUnique, ligar, leerBD, ret,
      lanzar.
    simpl. rewrite Ho.
    destruct (OrderDetailService.clienteAjeno _ _); [eauto|].
    rewrite Hp. apply Z.ltb_lt in Hlt. rewrite Hlt. eauto.
  - intros Hrol Hajeno. split; [|reflexivity].
    assert (Hc : OrderDetailService.clienteAjeno currentUser
                   (OrderDetailService.usuarioDe (bd w) o) = true).
    { unfold OrderDetailService.clienteAjeno, OrderDetailService.usuarioDe.
      rewrite Hrol. cbn [Rol_beq andb].
      destruct (OrdenCompra.usuarioId o) as [k|]; [|reflexivity].
      destruct (Prisma.relacion usuario k (bd w)) as [u|] eqn:Hu;
        [|reflexivity].
      apply find_some in Hu as [_ Hu]. cbn in Hu. apply Z.eqb_eq in Hu.
      apply negb_true_iff, Z.eqb_neq. congruence. }
    unfold OrderDetailService.create, Prisma.findUnique, ligar, leerBD, ret,
      lanzar.
    simpl. rewrite Ho. cbn [bd]. now rewrite Hc.
  - intros Hle Hquien Hf.
    assert (Haut : OrderDetailService.clienteAjeno currentUser
                     (OrderDetailService.usuarioDe (bd w) o) = false).
    { unfold OrderDetailService.clienteAjeno, OrderDetailService.usuarioDe.
      destruct Hquien as [Hadmin|[Hdueno [u Hu]]].
      - now rewrite Hadmin.
      - rewrite Hdueno, Hu. apply find_some in Hu as [_ Hu]. cbn in Hu.
        rewrite Hu. apply andb_false_r. }
    destruct w as [b r z fs]; simpl in *; subst fs.
    pose proof (find_some _ _ Hp) as [_ Hid]. apply Z.eqb_eq in Hid.
    destruct (actualizarPrimero_find
                (fun p => ProductoDetalle.id p =? ProductoDetalle.id pd)
                (fun p => ProductoDetalle.conStockActual
                    (ProductoDetalle.stockActual p - cd_cantidad data) p)
                (productoDetalles b) pd) as (t' & Hu & Hfind & _).
    { rewrite Hid. exact Hp. }
    unfold OrderDetailService.create, Prisma.findUnique, Prisma.create,
      Prisma.update, sentencia, ponerBD, ligar, leerBD, ret, lanzar.
    simpl. rewrite Ho. cbn [bd]. rewrite Haut. simpl. rewrite Hp.
    apply Z.ltb_ge in Hle. rewrite Hle. simpl. rewrite Hu.
    eexists. eexists. split; [reflexivity|].
    assert (Hesta : find (fun p => ProductoDetalle.id p
                                   =? cd_productoDetalleId data) t'
                    = Some (ProductoDetalle.conStockActual
                              (ProductoDetalle.stockActual pd
                               - cd_cantidad data) pd)).
    { rewrite <- Hid. apply Hfind. simpl. apply Z.eqb_refl. }
    split.
    + unfold lineaCreada. simpl. repeat split.
      unfold Prisma.relacion. simpl. exact Hesta.
    + intros pd'. unfold Prisma.relacion. simpl. rewrite Hesta.
      intros H; inversion H; subst. reflexivity.
Qed.

(** C4.  For a line and the variant it points to, on a database that
    refuses no statement: deleting the line while it is active stores it
    with [activo] false and stores the variant with its stock raised by
    the quantity of the line; reactivating it while it is inactive fails
    and leaves the world as it was when the stock is below that quantity,
    and otherwise stores the line with [activo] true and the variant with
    its stock lowered by that quantity.  Every other column of the two
    rows is as it was. *)
Theorem delete_y_reactivate_stock (w : Mundo num) (i : Z)
  (d : OrdenCompraDetalle.t num) (pd : ProductoDetalle.t num) :
  find (fun x => OrdenCompraDetalle.id x =? i) (ordenCompraDetalles (bd w))
    = Some d ->
  Prisma.relacion productoDetalle (OrdenCompraDetalle.productoDetalleId d)
    (bd w) = Some pd ->
  (OrdenCompraDetalle.activo d = true -> fallas w = [] ->
   exists d' pd' w',
     OrderDetailService.delete i w = (Ok d', w')
     /\ Prisma.relacion ordenCompraDetalle i (bd w') = Some d'
     /\ Prisma.relacion productoDetalle
          (OrdenCompraDetalle.productoDetalleId d) (bd w') = Some pd'
     /\ OrdenCompraDetalle.activo d' = false
     /\ ProductoDetalle.stockActual pd'
        = ProductoDetalle.stockActual pd + OrdenCompraDetalle.cantidad d
     /\ d' = OrdenCompraDetalle.mk (OrdenCompraDetalle.id d) false
               (OrdenCompraDetalle.cantidad d) (OrdenCompraDetalle.subtotal d)
               (OrdenCompraDetalle.ordenCompraId d)
               (OrdenCompraDetalle.productoDetalleId d)
     /\ pd' = ProductoDetalle.mk (ProductoDetalle.id pd)
                (ProductoDetalle.activo pd) (ProductoDetalle.precioCompra pd)
                (ProductoDetalle.stockActual pd
                 + OrdenCompraDetalle.cantidad d)
                (ProductoDetalle.cantidad pd) (ProductoDetalle.stockMaximo pd)
                (ProductoDetalle.color pd) (ProductoDetalle.talle pd)
                (ProductoDetalle.productoId pd))
  /\ (OrdenCompraDetalle.activo d = false ->
      ProductoDetalle.stockActual pd < OrdenCompraDetalle.cantidad d ->
      exists e, OrderDetailService.reactivate i w = (Lanza e, w))
  /\ (OrdenCompraDetalle.activo d = false ->
      OrdenCompraDetalle.cantidad d <= ProductoDetalle.stockActual pd ->
      fallas w = [] ->
      exists d' pd' w',
        OrderDetailService.reactivate i w = (Ok d', w')
        /\ Prisma.relacion ordenCompraDetalle i (bd w') = Some d'
        /\ Prisma.relacion productoDetalle
             (OrdenCompraDetalle.productoDetalleId d) (bd w') = Some pd'
        /\ OrdenCompraDetalle.activo d' = true
        /\ ProductoDetalle.stockActual pd'
           = ProductoDetalle.stockActual pd - OrdenCompraDetalle.cantidad d
        /\ d' = OrdenCompraDetalle.mk (OrdenCompraDetalle.id d) true
                  (OrdenCompraDetalle.cantidad d)
                  (OrdenCompraDetalle.subtotal d)
                  (OrdenCompraDetalle.ordenCompraId d)
                  (OrdenCompraDetalle.productoDetalleId d)
        /\ pd' = ProductoDetalle.mk (ProductoDetalle.id pd)
                   (ProductoDetalle.activo pd)
                   (ProductoDetalle.precioCompra pd)
                   (ProductoDetalle.stockActual pd
                    - OrdenCompraDetalle.cantidad d)
                   (ProductoDetalle.cantidad pd)
                   (ProductoDetalle.stockMaximo pd)
                   (ProductoDetalle.color pd) (ProductoDetalle.talle pd)
                   (ProductoDetalle.productoId pd)).
Proof.
  intros Hd Hp.
  pose proof (find_some _ _ Hp) as [_ Hid]. simpl in Hid.
  apply Z.eqb_eq in Hid.
  assert (Hstock : forall s,
    exists t', Prisma.actualizarPrimero
                 (fun q => ProductoDetalle.id q =? ProductoDetalle.id pd)
                 (fun q => ProductoDetalle.conStockActual (s q) q)
                 (productoDetalles (bd w))
               = Some (ProductoDetalle.conStockActual (s pd) pd, t')
               /\ find (fun q => ProductoDetalle.id q
                                 =? OrdenCompraDetalle.productoDetalleId d) t'
                  = Some (ProductoDetalle.conStockActual (s pd) pd)).
  { intros s.
    destruct (actualizarPrimero_find
                (fun q => ProductoDetalle.id q =? ProductoDetalle.id pd)
                (fun q => ProductoDetalle.conStockActual (s q) q)
                (productoDetalles (bd w)) pd) as (t' & Hu & Hfind & _).
    { rewrite Hid. exact Hp. }
    exists t'. split; [exact Hu|]. rewrite <- Hid. apply Hfind.
    simpl. apply Z.eqb_refl. }
  assert (Hlinea : forall a,
    exists t', Prisma.actualizarPrimero
                 (fun x => OrdenCompraDetalle.id x =? i)
                 (OrdenCompraDetalle.conActivo a)
                 (ordenCompraDetalles (bd w))
               = Some (OrdenCompraDetalle.conActivo a d, t')
               /\ find (fun x => OrdenCompraDetalle.id x =? i) t'
                  = Some (OrdenCompraDetalle.conActivo a d)).
  { intros a.
    destruct (actualizarPrimero_find
                (fun x => OrdenCompraDetalle.id x =? i)
                (OrdenCompraDetalle.conActivo a)
                (ordenCompraDetalles (bd w)) d Hd) as (t' & Hu & Hfind & _).
    exists t'. split; [exact Hu|]. apply Hfind.
    simpl. exact (proj2 (find_some _ _ Hd)). }
  unfold Prisma.relacion in *.
  destruct w as [b r z fs]; simpl in *.
  split; [|split].
  - intros Hact Hf. subst fs.
    destruct (Hstock (fun q => ProductoDetalle.stockActual q
                               + OrdenCompraDetalle.cantidad d))
      as (tp & Hup & Hfp).
    destruct (Hlinea false) as (tl & Hul & Hfl).
    unfold OrderDetailService.delete, Prisma.findUnique, Prisma.update,
      Prisma.relacion, sentencia, ponerBD, ligar, leerBD, ret, lanzar.
    simpl. rewrite Hd, Hact. simpl. rewrite Hp. simpl. rewrite Hup. simpl.
    rewrite Hul. simpl. eexists. eexists. eexists.
    split; [reflexivity|]. simpl.
    split; [exact Hfl|]. split; [exact Hfp|]. repeat split.
  - intros Hact Hlt.
    unfold OrderDetailService.reactivate, Prisma.findUnique,
      Prisma.relacion, ligar, leerBD, ret, lanzar.
    simpl. rewrite Hd, Hact. simpl. rewrite Hp.
    apply Z.ltb_lt in Hlt. rewrite Hlt. eauto.
  - intros Hact Hle Hf. subst fs.
    destruct (Hstock (fun q => ProductoDetalle.stockActual q
                               - OrdenCompraDetalle.cantidad d))
      as (tp & Hup & Hfp).
    destruct (Hlinea true) as (tl & Hul & Hfl).
    unfold OrderDetailService.reactivate, Prisma.findUnique, Prisma.update,
      Prisma.relacion, sentencia, ponerBD, ligar, leerBD, ret, lanzar.
    simpl. rewrite Hd, Hact. simpl. rewrite Hp.
    apply Z.ltb_ge in Hle. rewrite Hle. simpl. rewrite Hup. simpl.
    rewrite Hul. simpl. eexists. eexists. eexists.
    split; [reflexivity|]. simpl.
    split; [exact Hfl|]. split; [exact Hfp|]. repeat split.
Qed.

End LineasYStock.

(** C1, as the specification words it, fails for a CLIENTE on the order of
    another user: Beto asks for two shirts, five are in stock, and the
    request is refused. *)
Lemma create_cliente_ajeno :
  ~ reglaCreacionDeLinea Ejemplo.mediodia Ejemplo.dosCamisas Ejemplo.comoBeto.
Proof.
  intros H.
  destruct (H eq_refl Ejemplo.ordenDeAna Ejemplo.camisaM eq_refl eq_refl)
    as [_ H2].
  destruct H2 as (d & w' & Hc & _).
  - intros Hgt. discriminate Hgt.
  - vm_compute in Hc. discriminate Hc.
Qed.

Lemma create_descuenta_stock_testigo :
  exists d w',
    OrderDetailService.create Ejemplo.dosCamisas Ejemplo.comoAna
      Ejemplo.mediodia = (Ok d, w')
    /\ ordenCompraDetalles (bd w')
       = ordenCompraDetalles (bd Ejemplo.mediodia) ++ [d]
    /\ OrdenCompraDetalle.cantidad d = 2
    /\ Prisma.relacion productoDetalle 1 (bd w')
       = Some (ProductoDetalle.mk 1 true 10%float 3 5 50 AZUL M_ 1).
Proof.
  destruct (proj2 (proj2 (create_descuenta_stock Ejemplo.dosCamisas
                            Ejemplo.comoAna Ejemplo.mediodia
                            Ejemplo.ordenDeAna Ejemplo.camisaM
                            eq_refl eq_refl)))
    as (d & w' & Hc & (Hl & _ & Hq & _ & _ & _ & Hpd) & _).
  - intros Hgt. discriminate Hgt.
  - right. split; [reflexivity|]. exists Ejemplo.ana. reflexivity.
  - reflexivity.
  - exists d, w'. repeat split; assumption.
Defined.

Lemma delete_y_reactivate_stock_testigo :
  (exists d' pd' w',
     OrderDetailService.delete 1 Ejemplo.mediodia = (Ok d', w')
     /\ Prisma.relacion ordenCompraDetalle 1 (bd w') = Some d'
     /\ Prisma.relacion productoDetalle 1 (bd w') = Some pd'
     /\ d' = OrdenCompraDetalle.mk 1 false 2 20%float 1 1
     /\ pd' = ProductoDetalle.mk 1 true 10%float 7 5 50 AZUL M_ 1)
  /\ (exists d' pd' w',
        OrderDetailService.reactivate 3 Ejemplo.mediodia = (Ok d', w')
        /\ Prisma.relacion ordenCompraDetalle 3 (bd w') = Some d'
        /\ Prisma.relacion productoDetalle 1 (bd w') = Some pd'
        /\ d' = OrdenCompraDetalle.mk 3 true 4 40%float 1 1
        /\ pd' = ProductoDetalle.mk 1 true 10%float 1 5 50 AZUL M_ 1).
Proof.
  split.
  - destruct (proj1 (delete_y_reactivate_stock Ejemplo.mediodia 1
                       Ejemplo.lineaM Ejemplo.camisaM eq_refl eq_refl)
                eq_refl eq_refl)
      as (d' & pd' & w' & H & Hl & Hv & _ & _ & Hd & Hp).
    exists d', pd', w'. repeat split; assumption.
  - destruct (proj2 (proj2 (delete_y_reactivate_stock Ejemplo.mediodia 3
                              Ejemplo.lineaBaja Ejemplo.camisaM
                              eq_refl eq_refl)) eq_refl)
      as (d' & pd' & w' & H & Hl & Hv & _ & _ & Hd & Hp).
    + intros Hgt. discriminate Hgt.
    + reflexivity.
    + exists d', pd', w'. repeat split; assumption.
Defined.

(** ** Orders *)

Section Ordenes.
Context {num : Type} {N : Numero num}.


Lemma mapGet_In (l : list (ProductoDetalle.t num)) (k : Z)
  (pd : ProductoDetalle.t num) :
  OrderService.mapGet (map (fun x => (ProductoDetalle.id x, x)) l) k = Some pd ->
  In pd l /\ ProductoDetalle.id pd = k.
Proof.
  unfold OrderService.mapGet. intros H.
  destruct (find _ _) as [e|] eqn:Hf; [|discriminate].
  inversion H; subst. apply find_some in Hf as [Hin Hk].
  apply in_rev in Hin. apply in_map_iff in Hin as (x & <- & Hx).
  simpl in *. split; [exact Hx|]. now apply Z.eqb_eq.
Qed.



(** C10.  [crear] refuses an order whose [detalles] is missing or empty:
    it throws the error of the text "La orden debe tener al menos un
    producto.", wrapped by its [catch], and the world is as it was. *)
Theorem crear_sin_detalles (w : Mundo num) (direccion : string) (uid : Z) :
  OrderService.crear (mkCreateOrden direccion None uid) w
    = (Lanza (ErrorAlCrearOrden OrdenSinProductos), w)
  /\ OrderService.crear (mkCreateOrden direccion (Some []) uid) w
     = (Lanza (ErrorAlCrearOrden OrdenSinProductos), w)
  /\ mensaje OrdenSinProductos = "La orden debe tener al menos un producto."%string
  /\ mensaje (ErrorAlCrearOrden OrdenSinProductos)
     = ("Error al crear la orden de compra: "
        ++ "La orden debe tener al menos un producto.")%string.
Proof. repeat split. Qed.

End Ordenes.


(** C3, where the code departs from it.  The database takes the first
    write and refuses the second.  [OrderDetailService.create] then throws
    with the new line in its table and the stock of the variant as it
    was: the insert and the decrement are two statements and no
    transaction holds them. *)
Theorem escrituras_no_atomicas :
  exists w',
    OrderDetailService.create Ejemplo.dosCamisas Ejemplo.comoAna
      Ejemplo.segundaFalla = (Lanza FalloBaseDeDatos, w')
    /\ ordenCompraDetalles (bd w')
       = ordenCompraDetalles Ejemplo.tienda
         ++ [OrdenCompraDetalle.mk 4 true 2 20%float 1 1]
    /\ productoDetalles (bd w') = productoDetalles Ejemplo.tienda
    /\ Prisma.relacion productoDetalle 1 (bd w') = Some Ejemplo.camisaM
    /\ ProductoDetalle.stockActual Ejemplo.camisaM = 5.
Proof.
  eexists; (split; [vm_compute; reflexivity|]);
    repeat split; vm_compute; reflexivity.
Qed.

(** ** Prices *)

(** The order of doubles is irreflexive and transitive, [NaN] and signed
    zeros included. *)
Lemma SFltb_irrefl (x : spec_float) : SFltb x x = false.
Proof.
  unfold SFltb, SFcompare.
  destruct x as [s|s| |s m e]; try destruct s; simpl; try reflexivity;
    rewrite Z.compare_refl;
    change (Pos.compare_cont Eq m m) with (Pos.compare m m);
    rewrite Pos.compare_refl; reflexivity.
Qed.

Lemma SFltb_trans (x y z : spec_float) :
  SFltb x y = true -> SFltb y z = true -> SFltb x z = true.
Proof.
  unfold SFltb, SFcompare.
  destruct x as [sx|sx| |sx mx ex]; destruct y as [sy|sy| |sy my ey];
    destruct z as [sz|sz| |sz mz ez];
    try destruct sx; try destruct sy; try destruct sz; simpl;
    try discriminate; try reflexivity;
    change (Pos.compare_cont Eq) with Pos.compare;
    repeat match goal with
    | |- context [Z.compare ?a ?b] => destruct (Z.compare_spec a b)
    | |- context [Pos.compare ?a ?b] => destruct (Pos.compare_spec a b)
    end; subst; simpl; try discriminate; try reflexivity; try lia.
Qed.

#[global] Instance NumeroOrden_doble : NumeroOrden float.
Proof.
  split.
  - intros a. change (PrimFloat.ltb a a = false).
    rewrite ltb_spec. apply SFltb_irrefl.
  - intros a b c. change (PrimFloat.ltb a b = true -> PrimFloat.ltb b c = true
                          -> PrimFloat.ltb a c = true).
    rewrite !ltb_spec. apply SFltb_trans.
Qed.

Section Precios.
Context {num : Type} {N : Numero num}.

(** The loop keeps the running price at the original price or below it. *)
Lemma aplicarDescuento_cota {O : NumeroOrden num} (z hoy : Z) (pv : num)
  (ds : list (Descuento.t num)) :
  forall acc,
    acc = pv \/ nmenor acc pv = true ->
    fold_left (ProductService.aplicarDescuento z hoy pv) ds acc = pv
    \/ nmenor (fold_left (ProductService.aplicarDescuento z hoy pv) ds acc) pv
       = true.
Proof.
  induction ds as [|d ds IH]; simpl; intros acc Hacc; [exact Hacc|].
  apply IH. unfold ProductService.aplicarDescuento.
  destruct (_ && _); [|exact Hacc].
  destruct (nmenor _ acc) eqn:Hlt; [|exact Hacc].
  right. destruct Hacc as [->|Hacc]; [exact Hlt|].
  eapply nmenor_trans; eauto.
Qed.

(** C9.  Whatever the product, its discounts and the instant,
    [calcularPrecioFinal] returns a price, and [precioVenta] is not below
    it. *)
Theorem calcularPrecioFinal_no_supera {O : NumeroOrden num}
  (producto : ProductoConDescuentos num) (w : Mundo num) :
  exists precioFinal,
    ProductService.calcularPrecioFinal producto w = (Ok precioFinal, w)
    /\ nmenor (pp_precioVenta producto) precioFinal = false.
Proof.
  unfold ProductService.calcularPrecioFinal.
  destruct (_ || _).
  - eexists. split; [reflexivity|]. apply nmenor_irrefl.
  - unfold ligar, ahora, zonaLocal, ret. eexists. split; [reflexivity|].
    destruct (aplicarDescuento_cota (zona w) (reloj w)
                (pp_precioVenta producto) (pp_descuentos producto)
                (pp_precioVenta producto) (or_introl eq_refl)) as [->|H].
    + apply nmenor_irrefl.
    + destruct (nmenor (pp_precioVenta producto) _) eqn:Hc; [|reflexivity].
      pose proof (nmenor_trans _ _ _ H Hc) as Hr.
      rewrite nmenor_irrefl in Hr. discriminate Hr.
Qed.

Lemma horaActualSegundos_no_negativa (z hoy : Z) :
  0 <= ProductService.horaActualSegundos z hoy.
Proof.
  unfold ProductService.horaActualSegundos, Fecha.getHours, Fecha.getMinutes,
    Fecha.getSeconds, Fecha.DIA.
  pose proof (Z.mod_pos_bound (hoy + z) 86400000).
  pose proof (Z.mod_pos_bound (hoy + z) 3600000).
  pose proof (Z.mod_pos_bound (hoy + z) 60000).
  assert (0 <= (hoy + z) mod 86400000 / 3600000)
    by (apply Z.div_pos; lia).
  assert (0 <= (hoy + z) mod 3600000 / 60000) by (apply Z.div_pos; lia).
  assert (0 <= (hoy + z) mod 60000 / 1000) by (apply Z.div_pos; lia).
  lia.
Qed.

(** On a server that keeps UTC the test of the loop is the window, for a
    discount that does not end in the first second of the day, at an
    instant that is not before 1970. *)
Lemma vigente_enVentana (hoy : Z) (d : Descuento.t num) :
  ProductService.horaHastaSegundos d <> 0 ->
  0 <= hoy ->
  ProductService.fechaValida 0 hoy d && ProductService.horaValida 0 hoy d
  = enVentana 0 hoy d.
Proof.
  intros Hh Hhoy.
  pose proof (horaActualSegundos_no_negativa 0 hoy) as Hs.
  assert (Hd : 0 <= hoy / 86400000) by (apply Z.div_pos; lia).
  revert Hh Hs.
  unfold ProductService.fechaValida, ProductService.horaValida, enVentana,
    segundosEn, diaEn, ProductService.horaHastaSegundos,
    ProductService.horaDesdeSegundos, ProductService.horaActualSegundos,
    ProductService.fechaDesde, ProductService.fechaHasta,
    ProductService.hoySoloFecha, Fecha.setUTCHours, Fecha.soloFecha,
    Fecha.getUTCHours, Fecha.getUTCMinutes, Fecha.getUTCSeconds, Fecha.esFalso,
    Fecha.DIA.
  rewrite !Z.add_0_r.
  set (fd := Descuento.fechaDesde d / 86400000).
  set (fh := Descuento.fechaHasta d / 86400000).
  set (dh := hoy / 86400000) in *.
  set (sd := Fecha.getHours 0 (Descuento.horaDesde d) * 3600
             + Fecha.getMinutes 0 (Descuento.horaDesde d) * 60
             + Fecha.getSeconds 0 (Descuento.horaDesde d)).
  set (sh := Fecha.getHours 0 (Descuento.horaHasta d) * 3600
             + Fecha.getMinutes 0 (Descuento.horaHasta d) * 60
             + Fecha.getSeconds 0 (Descuento.horaHasta d)).
  set (sa := Fecha.getHours 0 hoy * 3600 + Fecha.getMinutes 0 hoy * 60
             + Fecha.getSeconds 0 hoy).
  intros Hh Hs.
  destruct (Z.eqb_spec sh 0); [contradiction|].
  destruct (Z.eqb_spec (fd * 86400000 + 0 * 3600000 + 0 * 60000 + 0 * 1000 + 0)
              0);
    destruct (Z.eqb_spec
                (fh * 86400000 + 23 * 3600000 + 59 * 60000 + 59 * 1000 + 999)
                0);
    destruct (Z.eqb_spec sd 0);
    destruct (Z.leb_spec
                (fd * 86400000 + 0 * 3600000 + 0 * 60000 + 0 * 1000 + 0)
                (dh * 86400000 - 0));
    destruct (Z.leb_spec (dh * 86400000 - 0)
                (fh * 86400000 + 23 * 3600000 + 59 * 60000 + 59 * 1000 + 999));
    destruct (Z.leb_spec fd dh); destruct (Z.leb_spec dh fh);
    destruct (Z.leb_spec sd sa); destruct (Z.leb_spec sa sh);
    simpl; try reflexivity; lia.
Qed.

Lemma aplicarDescuento_precioMasBajo (hoy : Z) (pv : num)
  (ds : list (Descuento.t num)) :
  (forall d, In d ds -> ProductService.horaHastaSegundos d <> 0) ->
  0 <= hoy ->
  forall acc,
    fold_left (ProductService.aplicarDescuento 0 hoy pv) ds acc
    = fold_left menorPrecio
        (map (precioCon pv) (filter (enVentana 0 hoy) ds)) acc.
Proof.
  intros Hh Hhoy. induction ds as [|d ds IH]; simpl; intros acc;
    [reflexivity|].
  rewrite IH by (intros; apply Hh; now right).
  unfold ProductService.aplicarDescuento.
  rewrite vigente_enVentana by (auto; apply Hh; now left).
  destruct (enVentana 0 hoy d); reflexivity.
Qed.

(** The price on a server that keeps UTC, for a product in promotion whose
    discounts do not end in the first second of the day: the lowest of the
    original price and the prices with the discounts whose window holds the
    instant; and for a product not in promotion, the original price. *)
Lemma calcularPrecioFinal_ventana (producto : ProductoConDescuentos num)
  (w : Mundo num) :
  zona w = 0 ->
  (forall d, In d (pp_descuentos producto) ->
             ProductService.horaHastaSegundos d <> 0) ->
  0 <= reloj w ->
  ProductService.calcularPrecioFinal producto w
  = (Ok (if pp_tienePromocion producto
         then precioMasBajo 0 (reloj w) (pp_precioVenta producto)
                (pp_descuentos producto)
         else pp_precioVenta producto), w).
Proof.
  intros Hz Hh Hhoy. unfold ProductService.calcularPrecioFinal, precioMasBajo.
  destruct (pp_tienePromocion producto); simpl; [|reflexivity].
  destruct (pp_descuentos producto) as [|d ds] eqn:Hds; [reflexivity|].
  replace (Z.of_nat (List.length (d :: ds)) =? 0) with false
    by (symmetry; apply Z.eqb_neq; simpl; lia).
  unfold ligar, ahora, zonaLocal, ret. rewrite Hz.
  now rewrite aplicarDescuento_precioMasBajo.
Qed.

End Precios.

Lemma calcularPrecioFinal_no_supera_testigo :
  exists precioFinal,
    ProductService.calcularPrecioFinal Ejemplo.camisaDiurna Ejemplo.mediodia
      = (Ok precioFinal, Ejemplo.mediodia)
    /\ nmenor (pp_precioVenta Ejemplo.camisaDiurna) precioFinal = false.
Proof.
  exact (@calcularPrecioFinal_no_supera float Numero_doble NumeroOrden_doble
           Ejemplo.camisaDiurna Ejemplo.mediodia).
Defined.

(** C2, where the code departs from it, at two inputs.  On a server that
    keeps UTC the discount [medianoche] ends at 00:00:00.500; at noon the
    instant is outside its window, and [calcularPrecioFinal] returns half
    the price, not the original price: an [horaHasta] in the first second
    of the day reads as no upper bound, as a missing one would.  On a server
    that keeps the time of Argentina the discount [comercial] runs from
    10:00 to 18:00 of that clock, 13:00 to 21:00 UTC; at 11:00, 14:00 UTC,
    the instant is inside its window on either clock, and
    [calcularPrecioFinal] returns the original price, not the discounted
    one: the time of the instant is read on the local clock and the bounds
    on the UTC clock. *)
Theorem calcularPrecioFinal_tras_medianoche :
  (pp_tienePromocion Ejemplo.camisaDeMedianoche = true
   /\ zona Ejemplo.mediodia = 0
   /\ ProductService.horaHastaSegundos Ejemplo.medianoche = 0
   /\ ProductService.horaActualSegundos (zona Ejemplo.mediodia)
        (reloj Ejemplo.mediodia) = 43200
   /\ filter (enVentana 0 (reloj Ejemplo.mediodia))
        (pp_descuentos Ejemplo.camisaDeMedianoche) = []
   /\ ProductService.calcularPrecioFinal Ejemplo.camisaDeMedianoche
        Ejemplo.mediodia = (Ok 50%float, Ejemplo.mediodia)
   /\ nmenor 50%float (pp_precioVenta Ejemplo.camisaDeMedianoche) = true)
  /\ (pp_tienePromocion Ejemplo.camisaComercial = true
      /\ zona Ejemplo.enMendoza = -10800000
      /\ ProductService.horaDesdeSegundos Ejemplo.comercial = 46800
      /\ ProductService.horaActualSegundos (zona Ejemplo.enMendoza)
           (reloj Ejemplo.enMendoza) = 39600
      /\ enVentana (zona Ejemplo.enMendoza) (reloj Ejemplo.enMendoza)
           Ejemplo.comercial = true
      /\ enVentana 0 (reloj Ejemplo.enMendoza) Ejemplo.comercial = true
      /\ precioCon (pp_precioVenta Ejemplo.camisaComercial) Ejemplo.comercial
         = 75%float
      /\ ProductService.calcularPrecioFinal Ejemplo.camisaComercial
           Ejemplo.enMendoza
         = (Ok (pp_precioVenta Ejemplo.camisaComercial), Ejemplo.enMendoza)
      /\ pp_precioVenta Ejemplo.camisaComercial = 100%float).
Proof. repeat split; vm_compute; reflexivity. Qed.

(** ** Accounts *)

Section Cuentas.
Context {num : Type}.

Lemma find_algun {A : Type} (p : A -> bool) (l : list A) (v : A) :
  In v l -> p v = true -> exists e, find p l = Some e.
Proof.
  intros Hin Hp. destruct (find p l) as [e|] eqn:Hf; [eauto|].
  pose proof (find_none _ _ Hf _ Hin) as Hn. congruence.
Qed.

Lemma find_ninguno {A : Type} (p : A -> bool) (l : list A) :
  (forall v, In v l -> p v = false) -> find p l = None.
Proof.
  induction l as [|x l IH]; simpl; intros H; [reflexivity|].
  rewrite (H x (or_introl eq_refl)). apply IH. intros v Hv. apply H. now right.
Qed.

(** With a primary key, the row found by id is the only one of that id. *)
Lemma find_por_id_unico (l : list Usuario.t) (i : Z) (u v : Usuario.t) :
  NoDup (map Usuario.id l) ->
  find (fun x => Usuario.id x =? i) l = Some u ->
  In v l -> Usuario.id v = i -> v = u.
Proof.
  induction l as [|x l IH]; simpl; intros Hnd Hf Hin Hid; [contradiction|].
  inversion Hnd as [|? ? Hnot Hnd']; subst.
  destruct (Usuario.id x =? Usuario.id v) eqn:Hx.
  - inversion Hf; subst. destruct Hin as [->|Hin]; [reflexivity|].
    exfalso. apply Hnot. apply Z.eqb_eq in Hx. rewrite Hx.
    now apply in_map.
  - destruct Hin as [->|Hin]; [rewrite Z.eqb_refl in Hx; discriminate|].
    now apply IH.
Qed.

(** C7.  For a deactivated account, in a table of users with a primary key:
    when an active account has the proposed email or the proposed user name,
    [reactivateAccount] throws and the world is as it was, so the account
    stays deactivated; and whenever it succeeds, no active account had the
    proposed email or user name, and the account is stored active, with the
    new email and user name and no [fechaBaja]. *)
Theorem reactivateAccount_email_libre (w : Mundo num) (userId : Z)
  (newEmail newUserName : string) (u : Usuario.t) :
  NoDup (map Usuario.id (usuarios (bd w))) ->
  find (fun x => Usuario.id x =? userId) (usuarios (bd w)) = Some u ->
  Usuario.activo u = false ->
  ((exists v, In v (usuarios (bd w))
              /\ Usuario.activo v = true
              /\ (Usuario.email v = newEmail
                  \/ Usuario.userName v = Some newUserName)) ->
   exists e,
     UserService.reactivateAccount userId newEmail newUserName w = (Lanza e, w))
  /\ (forall r w',
        UserService.reactivateAccount userId newEmail newUserName w = (Ok r, w')
        ->
        (forall v, In v (usuarios (bd w)) -> Usuario.activo v = true ->
                   Usuario.email v <> newEmail
                   /\ Usuario.userName v <> Some newUserName)
        /\ Prisma.relacion usuario userId (bd w') = Some (ur_usuario r)
        /\ Usuario.id (ur_usuario r) = userId
        /\ Usuario.activo (ur_usuario r) = true
        /\ Usuario.email (ur_usuario r) = newEmail
        /\ Usuario.userName (ur_usuario r) = Some newUserName
        /\ Usuario.fechaBaja (ur_usuario r) = None).
Proof.
  intros Hnd Hu Hina.
  assert (Hotro : forall e, In e (usuarios (bd w)) ->
                            Usuario.activo e = true ->
                            negb (Usuario.id e =? userId) = true).
  { intros e Hin Hact. apply negb_true_iff. apply Z.eqb_neq. intros Hid.
    rewrite (find_por_id_unico _ _ _ _ Hnd Hu Hin Hid) in Hact. congruence. }
  split.
  - intros (v & Hin & Hact & Hv).
    unfold UserService.reactivateAccount, Prisma.findUnique, Prisma.findFirst,
      ligar, leerBD, ret, lanzar.
    simpl. rewrite Hu, Hina.
    destruct (find (fun x => (Usuario.email x =? newEmail)%string
                             && Usuario.activo x) (usuarios (bd w)))
      as [e|] eqn:He.
    + apply find_some in He as [Hine Hpe].
      apply andb_true_iff in Hpe as [_ Hacte].
      rewrite (Hotro e Hine Hacte). eauto.
    + destruct Hv as [Hv|Hv].
      * exfalso. pose proof (find_none _ _ He _ Hin) as Hn. simpl in Hn.
        rewrite Hv, String.eqb_refl, Hact in Hn. discriminate.
      * destruct (find_algun
                    (fun x => UserService.tieneUserName newUserName x
                              && Usuario.activo x)
                    (usuarios (bd w)) v Hin) as [e' He'].
        { unfold UserService.tieneUserName. rewrite Hv, String.eqb_refl.
          now rewrite Hact. }
        rewrite He'. apply find_some in He' as [Hine Hpe].
        apply andb_true_iff in Hpe as [_ Hacte].
        rewrite (Hotro e' Hine Hacte). eauto.
  - intros r w' H.
    destruct (actualizarPrimero_find (fun x => Usuario.id x =? userId)
                (Usuario.conCuenta true newEmail (Some newUserName) None
                   (reloj w))
                (usuarios (bd w)) u Hu) as (t' & Hup & Hfind & _).
    pose proof (find_some _ _ Hu) as [_ Hid]. simpl in Hid.
    unfold UserService.reactivateAccount, Prisma.findUnique, Prisma.findFirst,
      Prisma.update, sentencia, ahora, ponerBD, ligar, leerBD, ret, lanzar in H.
    destruct w as [b rl z fs]. simpl in *.
    rewrite Hu, Hina in H. cbn [bd] in H.
    destruct (find (fun x => (Usuario.email x =? newEmail)%string
                             && Usuario.activo x) (usuarios b))
      as [e|] eqn:He.
    { apply find_some in He as [Hine Hpe].
      apply andb_true_iff in Hpe as [_ Hacte].
      rewrite (Hotro e Hine Hacte) in H. discriminate H. }
    cbn [bd] in H.
    destruct (find (fun x => UserService.tieneUserName newUserName x
                             && Usuario.activo x) (usuarios b))
      as [e|] eqn:Hn.
    { apply find_some in Hn as [Hine Hpe].
      apply andb_true_iff in Hpe as [_ Hacte].
      rewrite (Hotro e Hine Hacte) in H. discriminate H. }
    split.
    { intros v Hin Hact. split.
      - intros Hv. pose proof (find_none _ _ He _ Hin) as Hno. simpl in Hno.
        rewrite Hv, String.eqb_refl, Hact in Hno. discriminate.
      - intros Hv. pose proof (find_none _ _ Hn _ Hin) as Hno. simpl in Hno.
        unfold UserService.tieneUserName in Hno.
        rewrite Hv, String.eqb_refl, Hact in Hno. discriminate. }
    destruct fs as [|[|] fs]; simpl in H; try discriminate H;
      rewrite Hup in H; simpl in H; inversion H; subst; simpl;
      (split; [unfold Prisma.relacion; simpl; apply Hfind; exact Hid|]);
      repeat split; now apply Z.eqb_eq.
Qed.

End Cuentas.

Lemma reactivateAccount_email_libre_testigo :
  (exists e,
     UserService.reactivateAccount 3 "ana@example.com" "carla"
       Ejemplo.mediodia = (Lanza e, Ejemplo.mediodia))
  /\ (exists r w',
        UserService.reactivateAccount 3 "carla@example.com" "carla"
          Ejemplo.mediodia = (Ok r, w')
        /\ Prisma.relacion usuario 3 (bd w') = Some (ur_usuario r)
        /\ Usuario.activo (ur_usuario r) = true
        /\ Usuario.email (ur_usuario r) = "carla@example.com"%string
        /\ Usuario.fechaBaja (ur_usuario r) = None).
Proof.
  assert (Hnd : NoDup (map Usuario.id (usuarios (bd Ejemplo.mediodia)))).
  { repeat constructor; simpl; intuition discriminate. }
  split.
  - apply (proj1 (reactivateAccount_email_libre Ejemplo.mediodia 3
                    "ana@example.com" "carla" Ejemplo.carla Hnd
                    eq_refl eq_refl)).
    exists Ejemplo.ana. simpl. auto.
  - assert (H : UserService.reactivateAccount 3 "carla@example.com" "carla"
                  Ejemplo.mediodia
                = (Ok match fst (UserService.reactivateAccount 3
                                   "carla@example.com" "carla"
                                   Ejemplo.mediodia) with
                      | Ok r => r
                      | Lanza _ => mkUsuarioWithRelations Ejemplo.carla None []
                      end,
                   snd (UserService.reactivateAccount 3 "carla@example.com"
                          "carla" Ejemplo.mediodia)))
      by (vm_compute; reflexivity).
    destruct (proj2 (reactivateAccount_email_libre Ejemplo.mediodia 3
                       "carla@example.com" "carla" Ejemplo.carla Hnd
                       eq_refl eq_refl) _ _ H)
      as (_ & Hr & _ & Ha & He & _ & Hb).
    eexists. eexists. split; [exact H|]. repeat split; assumption.
Defined.

(** ** Soft delete *)

Section BorradoLogico.
Context {num : Type} {N : Numero num}.

Lemma mismasFilas_refl (b : BD num) : mismasFilas b b.
Proof. unfold mismasFilas. repeat split. Qed.

Lemma mismasFilas_trans (a b c : BD num) :
  mismasFilas a b -> mismasFilas b c -> mismasFilas a c.
Proof.
  unfold mismasFilas.
  intros (A1 & A2 & A3 & A4 & A5 & A6 & A7 & A8 & A9 & A10 & A11 & A12 & A13)
         (B1 & B2 & B3 & B4 & B5 & B6 & B7 & B8 & B9 & B10 & B11 & B12 & B13).
  repeat split; congruence.
Qed.

Ltac tabla_legal :=
  split; [reflexivity|];
  intros t b H; unfold mismasFilas; simpl in *; repeat split; exact H.

Lemma categoria_legal : tablaLegal (@categoria num).
Proof. tabla_legal. Qed.
Lemma descuento_legal : tablaLegal (@descuento num).
Proof. tabla_legal. Qed.
Lemma direccion_legal : tablaLegal (@direccion num).
Proof. tabla_legal. Qed.
Lemma imagen_legal : tablaLegal (@imagen num).
Proof. tabla_legal. Qed.
Lemma localidad_legal : tablaLegal (@localidad num).
Proof. tabla_legal. Qed.
Lemma ordenCompra_legal : tablaLegal (@ordenCompra num).
Proof. tabla_legal. Qed.
Lemma ordenCompraDetalle_legal : tablaLegal (@ordenCompraDetalle num).
Proof. tabla_legal. Qed.
Lemma producto_legal : tablaLegal (@producto num).
Proof. tabla_legal. Qed.
Lemma productoDetalle_legal : tablaLegal (@productoDetalle num).
Proof. tabla_legal. Qed.
Lemma provincia_legal : tablaLegal (@provincia num).
Proof. tabla_legal. Qed.
Lemma usuario_legal : tablaLegal (@usuario num).
Proof. tabla_legal. Qed.

Section UnaTabla.
Context {R : Type} {E : Entidad R}.

Lemma actualizarPrimero_ids (w : R -> bool) (f : R -> R) :
  (forall y, ent_id (f y) = ent_id y) ->
  forall t0 x t,
    Prisma.actualizarPrimero w f t0 = Some (x, t) ->
    map ent_id t = map ent_id t0.
Proof.
  intros Hid. induction t0 as [|y t0 IH]; simpl; intros x t H; [discriminate|].
  destruct (w y).
  - inversion H; subst. simpl. now rewrite Hid.
  - destruct (Prisma.actualizarPrimero w f t0) as [[x' t']|] eqn:Hr;
      [|discriminate].
    inversion H; subst. simpl. f_equal. eapply IH; eauto.
Qed.

(** After the rewrite, the first row of id [i] is inactive, when [data]
    clears [activo] and the [where] clause passes over inactive rows only. *)
Lemma actualizarPrimero_inactiva (i : Z) (w : R -> bool) (f : R -> R) :
  (forall y, ent_id (f y) = ent_id y) ->
  (forall y, ent_activo (f y) = false) ->
  (forall y, w y = true -> ent_id y = i) ->
  (forall y, ent_id y = i -> w y = false -> ent_activo y = false) ->
  forall t0 x t,
    Prisma.actualizarPrimero w f t0 = Some (x, t) ->
    forall r, find (fun y => ent_id y =? i) t = Some r -> ent_activo r = false.
Proof.
  intros Hid Hf Hw Hno.
  induction t0 as [|y t0 IH]; simpl; intros x t H r Hr; [discriminate|].
  destruct (w y) eqn:Hy.
  - inversion H; subst. simpl in Hr.
    rewrite Hid, (Hw _ Hy), Z.eqb_refl in Hr. inversion Hr; subst. apply Hf.
  - destruct (Prisma.actualizarPrimero w f t0) as [[x' t']|] eqn:Hu;
      [|discriminate].
    inversion H; subst. simpl in Hr.
    destruct (ent_id y =? i) eqn:Hi.
    + inversion Hr; subst. apply Hno; [now apply Z.eqb_eq|exact Hy].
    + eapply IH; eauto.
Qed.

Lemma actualizarPrimero_ninguno (w : R -> bool) (f : R -> R) (t : list R) :
  Prisma.actualizarPrimero w f t = None -> forall r, In r t -> w r = false.
Proof.
  induction t as [|y t IH]; simpl; intros H r Hin; [contradiction|].
  destruct (w y) eqn:Hy; [discriminate|].
  destruct (Prisma.actualizarPrimero w f t) as [[x' t']|]; [discriminate|].
  destruct Hin as [<-|Hin]; [exact Hy|]. now apply IH.
Qed.

(** What one [update] does to the world. *)
Lemma update_efecto (T : Tabla num R) (wh : R -> bool) (f : R -> R)
  (w w' : Mundo num) (r : Resultado R) :
  Prisma.update T wh f w = (r, w') ->
  reloj w' = reloj w /\ zona w' = zona w
  /\ ((r = Lanza FalloBaseDeDatos /\ bd w' = bd w)
      \/ (r = Lanza RegistroNoEncontrado /\ bd w' = bd w
          /\ Prisma.actualizarPrimero wh f (filas T (bd w)) = None)
      \/ (exists x t,
            r = Ok x /\ bd w' = conFilas T t (bd w)
            /\ Prisma.actualizarPrimero wh f (filas T (bd w)) = Some (x, t))).
Proof.
  unfold Prisma.update, sentencia, ponerBD, ligar, leerBD, ret, lanzar.
  destruct w as [b rl z fs]. simpl.
  destruct fs as [|[|] fs]; simpl; intros H;
    try (inversion H; subst; simpl; auto; fail);
    destruct (Prisma.actualizarPrimero wh f (filas T b)) as [[x t]|] eqn:Hu;
    inversion H; subst; simpl; repeat split; eauto 10.
Qed.

(** An [update] that clears [activo] on the row of id [i] is a soft delete. *)
Lemma update_borrado (T : Tabla num R) (i : Z) (wh : R -> bool) (f : R -> R)
  (w w' : Mundo num) (r : Resultado R) :
  tablaLegal T ->
  (forall y, ent_id (f y) = ent_id y) ->
  (forall y, ent_activo (f y) = false) ->
  (forall y, wh y = true -> ent_id y = i) ->
  (forall y, ent_id y = i -> wh y = false -> ent_activo y = false) ->
  Prisma.update T wh f w = (r, w') ->
  mismasFilas (bd w) (bd w')
  /\ (r <> Lanza FalloBaseDeDatos -> inactivaEn T i (bd w')).
Proof.
  intros [Hget Hset] Hid Hf Hw Hno H.
  apply update_efecto in H as (_ & _ & [(-> & Hb)|[(-> & Hb & Hn)|(x & t & -> & Hb & Hu)]]);
    rewrite Hb.
  - split; [apply mismasFilas_refl|congruence].
  - split; [apply mismasFilas_refl|]. intros _ y Hy.
    unfold Prisma.relacion in Hy. apply find_some in Hy as [Hin Hy].
    apply Hno; [now apply Z.eqb_eq|].
    eapply actualizarPrimero_ninguno; eauto.
  - split.
    + apply Hset. eapply actualizarPrimero_ids; eauto.
    + intros _ y Hy. unfold Prisma.relacion in Hy. rewrite Hget in Hy.
      eapply actualizarPrimero_inactiva; eauto.
Qed.

(** An [update] that keeps the ids keeps the rows of every table. *)
Lemma update_filas (T : Tabla num R) (wh : R -> bool) (f : R -> R)
  (w w' : Mundo num) (r : Resultado R) :
  tablaLegal T ->
  (forall y, ent_id (f y) = ent_id y) ->
  Prisma.update T wh f w = (r, w') ->
  mismasFilas (bd w) (bd w').
Proof.
  intros [Hget Hset] Hid H.
  apply update_efecto in H as (_ & _ & [(-> & Hb)|[(-> & Hb & Hn)|(x & t & -> & Hb & Hu)]]);
    rewrite Hb; try apply mismasFilas_refl.
  apply Hset. eapply actualizarPrimero_ids; eauto.
Qed.

End UnaTabla.

(** The side conditions of [update_borrado] for a [where] clause on the id,
    with or without [activo: true]. *)
Ltac condiciones_borrado :=
  match goal with
  | |- tablaLegal _ =>
      first [ apply categoria_legal | apply descuento_legal
            | apply direccion_legal | apply imagen_legal
            | apply localidad_legal | apply ordenCompra_legal
            | apply ordenCompraDetalle_legal | apply producto_legal
            | apply productoDetalle_legal | apply provincia_legal
            | apply usuario_legal ]
  | |- forall y, ent_id _ = ent_id y => intros y; reflexivity
  | |- forall y, ent_activo _ = false => intros y; reflexivity
  | |- forall y, _ = true -> ent_id y = _ =>
      let H := fresh in
      intros y H; simpl in *;
      try (apply andb_true_iff in H; destruct H as [H _]);
      apply Z.eqb_eq; exact H
  | |- forall y, ent_id y = _ -> _ = false -> ent_activo y = false =>
      let H1 := fresh in
      let H2 := fresh in
      intros y H1 H2; simpl in *; rewrite H1, Z.eqb_refl in H2;
      simpl in H2; first [discriminate H2 | exact H2]
  end.

Lemma Order_delete_logico (i : Z) (w w' : Mundo num)
  (r : Resultado (OrdenCompra.t num)) :
  OrderService.delete i w = (r, w') ->
  mismasFilas (bd w) (bd w')
  /\ (r <> Lanza FalloBaseDeDatos -> inactivaEn ordenCompra i (bd w')).
Proof. apply update_borrado; condiciones_borrado. Qed.

Lemma ProductDetail_delete_logico (i : Z) (w w' : Mundo num)
  (r : Resultado (ProductoDetalle.t num)) :
  ProductDetailService.delete i w = (r, w') ->
  mismasFilas (bd w) (bd w')
  /\ (r <> Lanza FalloBaseDeDatos -> inactivaEn productoDetalle i (bd w')).
Proof. apply update_borrado; condiciones_borrado. Qed.

Lemma Discount_delete_logico (i : Z) (w w' : Mundo num)
  (r : Resultado (Descuento.t num)) :
  DiscountService.delete i w = (r, w') ->
  mismasFilas (bd w) (bd w')
  /\ (r <> Lanza FalloBaseDeDatos -> inactivaEn descuento i (bd w')).
Proof. apply update_borrado; condiciones_borrado. Qed.

Lemma Category_deleteCategory_logico (i : Z) (w w' : Mundo num)
  (r : Resultado Categoria.t) :
  CategoryService.deleteCategory i w = (r, w') ->
  mismasFilas (bd w) (bd w')
  /\ (r <> Lanza FalloBaseDeDatos -> inactivaEn categoria i (bd w')).
Proof. apply update_borrado; condiciones_borrado. Qed.

Lemma Imagen_delete_logico (i : Z) (w w' : Mundo num) (r : Resultado Imagen.t) :
  ImagenService.delete i w = (r, w') ->
  mismasFilas (bd w) (bd w')
  /\ (r <> Lanza FalloBaseDeDatos -> inactivaEn imagen i (bd w')).
Proof. apply update_borrado; condiciones_borrado. Qed.

Lemma Address_delete_logico (i : Z) (w w' : Mundo num)
  (r : Resultado Direccion.t) :
  AddressService.delete i w = (r, w') ->
  mismasFilas (bd w) (bd w')
  /\ (r <> Lanza FalloBaseDeDatos -> inactivaEn direccion i (bd w')).
Proof. apply update_borrado; condiciones_borrado. Qed.

Lemma Location_delete_logico (i : Z) (w w' : Mundo num)
  (r : Resultado Localidad.t) :
  LocationService.delete i w = (r, w') ->
  mismasFilas (bd w) (bd w')
  /\ (forall x, r = Ok x -> inactivaEn localidad i (bd w')).
Proof.
  unfold LocationService.delete, intentar. intros H.
  destruct (Prisma.update _ _ _ w) as [[x|e] w1] eqn:Hu;
    apply update_borrado with (i := i) in Hu; try condiciones_borrado;
    destruct Hu as [Hm Hi].
  - inversion H; subst. split; [exact Hm|]. intros _ _. apply Hi. discriminate.
  - assert (Hw : w' = w1 /\ exists e', r = Lanza e').
    { destruct e; unfold lanzar in H; inversion H; eauto. }
    destruct Hw as [-> [e' ->]]. split; [exact Hm|]. discriminate.
Qed.

Lemma Province_delete_logico (i : Z) (w w' : Mundo num)
  (r : Resultado (option Provincia.t)) :
  ProvinceService.delete i w = (r, w') ->
  mismasFilas (bd w) (bd w')
  /\ (forall x, r = Ok x -> inactivaEn provincia i (bd w')).
Proof.
  unfold ProvinceService.delete, intentar, ligar. intros H.
  destruct (Prisma.update _ _ _ w) as [[x|e] w1] eqn:Hu;
    apply update_borrado with (i := i) in Hu; try condiciones_borrado;
    destruct Hu as [Hm Hi].
  - unfold ret in H. inversion H; subst. split; [exact Hm|].
    intros _ _. apply Hi. discriminate.
  - destruct e; unfold lanzar, ret in H; inversion H; subst;
      (split; [exact Hm|]); try discriminate.
    intros _ _. apply Hi. discriminate.
Qed.

Lemma Product_deleteProduct_logico (i : Z) (w w' : Mundo num)
  (r : Resultado (option (Producto.t num))) :
  ProductService.deleteProduct i w = (r, w') ->
  mismasFilas (bd w) (bd w')
  /\ (forall x, r = Ok x -> inactivaEn producto i (bd w')).
Proof.
  unfold ProductService.deleteProduct, Prisma.findUnique.
  unfold ligar at 1 2. unfold leerBD, ret at 1. simpl. intros H.
  destruct (find _ (productos (bd w))) as [p|] eqn:Hp.
  - unfold ligar in H.
    destruct (Prisma.update _ _ _ w) as [[x|e] w1] eqn:Hu;
      apply update_borrado with (i := i) in Hu; try condiciones_borrado;
      destruct Hu as [Hm Hi]; unfold ret in H; inversion H; subst.
    + split; [exact Hm|]. intros _ _. apply Hi. discriminate.
    + split; [exact Hm|]. discriminate.
  - unfold ret in H. inversion H; subst. split; [apply mismasFilas_refl|].
    intros _ _ y Hy. unfold Prisma.relacion in Hy. simpl in Hy. congruence.
Qed.

Lemma OrderDetail_delete_logico (i : Z) (w w' : Mundo num)
  (r : Resultado (OrdenCompraDetalle.t num)) :
  OrderDetailService.delete i w = (r, w') ->
  mismasFilas (bd w) (bd w')
  /\ (forall x, r = Ok x -> inactivaEn ordenCompraDetalle i (bd w')).
Proof.
  unfold OrderDetailService.delete, Prisma.findUnique.
  unfold ligar at 1 2. unfold leerBD at 1, ret at 1. simpl. intros H.
  destruct (find _ (ordenCompraDetalles (bd w))) as [d|];
    [|unfold lanzar in H; inversion H; subst;
      split; [apply mismasFilas_refl|discriminate]].
  destruct (negb (OrdenCompraDetalle.activo d));
    [unfold lanzar in H; inversion H; subst;
     split; [apply mismasFilas_refl|discriminate]|].
  unfold ligar at 1 in H. unfold leerBD at 1 in H. unfold ligar at 1 in H.
  assert (Hstock : forall m : M num unit,
            (m = ret tt \/ exists wh f,
                m = (Prisma.update productoDetalle wh
                       (fun q => ProductoDetalle.conStockActual (f q) q)
                     ;;; ret tt)) ->
            forall w1 r1, m w = (r1, w1) -> mismasFilas (bd w) (bd w1)).
  { intros m [->|(wh & f & ->)] w1 r1 Hm.
    - unfold ret in Hm. inversion Hm; subst. apply mismasFilas_refl.
    - unfold ligar in Hm.
      destruct (Prisma.update productoDetalle wh _ w) as [[x|e] w2] eqn:Hu;
        apply update_filas in Hu; try condiciones_borrado;
        unfold ret in Hm; inversion Hm; subst; exact Hu. }
  match type of H with
  | (let (_, _) := ?m w in _) = _ =>
      destruct (m w) as [[u|e] w1] eqn:Hs;
      apply (Hstock m) in Hs
  end.
  2:{ destruct (Prisma.relacion _ _ _); [right|left; reflexivity].
      eexists.
      exists (fun q => ProductoDetalle.stockActual q
                       + OrdenCompraDetalle.cantidad d).
      reflexivity. }
  3:{ destruct (Prisma.relacion _ _ _); [right|left; reflexivity].
      eexists.
      exists (fun q => ProductoDetalle.stockActual q
                       + OrdenCompraDetalle.cantidad d).
      reflexivity. }
  - apply update_borrado with (i := i) in H; try condiciones_borrado.
    destruct H as [Hm Hi]. split; [eapply mismasFilas_trans; eauto|].
    intros x ->. apply Hi. discriminate.
  - inversion H; subst. split; [exact Hs|discriminate].
Qed.

Lemma User_deactivateAccount_logico (uniqueId : string) (i : Z)
  (w w' : Mundo num) (r : Resultado UsuarioWithRelations) :
  UserService.deactivateAccount uniqueId i w = (r, w') ->
  mismasFilas (bd w) (bd w')
  /\ (forall x, r = Ok x -> inactivaEn usuario i (bd w')).
Proof.
  unfold UserService.deactivateAccount, Prisma.findUnique.
  unfold ligar at 1 2. unfold leerBD at 1, ret at 1. simpl. intros H.
  destruct (find _ (usuarios (bd w))) as [u|];
    [|unfold lanzar in H; inversion H; subst;
      split; [apply mismasFilas_refl|discriminate]].
  destruct (negb (Usuario.activo u));
    [unfold lanzar in H; inversion H; subst;
     split; [apply mismasFilas_refl|discriminate]|].
  unfold ligar at 1, ahora at 1 in H. unfold ligar at 1 in H.
  destruct (Prisma.update _ _ _ w) as [[x|e] w1] eqn:Hu;
    apply update_borrado with (i := i) in Hu; try condiciones_borrado;
    destruct Hu as [Hm Hi].
  - unfold ligar, leerBD, ret in H. inversion H; subst.
    split; [exact Hm|]. intros _ _. apply Hi. discriminate.
  - inversion H; subst. split; [exact Hm|discriminate].
Qed.

(** C5, as the code has it.  Each delete operation of the services, the
    removal of an address by [UserService.removeDireccionFromUser] apart,
    removes no row from any table, and when it succeeds the row it names is
    inactive. *)
Theorem borrado_logico_de_servicios (op : Borrado) :
  esFisico op = false -> borradoLogico (num := num) op.
Proof.
  intros Hop w w' r H.
  destruct op; try discriminate Hop; unfold ejecutarBorrado, ligar in H;
    match type of H with
    | (let (_, _) := ?m w in _) = _ =>
        destruct (m w) as [[x|e] w1] eqn:Hm
    end;
    unfold ret in H; inversion H; subst;
    first [ apply Order_delete_logico in Hm
          | apply OrderDetail_delete_logico in Hm
          | apply Product_deleteProduct_logico in Hm
          | apply ProductDetail_delete_logico in Hm
          | apply Discount_delete_logico in Hm
          | apply Category_deleteCategory_logico in Hm
          | apply Imagen_delete_logico in Hm
          | apply Address_delete_logico in Hm
          | apply Location_delete_logico in Hm
          | apply Province_delete_logico in Hm
          | apply User_deactivateAccount_logico in Hm ];
    destruct Hm as [Hf Hi]; (split; [exact Hf|]);
    try discriminate; intros _; simpl;
    first [ eapply Hi; reflexivity | apply Hi; discriminate ].
Qed.

End BorradoLogico.

(** C5, as the specification words it, fails for
    [UserService.removeDireccionFromUser]: Ana removes her address and the
    row is gone from the table. *)
Lemma removeDireccionFromUser_fisico :
  ~ borradoLogico (num := float) (User_removeDireccionFromUser 1 1).
Proof.
  intros H.
  destruct (H Ejemplo.mediodia
              (snd (UserService.removeDireccionFromUser 1 1 Ejemplo.mediodia))
              (fst (UserService.removeDireccionFromUser 1 1 Ejemplo.mediodia))
              eq_refl) as [(_ & _ & Hd & _) _].
  vm_compute in Hd. discriminate Hd.
Qed.

Lemma borrado_logico_de_servicios_testigo :
  mismasFilas (bd Ejemplo.mediodia)
    (bd (snd (ejecutarBorrado (OrderDetail_delete 1) Ejemplo.mediodia)))
  /\ inactivaEn ordenCompraDetalle 1
       (bd (snd (ejecutarBorrado (OrderDetail_delete 1) Ejemplo.mediodia))).
Proof.
  destruct (@borrado_logico_de_servicios float (OrderDetail_delete 1) eq_refl
              Ejemplo.mediodia
              (snd (ejecutarBorrado (OrderDetail_delete 1) Ejemplo.mediodia))
              (fst (ejecutarBorrado (OrderDetail_delete 1) Ejemplo.mediodia))
              eq_refl) as [H1 H2].
  split; [exact H1|]. apply H2. vm_compute. reflexivity.
Defined.

(** ** Default queries *)

Section ConsultasPorDefecto.
Context {num : Type} {N : Numero num}.

Lemma insertarOrdenado_In {R : Type} (le : R -> R -> bool) (x y : R)
  (t : list R) :
  In y (insertarOrdenado le x t) -> y = x \/ In y t.
Proof.
  induction t as [|z t IH]; simpl.
  - intros [<-|[]]. now left.
  - destruct (le x z); simpl.
    + intros [<-|[<-|H]]; auto.
    + intros [<-|H]; auto. destruct (IH H); auto.
Qed.

Lemma ordenarPor_In {R : Type} (le : R -> R -> bool) (y : R) (t : list R) :
  In y (ordenarPor le t) -> In y t.
Proof.
  unfold ordenarPor. induction t as [|x t IH]; simpl; [auto|].
  intros H. apply insertarOrdenado_In in H as [->|H]; auto.
Qed.

Lemma todos_Forall2 {A B : Type} (f : A -> M num B) (P : A -> B -> Prop) :
  (forall a w b w', f a w = (Ok b, w') -> P a b) ->
  forall xs w ys w', todos f xs w = (Ok ys, w') -> Forall2 P xs ys.
Proof.
  intros Hf. induction xs as [|x xs IH]; simpl; intros w ys w' H.
  - unfold ret in H. inversion H; subst. constructor.
  - unfold ligar in H.
    destruct (f x w) as [[y|e] w1] eqn:Hx; [|discriminate H].
    destruct (todos f xs w1) as [[ys'|e] w2] eqn:Hxs; [|discriminate H].
    unfold ret in H. inversion H; subst.
    constructor; [eapply Hf; eauto|eapply IH; eauto].
Qed.

Lemma Forall2_derecha {A B : Type} (P : A -> B -> Prop) (Q : A -> Prop)
  (S : B -> Prop) (xs : list A) (ys : list B) :
  Forall2 P xs ys ->
  (forall a, In a xs -> Q a) ->
  (forall a b, Q a -> P a b -> S b) ->
  Forall S ys.
Proof.
  intros H HQ HS. induction H as [|x y xs ys Hxy H IH]; constructor.
  - eapply HS; [apply HQ; now left|exact Hxy].
  - apply IH. intros a Ha. apply HQ. now right.
Qed.

Lemma calcularPrecioFinal_total (producto : ProductoConDescuentos num)
  (w : Mundo num) :
  exists x, ProductService.calcularPrecioFinal producto w = (Ok x, w).
Proof.
  unfold ProductService.calcularPrecioFinal.
  destruct (_ || _); [eexists; reflexivity|].
  unfold ligar, ahora, zonaLocal, ret. eexists. reflexivity.
Qed.

Lemma mapearProductoADTO_id (p : ProductoConRelaciones num) (w w' : Mundo num)
  (dto : ProductoDTO num) :
  ProductService.mapearProductoADTO p w = (Ok dto, w') ->
  pdto_id dto = Producto.id (pr_producto p).
Proof.
  unfold ProductService.mapearProductoADTO, ligar.
  destruct (calcularPrecioFinal_total (ProductService.paraPrecio p) w)
    as [x ->].
  unfold ret. intros H. inversion H; subst. reflexivity.
Qed.

Lemma productoActivo_de (b : BD num) (p : Producto.t num)
  (dto : ProductoDTO num) :
  In p (productos b) -> Producto.activo p = true ->
  pdto_id dto = Producto.id p -> productoActivo b dto = true.
Proof.
  intros Hin Ha Hid. unfold productoActivo. apply existsb_exists.
  exists p. split; [exact Hin|]. now rewrite Hid, Z.eqb_refl, Ha.
Qed.

(** From a [where] clause that holds, the conjunct [activo: true]. *)
Ltac conjunto_activo H :=
  simpl in H;
  repeat match type of H with
         | (_ && _) = true =>
             let H1 := fresh in
             apply andb_true_iff in H; destruct H as [H1 H];
             try (exact H1); try (conjunto_activo H1)
         end;
  try exact H.

(** A query that is one [findMany] and a [map] over its rows. *)
Ltac lista_activa :=
  let w := fresh "w" in
  let rs := fresh "rs" in
  let w' := fresh "w'" in
  let H := fresh "H" in
  let x := fresh "x" in
  let y := fresh "y" in
  let Hin := fresh "Hin" in
  let Hy := fresh "Hy" in
  intros w rs w' H;
  unfold Prisma.findMany, ligar, leerBD, ret in H; simpl in H;
  inversion H; subst; clear H;
  apply Forall_forall; intros x Hin;
  try (apply ordenarPor_In in Hin);
  try (apply in_map_iff in Hin; destruct Hin as (y & <- & Hin));
  apply filter_In in Hin; destruct Hin as [_ Hy];
  try match goal with
      | |- context [CategoryService.conRelaciones ?r] => destruct r
      end;
  simpl; conjunto_activo Hy.

(** A query that is one [findUnique] or [findFirst]. *)
Ltac fila_activa :=
  let w := fresh "w" in
  let x := fresh "x" in
  let w' := fresh "w'" in
  let H := fresh "H" in
  let y := fresh "y" in
  let Hy := fresh "Hy" in
  intros w x w' H;
  unfold Prisma.findUnique, Prisma.findFirst, ligar, leerBD, ret in H;
  simpl in H;
  match type of H with
  | context [find ?p ?l] => destruct (find p l) as [y|] eqn:Hy
  end;
  simpl in H; inversion H; subst; clear H;
  apply find_some in Hy; destruct Hy as [_ Hy];
  try match goal with
      | |- context [CategoryService.conRelaciones ?r] => destruct r
      end;
  simpl; conjunto_activo Hy.

Lemma OrderDetail_findById_activo (id : Z) (currentUser : AuthUser) :
  devuelveActivo (OrderDetailService.findById (num := num) id currentUser)
    (fun _ x => OrdenCompraDetalle.activo (fst (fst x))).
Proof.
  intros w x w' H.
  unfold OrderDetailService.findById, Prisma.findUnique, ligar, leerBD, ret
    in H. simpl in H.
  destruct (find _ (ordenCompraDetalles (bd w))) as [d|] eqn:Hd;
    [|discriminate H].
  destruct (_ && _) in H; [discriminate H|].
  inversion H; subst. simpl.
  apply find_some in Hd as [_ Hd]. conjunto_activo Hd.
Qed.

Lemma OrderDetail_findByOrderId_activos (ordenCompraId : Z)
  (currentUser : AuthUser) :
  devuelveActivos
    (OrderDetailService.findByOrderId (num := num) ordenCompraId currentUser)
    (fun _ x => OrdenCompraDetalle.activo (fst (fst x))).
Proof.
  intros w rs w' H.
  unfold OrderDetailService.findByOrderId, Prisma.findUnique, Prisma.findMany,
    ligar, leerBD, ret in H. simpl in H.
  destruct (find _ (ordenesCompra (bd w))) as [o|]; [|discriminate H].
  destruct (OrderDetailService.clienteAjeno _ _); [discriminate H|].
  inversion H; subst. apply Forall_forall. intros x Hin.
  apply in_map_iff in Hin as (y & <- & Hin).
  apply filter_In in Hin as [_ Hy]. simpl. conjunto_activo Hy.
Qed.

Lemma OrderDetail_findByProductDetailId_activos (productoDetalleId : Z) :
  devuelveActivos
    (OrderDetailService.findByProductDetailId (num := num) productoDetalleId)
    (fun _ x => OrdenCompraDetalle.activo (fst x)).
Proof.
  intros w rs w' H.
  unfold OrderDetailService.findByProductDetailId, Prisma.findUnique,
    Prisma.findMany, ligar, leerBD, ret in H. simpl in H.
  destruct (find _ (productoDetalles (bd w))) as [o|]; [|discriminate H].
  inversion H; subst. apply Forall_forall. intros x Hin.
  apply in_map_iff in Hin as (y & <- & Hin).
  apply filter_In in Hin as [_ Hy]. simpl. conjunto_activo Hy.
Qed.

Lemma Location_findByProvinciaId_activos (provinciaId : Z) :
  devuelveActivos (LocationService.findByProvinciaId (num := num) provinciaId)
    (fun _ x => Localidad.activo (fst x)).
Proof.
  intros w rs w' H.
  unfold LocationService.findByProvinciaId, Prisma.findUnique,
    Prisma.findMany, ligar, leerBD, ret in H. simpl in H.
  destruct (find _ (provincias (bd w))) as [o|]; [|discriminate H].
  inversion H; subst. apply Forall_forall. intros x Hin.
  apply in_map_iff in Hin as (y & <- & Hin).
  apply filter_In in Hin as [_ Hy]. simpl. conjunto_activo Hy.
Qed.


(** The DTOs built from rows that are active stand for active products. *)
Lemma dtos_activos (b : BD num) (ps : list (Producto.t num))
  (w w' : Mundo num) (rs : list (ProductoDTO num)) :
  (forall p, In p ps -> In p (productos b) /\ Producto.activo p = true) ->
  todos ProductService.mapearProductoADTO
        (map (ProductService.conRelaciones b) ps) w = (Ok rs, w') ->
  Forall (fun dto => productoActivo b dto = true) rs.
Proof.
  intros Hps H.
  apply todos_Forall2
    with (P := fun a dto => pdto_id dto = Producto.id (pr_producto a)) in H.
  2:{ intros a w0 dto w0'. apply mapearProductoADTO_id. }
  eapply Forall2_derecha
    with (Q := fun a => In (pr_producto a) (productos b)
                        /\ Producto.activo (pr_producto a) = true);
    [exact H| |].
  - intros a Ha. apply in_map_iff in Ha as (p & <- & Hp). simpl. auto.
  - intros a dto [Hin Ha] Hid. eapply productoActivo_de; eauto.
Qed.

Lemma Product_obtenerTodos_activos :
  devuelveActivos (ProductService.obtenerTodosLosProductosDTO (num := num))
    productoActivo.
Proof.
  intros w rs w' H.
  unfold ProductService.obtenerTodosLosProductosDTO, Prisma.findMany in H.
  unfold ligar at 1 2 3, leerBD, ret at 1 in H. simpl in H.
  eapply dtos_activos; [|exact H].
  intros p Hp. apply filter_In in Hp. exact Hp.
Qed.

Lemma Product_obtenerPromocionales_activos :
  devuelveActivos (ProductService.obtenerProductosPromocionalesDTO (num := num))
    productoActivo.
Proof.
  intros w rs w' H.
  unfold ProductService.obtenerProductosPromocionalesDTO, Prisma.findMany in H.
  unfold ligar at 1 2 3 4, leerBD, ret at 1 in H. simpl in H.
  match type of H with
  | (let (_, _) := todos ?f ?xs w in _) = _ =>
      destruct (todos f xs w) as [[filtrados|e] w1] eqn:Ht; [|discriminate H]
  end.
  unfold ret in H. inversion H; subst. clear H.
  apply todos_Forall2
    with (P := fun a o => forall dto, o = Some dto ->
                 pdto_id dto = Producto.id (pr_producto a)) in Ht.
  2:{ intros a w0 o w0' Hf dto ->. unfold ligar in Hf.
      destruct (calcularPrecioFinal_total (ProductService.paraPrecio a) w0)
        as [x Hx]. rewrite Hx in Hf.
      destruct (nmenor x _); [|discriminate Hf].
      destruct (ProductService.mapearProductoADTO a w0) as [[d|e] w2] eqn:Hm;
        [|discriminate Hf].
      unfold ret in Hf. inversion Hf; subst.
      eapply mapearProductoADTO_id; eauto. }
  apply Forall_forall. intros dto Hin.
  apply in_flat_map in Hin as (o & Ho & Hin).
  destruct o as [d|]; [|contradiction]. destruct Hin as [<-|[]].
  assert (Hall : Forall (fun o => forall dto, o = Some dto ->
                           productoActivo (bd w) dto = true) filtrados).
  { eapply Forall2_derecha
      with (Q := fun a => In (pr_producto a) (productos (bd w))
                          /\ Producto.activo (pr_producto a) = true);
      [exact Ht| |].
    - intros a Ha. apply in_map_iff in Ha as (p & <- & Hp). simpl.
      apply filter_In in Hp as [Hp Hc].
      apply andb_true_iff in Hc as [Hc _]. auto.
    - intros a o [Hi Ha] Hid dto ->. eapply productoActivo_de; eauto. }
  rewrite Forall_forall in Hall. eapply Hall; eauto.
Qed.

Lemma Product_obtenerPorId_activo (id : Z) :
  devuelveActivo (ProductService.obtenerProductoDTOPorId (num := num) id)
    productoActivo.
Proof.
  intros w dto w' H.
  unfold ProductService.obtenerProductoDTOPorId, Prisma.findUnique in H.
  unfold ligar at 1 2, leerBD at 1, ret at 1 in H. simpl in H.
  destruct (find _ (productos (bd w))) as [p|] eqn:Hp;
    [|unfold ret in H; discriminate H].
  unfold ligar, leerBD in H.
  destruct (ProductService.mapearProductoADTO _ w) as [[d|e] w1] eqn:Hm;
    [|discriminate H].
  unfold ret in H. inversion H; subst.
  apply mapearProductoADTO_id in Hm. simpl in Hm.
  apply find_some in Hp as [Hin Hc].
  apply andb_true_iff in Hc as [_ Hc].
  eapply productoActivo_de; eauto.
Qed.

Lemma Product_filtrarYOrdenar_activos (filters : ProductFilters num) :
  devuelveActivos (ProductService.filtrarYOrdenarProductos filters)
    productoActivo.
Proof.
  intros w rs w' H.
  unfold ProductService.filtrarYOrdenarProductos in H.
  assert (Hd : match f_denominacion filters with
               | Some (String _ _) => False
               | _ => True
               end).
  { destruct (f_denominacion filters) as [[|c r]|]; try exact I.
    unfold ligar, leerBD, lanzar in H. simpl in H. discriminate H. }
  assert (H' : (b <- leerBD ;;
                encontrados <- Prisma.findMany producto
                                 (ProductService.whereDe filters b) ;;
                todos ProductService.mapearProductoADTO
                  (map (ProductService.conRelaciones b)
                       match f_orderBy filters with
                       | Some campo =>
                           ordenarPor
                             (ProductService.orderByOption campo
                                (f_orderDirection filters)) encontrados
                       | None => encontrados
                       end)) w = (Ok rs, w')).
  { destruct (f_denominacion filters) as [[|c r]|];
      [exact H|contradiction|exact H]. }
  clear H Hd. rename H' into H. unfold Prisma.findMany in H.
  unfold ligar at 1 2 3, leerBD, ret at 1 in H. simpl in H.
  eapply dtos_activos; [|exact H].
  intros p Hp.
  assert (Hf : In p (filter (ProductService.whereDe filters (bd w))
                            (productos (bd w)))).
  { destruct (f_orderBy filters); [apply ordenarPor_In in Hp|]; exact Hp. }
  apply filter_In in Hf as [Hin Hc]. split; [exact Hin|].
  unfold ProductService.whereDe in Hc.
  repeat (apply andb_true_iff in Hc; destruct Hc as [Hc _]). exact Hc.
Qed.

(** C6, as the code has it.  Each default query of the services returns
    only rows whose own [activo] is true; a query that returns DTOs returns
    only DTOs of active products. *)
Theorem consultas_por_defecto_activas :
  (forall id u,
     devuelveActivo (OrderDetailService.findById (num := num) id u)
       (fun _ x => OrdenCompraDetalle.activo (fst (fst x))))
  /\ devuelveActivos (OrderDetailService.findAll (num := num) false)
       (fun _ x => OrdenCompraDetalle.activo (fst (fst x)))
  /\ (forall o u,
        devuelveActivos (OrderDetailService.findByOrderId (num := num) o u)
          (fun _ x => OrdenCompraDetalle.activo (fst (fst x))))
  /\ (forall p,
        devuelveActivos
          (OrderDetailService.findByProductDetailId (num := num) p)
          (fun _ x => OrdenCompraDetalle.activo (fst x)))
  /\ (forall id,
        devuelveActivo (OrderService.findById (num := num) id)
          (fun _ x => OrdenCompra.activo (ocd_orden x)))
  /\ (forall fecha,
        devuelveActivos (OrderService.obtenerPorFecha (num := num) fecha)
          (fun _ x => OrdenCompra.activo (ocd_orden x)))
  /\ (forall id,
        devuelveActivo (ProductDetailService.findById (num := num) id)
          (fun _ x => ProductoDetalle.activo x))
  /\ (forall p,
        devuelveActivos
          (ProductDetailService.findAllByProductoId (num := num) p)
          (fun _ x => ProductoDetalle.activo x))
  /\ (forall p t c,
        devuelveActivo
          (ProductDetailService.findByProductoIdAndTalleAndColor
             (num := num) p t c)
          (fun _ x => ProductoDetalle.activo x))
  /\ (forall s,
        devuelveActivos
          (ProductDetailService.findAllByStockActualGreaterThan (num := num) s)
          (fun _ x => ProductoDetalle.activo x))
  /\ (forall p c t s,
        devuelveActivos
          (ProductDetailService.filtrarPorOpciones (num := num) p c t s)
          (fun _ x => ProductoDetalle.activo x))
  /\ devuelveActivos (ProductService.obtenerTodosLosProductosDTO (num := num))
       productoActivo
  /\ devuelveActivos
       (ProductService.obtenerProductosPromocionalesDTO (num := num))
       productoActivo
  /\ (forall id,
        devuelveActivo (ProductService.obtenerProductoDTOPorId (num := num) id)
          productoActivo)
  /\ (forall filters,
        devuelveActivos (ProductService.filtrarYOrdenarProductos filters)
          productoActivo)
  /\ (forall id,
        devuelveActivo (DiscountService.findById (num := num) id)
          (fun _ x => Descuento.activo (fst x)))
  /\ devuelveActivos (DiscountService.findAll (num := num))
       (fun _ x => Descuento.activo (fst x))
  /\ (forall r,
        devuelveActivos (CategoryService.getAllCategories (num := num) r)
          (fun _ x => Categoria.activo (cr_categoria x)))
  /\ (forall id r,
        devuelveActivo (CategoryService.getCategoryById (num := num) id r)
          (fun _ x => Categoria.activo (cr_categoria x)))
  /\ (forall p,
        devuelveActivos (CategoryService.listSubcategories (num := num) p)
          (fun _ x => Categoria.activo (cr_categoria x)))
  /\ devuelveActivos (CategoryService.listRootCategories (num := num))
       (fun _ x => Categoria.activo (cr_categoria x))
  /\ (forall id,
        devuelveActivo (ImagenService.findById (num := num) id)
          (fun _ x => Imagen.activo (ir_imagen x)))
  /\ devuelveActivos (ImagenService.findAll (num := num) false)
       (fun _ x => Imagen.activo (ir_imagen x))
  /\ (forall id,
        devuelveActivo (AddressService.findById (num := num) id)
          (fun _ x => Direccion.activo (dr_direccion x)))
  /\ (forall l,
        devuelveActivos (AddressService.listarPorLocalidad (num := num) l)
          (fun _ x => Direccion.activo (dr_direccion x)))
  /\ (forall u,
        devuelveActivos (AddressService.listarPorUsuarioId (num := num) u)
          (fun _ x => Direccion.activo (dr_direccion x)))
  /\ devuelveActivos (AddressService.findAll (num := num) false)
       (fun _ x => Direccion.activo (dr_direccion x))
  /\ (forall id,
        devuelveActivo (LocationService.findById (num := num) id)
          (fun _ x => Localidad.activo (fst x)))
  /\ devuelveActivos (LocationService.findAll (num := num) false)
       (fun _ x => Localidad.activo (fst x))
  /\ (forall p,
        devuelveActivos (LocationService.findByProvinciaId (num := num) p)
          (fun _ x => Localidad.activo (fst x)))
  /\ devuelveActivos (ProvinceService.findAll (num := num))
       (fun _ x => Provincia.activo x)
  /\ (forall id,
        devuelveActivo (ProvinceService.findById (num := num) id)
          (fun _ x => Provincia.activo x))
  /\ (forall n,
        devuelveActivo (ProvinceService.findByNombre (num := num) n)
          (fun _ x => Provincia.activo x))
  /\ (forall id,
        devuelveActivo (UserService.findById (num := num) id false)
          (fun _ x => Usuario.activo (ur_usuario x)))
  /\ devuelveActivos (UserService.findAll (num := num) false)
       (fun _ x => Usuario.activo (ur_usuario x))
  /\ (forall n,
        devuelveActivo (UserService.findByUserName (num := num) n false)
          (fun _ x => Usuario.activo (ur_usuario x)))
  /\ (forall e,
        devuelveActivo (UserService.findByEmail (num := num) e false)
          (fun _ x => Usuario.activo (ur_usuario x))).
Proof.
  repeat match goal with |- _ /\ _ => split end; intros;
    first
      [ apply OrderDetail_findById_activo
      | apply OrderDetail_findByOrderId_activos
      | apply OrderDetail_findByProductDetailId_activos
      | apply Location_findByProvinciaId_activos
      | apply Product_obtenerTodos_activos
      | apply Product_obtenerPromocionales_activos
      | apply Product_obtenerPorId_activo
      | apply Product_filtrarYOrdenar_activos
      | unfold OrderDetailService.findAll, OrderService.obtenerPorFecha,
          ProductDetailService.findAllByProductoId,
          ProductDetailService.findAllByStockActualGreaterThan,
          ProductDetailService.filtrarPorOpciones, DiscountService.findAll,
          CategoryService.getAllCategories, CategoryService.listSubcategories,
          CategoryService.listRootCategories, ImagenService.findAll,
          AddressService.listarPorLocalidad,
          AddressService.listarPorUsuarioId, AddressService.findAll,
          LocationService.findAll, ProvinceService.findAll,
          UserService.findAll, zonaLocal;
        lista_activa
      | unfold OrderService.findById, ProductDetailService.findById,
          ProductDetailService.findByProductoIdAndTalleAndColor,
          DiscountService.findById, CategoryService.getCategoryById,
          ImagenService.findById, AddressService.findById,
          LocationService.findById, ProvinceService.findById,
          ProvinceService.findByNombre, UserService.findById,
          UserService.findByUserName, UserService.findByEmail;
        fila_activa ].
Qed.

End ConsultasPorDefecto.

(** C6, as the specification words it, fails for the rows a query embeds:
    the default [OrderDetailService.findAll] returns the active line of a
    variant that was soft-deleted, with that variant inside it; and
    [UserService.getDireccionesByUserId] returns an address that was
    soft-deleted. *)
Lemma consulta_devuelve_inactivos :
  ~ devuelveActivos (OrderDetailService.findAll (num := float) false)
      (fun _ r => lineaTodaActiva r)
  /\ (exists dtos dto d,
        UserService.getDireccionesByUserId 1 Ejemplo.mediodia
          = (Ok dtos, Ejemplo.mediodia)
        /\ In dto dtos
        /\ In d (direcciones Ejemplo.tienda)
        /\ ardto_id dto = Direccion.id d
        /\ Direccion.activo d = false).
Proof.
  split.
  - intros H.
    specialize (H Ejemplo.mediodia
                  (map (OrderDetailService.conOrdenYProducto Ejemplo.tienda)
                       [Ejemplo.lineaM; Ejemplo.lineaL])
                  Ejemplo.mediodia eq_refl).
    apply Forall_inv_tail in H. apply Forall_inv in H.
    vm_compute in H. discriminate H.
  - eexists. eexists. exists Ejemplo.oficina.
    split; [vm_compute; reflexivity|].
    split; [right; left; reflexivity|].
    split; [right; left; reflexivity|].
    split; reflexivity.
Qed.

Lemma consultas_por_defecto_activas_testigo :
  Forall (fun x => OrdenCompraDetalle.activo (fst (fst x)) = true)
    (map (OrderDetailService.conOrdenYProducto Ejemplo.tienda)
         [Ejemplo.lineaM; Ejemplo.lineaL]).
Proof.
  exact (proj1 (proj2 (@consultas_por_defecto_activas float Numero_doble))
           Ejemplo.mediodia _ Ejemplo.mediodia eq_refl).
Defined.
(** * Further properties of the services *)

(** ** Rows found and rewritten by id *)

Section FilasPorId.
Context {R : Type}.
Variable ident : R -> Z.

(** After the first row of id [i] is rewritten by a [data] that keeps ids,
    a lookup by id finds the rewritten row for [i] and, for any other id,
    the row it found before. *)
Lemma actualizarPrimero_busca (i : Z) (f : R -> R) :
  (forall x, ident (f x) = ident x) ->
  forall t r t',
    Prisma.actualizarPrimero (fun x => ident x =? i) f t = Some (r, t') ->
    forall j,
      find (fun x => ident x =? j) t'
      = if j =? i then option_map f (find (fun x => ident x =? j) t)
        else find (fun x => ident x =? j) t.
Proof.
  intros Hid. induction t as [|x t IH]; simpl; intros r t' H j;
    [discriminate|].
  destruct (ident x =? i) eqn:Hx.
  - inversion H; subst. simpl. rewrite Hid. apply Z.eqb_eq in Hx.
    destruct (Z.eqb_spec j i) as [->|Hj].
    + rewrite Hx, Z.eqb_refl. reflexivity.
    + destruct (Z.eqb_spec (ident x) j); [congruence|reflexivity].
  - destruct (Prisma.actualizarPrimero _ f t) as [[r' t'']|] eqn:Hu;
      [|discriminate].
    inversion H; subst. simpl.
    destruct (Z.eqb_spec j i) as [->|Hj].
    + rewrite Hx. rewrite (IH _ _ eq_refl i), Z.eqb_refl. reflexivity.
    + destruct (ident x =? j); [reflexivity|].
      rewrite (IH _ _ eq_refl j).
      destruct (Z.eqb_spec j i); [contradiction|reflexivity].
Qed.

(** A second rewrite that undoes the first gives the table back. *)
Lemma actualizarPrimero_vuelve (w : R -> bool) (f g : R -> R) :
  forall t r0 t',
    find w t = Some r0 ->
    Prisma.actualizarPrimero w f t = Some (f r0, t') ->
    w (f r0) = true ->
    g (f r0) = r0 ->
    Prisma.actualizarPrimero w g t' = Some (r0, t).
Proof.
  induction t as [|x t IH]; simpl; intros r0 t' Hf Hu Hw Hg; [discriminate|].
  destruct (w x) eqn:Hx.
  - inversion Hf; subst. inversion Hu; subst. simpl. rewrite Hw, Hg.
    reflexivity.
  - destruct (Prisma.actualizarPrimero w f t) as [[r' t'']|] eqn:Hu';
      [|discriminate].
    inversion Hu; subst. simpl. rewrite Hx.
    rewrite (IH r0 t'' Hf) by auto. reflexivity.
Qed.

(** A rewrite that changes nothing in the row it finds changes nothing. *)
Lemma actualizarPrimero_igual (w : R -> bool) (f : R -> R) :
  forall t r, find w t = Some r -> f r = r ->
    Prisma.actualizarPrimero w f t = Some (r, t).
Proof.
  induction t as [|x t IH]; simpl; intros r Hf Hr; [discriminate|].
  destruct (w x).
  - inversion Hf; subst. now rewrite Hr.
  - now rewrite (IH r Hf Hr).
Qed.

(** With a primary key, the row found by a [where] clause that fixes the id
    is the row found by the id. *)
Lemma find_id_unico (w : R -> bool) (i : Z) (t : list R) (r : R) :
  NoDup (map ident t) ->
  (forall x, w x = true -> ident x = i) ->
  find w t = Some r ->
  find (fun x => ident x =? i) t = Some r.
Proof.
  intros Hnd Hw. induction t as [|x t IH]; simpl; intros Hf; [discriminate|].
  inversion Hnd as [|? ? Hnot Hnd']; subst.
  destruct (w x) eqn:Hx.
  - inversion Hf; subst. now rewrite (Hw _ Hx), Z.eqb_refl.
  - destruct (Z.eqb_spec (ident x) i) as [Hi|Hi].
    + exfalso. apply Hnot. apply find_some in Hf as [Hin Hr].
      apply in_map_iff. exists r. split; [|exact Hin].
      rewrite (Hw _ Hr). now symmetry.
    + now apply IH.
Qed.

Lemma find_por_id (i : Z) (t : list R) (r : R) :
  NoDup (map ident t) -> In r t -> ident r = i ->
  find (fun x => ident x =? i) t = Some r.
Proof.
  intros Hnd Hin Hi. induction t as [|x t IH]; simpl; [contradiction|].
  inversion Hnd as [|? ? Hnot Hnd']; subst.
  destruct Hin as [->|Hin].
  - now rewrite Z.eqb_refl.
  - destruct (Z.eqb_spec (ident x) (ident r)) as [He|He]; [|now apply IH].
    exfalso. apply Hnot. rewrite He. now apply in_map.
Qed.

End FilasPorId.

(** The id [create] gives is above every id of the table. *)
Lemma nuevoId_mayor {R : Type} {E : Entidad R} (t : list R) (x : R) :
  In x t -> ent_id x < Prisma.nuevoId t.
Proof.
  unfold Prisma.nuevoId.
  induction t as [|y t IH]; cbn [In map fold_right]; [contradiction|].
  intros [->|Hin]; [lia|]. specialize (IH Hin). lia.
Qed.

Lemma find_app_nuevo {R : Type} (w : R -> bool) (t u : list R) :
  (forall x, In x t -> w x = false) ->
  find w (t ++ u) = find w u.
Proof.
  induction t as [|x t IH]; simpl; intros H; [reflexivity|].
  rewrite (H x (or_introl eq_refl)). apply IH. intros y Hy. apply H. now right.
Qed.

(** Unfolds the operations of the monad and of the ORM client. *)
Ltac desplegar :=
  unfold Prisma.findUnique, Prisma.findFirst, Prisma.findMany, Prisma.count,
    Prisma.update, Prisma.create, Prisma.delete, Prisma.relacion, sentencia,
    ponerBD, intentar, transaccion, ligar, leerBD, ahora, zonaLocal, ret,
    lanzar in *.

(** ** Order lines: quantities, owners and round trips *)

Section LineasDeOrden.
Context {num : Type} {N : Numero num}.


(** X2.  [OrderDetailService.update] never moves a line: whatever the
    payload, its [productoDetalleId] included, and whatever statements the
    database refuses, the line it returns is the active line of that id
    with the id, the order and the variant it had.  And with no quantity
    in the payload, or the quantity the line has, on a database that
    refuses no statement, it returns the line and leaves the world as it
    was. *)
Theorem update_no_mueve_la_linea (i : Z)
  (data : UpdateOrdenCompraDetallePayload) (w : Mundo num) :
  (forall d' w',
     OrderDetailService.update i data w = (Ok d', w') ->
     exists d,
       find (fun x => (OrdenCompraDetalle.id x =? i)
                      && OrdenCompraDetalle.activo x)
            (ordenCompraDetalles (bd w)) = Some d
       /\ OrdenCompraDetalle.id d' = OrdenCompraDetalle.id d
       /\ OrdenCompraDetalle.ordenCompraId d'
          = OrdenCompraDetalle.ordenCompraId d
       /\ OrdenCompraDetalle.productoDetalleId d'
          = OrdenCompraDetalle.productoDetalleId d
       /\ OrdenCompraDetalle.activo d' = true)
  /\ (forall d,
        fallas w = [] ->
        find (fun x => (OrdenCompraDetalle.id x =? i)
                       && OrdenCompraDetalle.activo x)
             (ordenCompraDetalles (bd w)) = Some d ->
        ud_cantidad data = None
        \/ ud_cantidad data = Some (OrdenCompraDetalle.cantidad d) ->
        OrderDetailService.update i data w = (Ok d, w)).
Proof.
  split.
  - intros d' w' H.
    unfold OrderDetailService.update in H.
    unfold Prisma.findUnique at 1, ligar at 1, leerBD at 1, ligar at 1,
      ret at 1 in H.
    destruct (find _ (filas ordenCompraDetalle (bd w))) as [d|] eqn:Hd;
      [|discriminate H].
    exists d. split; [exact Hd|].
    pose proof (find_some _ _ Hd) as [_ Hda].
    apply andb_true_iff in Hda as [_ Hda].
    unfold ligar at 1, leerBD at 1 in H. unfold ligar at 1 in H.
    match type of H with
    | context [match ?m w with _ => _ end] =>
        destruct (m w) as [[upd|e] w1] eqn:Hm; [|discriminate H]
    end.
    assert (Hupd : (upd = fun x => x)
                   \/ exists c s, upd = OrdenCompraDetalle.conCantidad c s).
    { destruct (ud_cantidad data) as [c|].
      - destruct (c =? OrdenCompraDetalle.cantidad d).
        + unfold ret in Hm. inversion Hm. now left.
        + destruct (Prisma.relacion _ _ _) as [p|]; [|discriminate Hm].
          destruct (_ && _); [discriminate Hm|].
          unfold ligar at 1 in Hm.
          destruct (Prisma.update _ _ _ w) as [[u|e] w2]; [|discriminate Hm].
          unfold ret in Hm. inversion Hm. right. eauto.
      - unfold ret in Hm. inversion Hm. now left. }
    assert (Hlineas : ordenCompraDetalles (bd w1) = ordenCompraDetalles (bd w)).
    { destruct (ud_cantidad data) as [c|].
      - destruct (c =? OrdenCompraDetalle.cantidad d).
        + unfold ret in Hm. now inversion Hm.
        + destruct (Prisma.relacion _ _ _) as [p|]; [|discriminate Hm].
          destruct (_ && _); [discriminate Hm|].
          unfold ligar at 1 in Hm.
          destruct (Prisma.update _ _ _ w) as [[u|e] w2] eqn:Hu;
            [|discriminate Hm].
          unfold ret in Hm. inversion Hm; subst.
          apply update_efecto in Hu
            as (_ & _ & [(Hr & _)|[(Hr & _)|(x & t & _ & Hb & _)]]);
            try discriminate Hr.
          rewrite Hb. reflexivity.
      - unfold ret in Hm. now inversion Hm. }
    unfold intentar in H.
    destruct (Prisma.update _ _ _ w1) as [[u|e] w2] eqn:Hu.
    + inversion H; subst.
      apply update_efecto in Hu
        as (_ & _ & [(Hr & _)|[(Hr & _)|(x & t & Hr & _ & Hact)]]);
        try discriminate Hr.
      inversion Hr; subst x. simpl in Hact. rewrite Hlineas in Hact.
      destruct (actualizarPrimero_find _ upd _ _ Hd) as (t' & Ht' & _).
      cbn [filas ordenCompraDetalle] in Ht'. rewrite Ht' in Hact. inversion Hact; subst.
      destruct Hupd as [->|(c & s & ->)]; simpl; auto.
    + destruct e; unfold lanzar in H; discriminate H.
  - intros d Hf Hd Hc.
    destruct w as [b r z fs]; simpl in *; subst fs.
    unfold OrderDetailService.update. desplegar. simpl. rewrite Hd. simpl.
    assert (Higual : Prisma.actualizarPrimero
                       (fun x => (OrdenCompraDetalle.id x =? i)
                                 && OrdenCompraDetalle.activo x)
                       (fun x => x) (ordenCompraDetalles b)
                     = Some (d, ordenCompraDetalles b))
      by (apply actualizarPrimero_igual; auto).
    destruct Hc as [->| ->]; [|rewrite Z.eqb_refl]; simpl;
      rewrite Higual; simpl; destruct b; reflexivity.
Qed.

(** X3.  A CLIENTE reads through [OrderDetailService.findById] only lines of
    orders of their own: when the call returns a line to a CLIENTE, the
    order of the line is there and its user is the caller. *)
Theorem findById_solo_lo_propio (i : Z) (currentUser : AuthUser)
  (w w' : Mundo num)
  (r : OrdenCompraDetalle.t num * option (OrdenCompra.t num)
       * option (ProductoDetalle.t num)) :
  OrderDetailService.findById i currentUser w = (Ok (Some r), w') ->
  au_rol currentUser = CLIENTE ->
  OrdenCompraDetalle.id (fst (fst r)) = i
  /\ exists o,
       snd (fst r) = Some o
       /\ OrdenCompra.id o = OrdenCompraDetalle.ordenCompraId (fst (fst r))
       /\ OrdenCompra.usuarioId o = Some (au_id currentUser).
Proof.
  intros H Hrol. unfold OrderDetailService.findById in H. desplegar.
  destruct (find _ (filas ordenCompraDetalle (bd w))) as [d|] eqn:Hd;
    [|discriminate H].
  rewrite Hrol in H. simpl in H.
  pose proof (find_some _ _ Hd) as [_ Hdi].
  apply andb_true_iff in Hdi as [Hdi _]. apply Z.eqb_eq in Hdi.
  destruct (find _ (ordenesCompra (bd w))) as [o|] eqn:Ho; [|discriminate H].
  unfold OrderDetailService.usuarioDe, Prisma.relacion in H.
  destruct (OrdenCompra.usuarioId o) as [k|] eqn:Hk; [|discriminate H].
  destruct (find _ (filas usuario (bd w))) as [u|] eqn:Hu; [|discriminate H].
  destruct (Usuario.id u =? au_id currentUser) eqn:Hid; [|discriminate H].
  inversion H; subst. unfold OrderDetailService.conOrdenYProducto. simpl.
  split; [reflexivity|].
  exists o. unfold Prisma.relacion. simpl. split; [exact Ho|].
  apply find_some in Ho as [_ Ho]. apply Z.eqb_eq in Ho.
  apply find_some in Hu as [_ Hu]. simpl in Hu. apply Z.eqb_eq in Hu.
  apply Z.eqb_eq in Hid. split; congruence.
Qed.

(** X4.  [OrderDetailService.findByOrderId] returns the active lines of the
    order, all of them and no other line, and to a CLIENTE only when the
    order is theirs. *)
Theorem findByOrderId_lineas_y_dueno (ordenCompraId : Z)
  (currentUser : AuthUser) (w w' : Mundo num)
  (rs : list (OrdenCompraDetalle.t num * option (OrdenCompra.t num)
              * option (ProductoDetalle.t num))) :
  OrderDetailService.findByOrderId ordenCompraId currentUser w = (Ok rs, w') ->
  w' = w
  /\ map (fun r => fst (fst r)) rs
     = filter (fun d => (OrdenCompraDetalle.ordenCompraId d =? ordenCompraId)
                        && OrdenCompraDetalle.activo d)
              (ordenCompraDetalles (bd w))
  /\ (au_rol currentUser = CLIENTE ->
      exists o,
        find (fun o => OrdenCompra.id o =? ordenCompraId)
             (ordenesCompra (bd w)) = Some o
        /\ OrdenCompra.usuarioId o = Some (au_id currentUser)).
Proof.
  intros H. unfold OrderDetailService.findByOrderId in H. desplegar.
  destruct (find _ (filas ordenCompra (bd w))) as [o|] eqn:Ho;
    [|discriminate H].
  destruct (OrderDetailService.clienteAjeno currentUser _) eqn:Haj;
    [discriminate H|].
  inversion H; subst. split; [reflexivity|]. split.
  - rewrite map_map. simpl. apply map_id.
  - intros Hrol. exists o. split; [exact Ho|].
    unfold OrderDetailService.clienteAjeno, OrderDetailService.usuarioDe,
      Prisma.relacion in Haj.
    rewrite Hrol in Haj. simpl in Haj.
    destruct (OrdenCompra.usuarioId o) as [k|]; [|discriminate Haj].
    destruct (find _ (usuarios _)) as [u|] eqn:Hu; [|discriminate Haj].
    apply negb_false_iff, Z.eqb_eq in Haj.
    apply find_some in Hu as [_ Hu]. simpl in Hu. apply Z.eqb_eq in Hu.
    congruence.
Qed.

(** X5.  Deleting an active line and reactivating it is a round trip: for a
    line whose variant exists with a stock that is not negative, on a
    database that refuses no statement, [delete] followed by [reactivate]
    returns the line and leaves the world as it was, the stock included. *)
Theorem delete_reactivate_ida_y_vuelta (w : Mundo num) (i : Z)
  (d : OrdenCompraDetalle.t num) (pd : ProductoDetalle.t num) :
  fallas w = [] ->
  find (fun x => OrdenCompraDetalle.id x =? i) (ordenCompraDetalles (bd w))
    = Some d ->
  OrdenCompraDetalle.activo d = true ->
  Prisma.relacion productoDetalle (OrdenCompraDetalle.productoDetalleId d)
    (bd w) = Some pd ->
  0 <= ProductoDetalle.stockActual pd ->
  (OrderDetailService.delete i ;;; OrderDetailService.reactivate i) w
  = (Ok d, w).
Proof.
  intros Hf Hd Hact Hp Hs.
  destruct w as [b r z fs]; simpl in *; subst fs.
  unfold Prisma.relacion in Hp. simpl in Hp.
  pose proof (find_some _ _ Hp) as [_ Hid]. apply Z.eqb_eq in Hid.
  pose proof (find_some _ _ Hd) as [_ Hdi].
  set (c := OrdenCompraDetalle.cantidad d) in *.
  set (sube := fun q : ProductoDetalle.t num =>
                 ProductoDetalle.conStockActual
                   (ProductoDetalle.stockActual q + c) q).
  set (baja := fun q : ProductoDetalle.t num =>
                 ProductoDetalle.conStockActual
                   (ProductoDetalle.stockActual q - c) q).
  set (porId := fun q : ProductoDetalle.t num =>
                  ProductoDetalle.id q =? ProductoDetalle.id pd).
  assert (Hp' : find porId (productoDetalles b) = Some pd)
    by (unfold porId; rewrite Hid; exact Hp).
  destruct (actualizarPrimero_find porId sube (productoDetalles b) pd Hp')
    as (tp & Hup & Hfp & _).
  assert (Hvp : Prisma.actualizarPrimero porId baja tp
                = Some (pd, productoDetalles b)).
  { apply (actualizarPrimero_vuelve porId sube baja _ pd tp Hp' Hup).
    - unfold porId, sube. simpl. apply Z.eqb_refl.
    - unfold baja, sube, ProductoDetalle.conStockActual. simpl.
      destruct pd; simpl. f_equal. lia. }
  destruct (actualizarPrimero_find
              (fun x => OrdenCompraDetalle.id x =? i)
              (OrdenCompraDetalle.conActivo false)
              (ordenCompraDetalles b) d Hd) as (tl & Hul & Hfl & _).
  assert (Hvl : Prisma.actualizarPrimero
                  (fun x => OrdenCompraDetalle.id x =? i)
                  (OrdenCompraDetalle.conActivo true) tl
                = Some (d, ordenCompraDetalles b)).
  { apply (actualizarPrimero_vuelve _ (OrdenCompraDetalle.conActivo false)
             (OrdenCompraDetalle.conActivo true) _ d tl Hd Hul).
    - simpl. exact Hdi.
    - unfold OrdenCompraDetalle.conActivo. destruct d; simpl in *.
      now rewrite Hact. }
  specialize (Hfl Hdi). specialize (Hfp (Z.eqb_refl _)).
  assert (Hfp2 : find (fun q => ProductoDetalle.id q
                                =? OrdenCompraDetalle.productoDetalleId d) tp
                 = Some (sube pd)).
  { rewrite <- Hid. exact Hfp. }
  unfold ligar at 1.
  assert (Hdel : OrderDetailService.delete i (mkMundo b r z [])
                 = (Ok (OrdenCompraDetalle.conActivo false d),
                    mkMundo (conFilas ordenCompraDetalle tl
                               (conFilas productoDetalle tp b)) r z [])).
  { unfold OrderDetailService.delete. desplegar. simpl.
    rewrite Hd, Hact. simpl. rewrite Hp. simpl. fold porId. fold c.
    fold sube. rewrite Hup. simpl. rewrite Hul. reflexivity. }
  rewrite Hdel.
  unfold OrderDetailService.reactivate. desplegar. simpl.
  rewrite Hfl. simpl. rewrite Hfp2. simpl. fold c.
  replace (ProductoDetalle.stockActual pd + c <? c) with false
    by (symmetry; apply Z.ltb_ge; lia).
  simpl. fold porId. fold baja. rewrite Hvp. simpl. rewrite Hvl. simpl.
  destruct b; reflexivity.
Qed.

End LineasDeOrden.

(** ** Orders: lookups and days *)

Section MasOrdenes.
Context {num : Type} {N : Numero num}.

(** What a successful [crear] did, on a database that refuses no statement:
    it priced the lines, wrote the order and its lines, and ran the stock
    loop on the world so written. *)
Lemma filter_ninguno {A : Type} (p : A -> bool) (l : list A) :
  (forall x, In x l -> p x = false) -> filter p l = [].
Proof.
  induction l as [|x l IH]; simpl; intros H; [reflexivity|].
  rewrite (H x (or_introl eq_refl)). apply IH. intros y Hy. apply H. now right.
Qed.

Lemma filter_todos {A : Type} (p : A -> bool) (l : list A) :
  (forall x, In x l -> p x = true) -> filter p l = l.
Proof.
  induction l as [|x l IH]; simpl; intros H; [reflexivity|].
  rewrite (H x (or_introl eq_refl)). f_equal. apply IH. intros y Hy.
  apply H. now right.
Qed.

Lemma mismo_dia (z fecha f : Z) :
  (Fecha.setHours z 0 0 0 0 fecha <=? f)
  && (f <=? Fecha.setHours z 23 59 59 999 fecha)
  = (diaEn z f =? diaEn z fecha).
Proof.
  unfold Fecha.setHours, Fecha.soloFecha, diaEn, Fecha.DIA.
  pose proof (Z.div_mod (f + z) 86400000 ltac:(lia)) as Hd.
  pose proof (Z.mod_pos_bound (f + z) 86400000 ltac:(lia)) as Hm.
  set (q := (fecha + z) / 86400000) in *.
  set (q' := (f + z) / 86400000) in *.
  destruct (Z.eqb_spec q' q) as [He|He];
    [apply andb_true_iff; split; apply Z.leb_le; lia|].
  apply andb_false_iff.
  destruct (Z.leb_spec (q * 86400000 - z + 0 * 3600000 + 0 * 60000
                        + 0 * 1000 + 0) f); [right|now left].
  apply Z.leb_gt. lia.
Qed.

(** X8.  [OrderService.obtenerPorFecha] returns the active orders bought on
    the calendar day, on the clock of the server, of the instant it is
    given, in the order of the table; it writes nothing. *)
Theorem obtenerPorFecha_dia_local (fecha : Z) (w : Mundo num) :
  exists rs,
    OrderService.obtenerPorFecha fecha w = (Ok rs, w)
    /\ map ocd_orden rs
       = filter (fun o => (diaEn (zona w) (OrdenCompra.fechaCompra o)
                           =? diaEn (zona w) fecha)
                          && OrdenCompra.activo o)
                (ordenesCompra (bd w)).
Proof.
  unfold OrderService.obtenerPorFecha, Prisma.findMany, ligar, leerBD,
    zonaLocal, ret.
  eexists. split; [reflexivity|].
  rewrite map_map. cbn [OrderService.conDetalles ocd_orden]. rewrite map_id.
  apply filter_ext. intros o. now rewrite mismo_dia.
Qed.

(** X9.  [OrderService.delete] hides the order and nothing else.  With ids
    that are a primary key and a database that refuses no statement, after
    it [OrderService.findById] no longer finds the order, while the table
    of lines and the table of variants are as they were: the lines stay
    active, the stock is not given back, and
    [OrderDetailService.findByOrderId] still returns to an ADMIN the lines
    of the order with their variants. *)
Theorem Order_delete_deja_las_lineas (i : Z) (w : Mundo num)
  (o : OrdenCompra.t num) (admin : AuthUser) :
  fallas w = [] ->
  NoDup (map OrdenCompra.id (ordenesCompra (bd w))) ->
  find (fun x => OrdenCompra.id x =? i) (ordenesCompra (bd w)) = Some o ->
  au_rol admin = ADMIN ->
  exists w',
    OrderService.delete i w = (Ok (OrdenCompra.conActivo false o), w')
    /\ OrderService.findById i w' = (Ok None, w')
    /\ ordenCompraDetalles (bd w') = ordenCompraDetalles (bd w)
    /\ productoDetalles (bd w') = productoDetalles (bd w)
    /\ exists rs rs',
         OrderDetailService.findByOrderId i admin w = (Ok rs, w)
         /\ OrderDetailService.findByOrderId i admin w' = (Ok rs', w')
         /\ map (fun r => (fst (fst r), snd r)) rs'
            = map (fun r => (fst (fst r), snd r)) rs.
Proof.
  intros Hf Hnd Ho Hrol.
  destruct w as [b rl z fs]. cbn [fallas bd] in *. subst fs.
  destruct (actualizarPrimero_find (fun x => OrdenCompra.id x =? i)
              (OrdenCompra.conActivo false) (ordenesCompra b) o Ho)
    as (t' & Hu & Hfind & Hids).
  pose proof (find_some _ _ Ho) as [_ Hoi].
  specialize (Hfind Hoi).
  specialize (Hids (fun x => eq_refl)).
  change (map OrdenCompra.id t' = map OrdenCompra.id (ordenesCompra b))
    in Hids.
  exists (mkMundo (conFilas ordenCompra t' b) rl z []).
  split.
  { unfold OrderService.delete, Prisma.update, sentencia, ponerBD, ligar,
      leerBD, ret. cbn [fallas bd filas ordenCompra]. rewrite Hu. reflexivity. }
  split.
  { unfold OrderService.findById, Prisma.findUnique, ligar, leerBD, ret.
    cbn [bd filas conFilas ordenCompra ordenesCompra].
    rewrite find_ninguno; [reflexivity|].
    intros x Hx.
    destruct (Z.eqb_spec (OrdenCompra.id x) i) as [Hxi|]; [|reflexivity].
    assert (Hnd' : NoDup (map OrdenCompra.id t')) by now rewrite Hids.
    pose proof (find_por_id OrdenCompra.id i t' x Hnd' Hx Hxi) as Hx'.
    rewrite Hfind in Hx'. inversion Hx'; subst. reflexivity. }
  split; [reflexivity|]. split; [reflexivity|].
  assert (Haj : forall u, OrderDetailService.clienteAjeno admin u = false).
  { intros u. unfold OrderDetailService.clienteAjeno. now rewrite Hrol. }
  eexists. eexists. split; [|split].
  - unfold OrderDetailService.findByOrderId, Prisma.findUnique,
      Prisma.findMany, ligar, leerBD, ret.
    cbn [bd filas ordenCompra]. rewrite Ho, Haj. reflexivity.
  - unfold OrderDetailService.findByOrderId, Prisma.findUnique,
      Prisma.findMany, ligar, leerBD, ret.
    cbn [bd filas conFilas ordenCompra ordenesCompra]. rewrite Hfind, Haj.
    reflexivity.
  - rewrite !map_map. reflexivity.
Qed.

End MasOrdenes.

(** ** Variants: stock, availability and the values on offer *)

Section Variantes.
Context {num : Type} {N : Numero num}.

(** X10.  [ProductDetailService.descontarStock] is all or nothing.  However
    the database answers, when it throws the database is as it was.  With
    no active variant of the id it throws the error of a variant not found
    or inactive; with less stock than the quantity, the error of
    insufficient stock; in both the world is as it was.  Otherwise, with ids
    that are a primary key and a database that refuses no statement, it
    succeeds and the variant is stored with its stock lower by exactly the
    quantity, and not negative, and every other column as it was. *)
Theorem descontarStock_todo_o_nada (i c : Z) (w : Mundo num) :
  (forall e w', ProductDetailService.descontarStock i c w = (Lanza e, w') ->
                bd w' = bd w)
  /\ (find (fun p => (ProductoDetalle.id p =? i) && ProductoDetalle.activo p)
           (productoDetalles (bd w)) = None ->
      ProductDetailService.descontarStock i c w
      = (Lanza (ProductoDetalleNoEncontradoOInactivoConId i), w))
  /\ (forall pd,
        find (fun p => (ProductoDetalle.id p =? i) && ProductoDetalle.activo p)
             (productoDetalles (bd w)) = Some pd ->
        (ProductoDetalle.stockActual pd < c ->
         ProductDetailService.descontarStock i c w
         = (Lanza (StockInsuficienteDetalle i (ProductoDetalle.stockActual pd)
                     c), w))
        /\ (c <= ProductoDetalle.stockActual pd ->
            fallas w = [] ->
            NoDup (map ProductoDetalle.id (productoDetalles (bd w))) ->
            exists pd' w',
              ProductDetailService.descontarStock i c w = (Ok tt, w')
              /\ Prisma.relacion productoDetalle i (bd w') = Some pd'
              /\ ProductoDetalle.stockActual pd'
                 = ProductoDetalle.stockActual pd - c
              /\ 0 <= ProductoDetalle.stockActual pd'
              /\ pd' = ProductoDetalle.mk (ProductoDetalle.id pd)
                         (ProductoDetalle.activo pd)
                         (ProductoDetalle.precioCompra pd)
                         (ProductoDetalle.stockActual pd - c)
                         (ProductoDetalle.cantidad pd)
                         (ProductoDetalle.stockMaximo pd)
                         (ProductoDetalle.color pd) (ProductoDetalle.talle pd)
                         (ProductoDetalle.productoId pd))).
Proof.
  split; [|split].
  - intros e w' H. unfold ProductDetailService.descontarStock, transaccion in H.
    match type of H with
    | (let (_, _) := ?m w in _) = _ => destruct (m w) as [[u|e'] w1]
    end; inversion H; reflexivity.
  - intros Hn. unfold ProductDetailService.descontarStock. desplegar.
    cbn [filas productoDetalle]. rewrite Hn. now destruct w.
  - intros pd Hp. split.
    + intros Hlt. unfold ProductDetailService.descontarStock. desplegar.
      cbn [filas productoDetalle]. rewrite Hp.
      apply Z.ltb_lt in Hlt. rewrite Hlt. now destruct w.
    + intros Hle Hf Hnd.
      destruct w as [b rl z fs]. cbn [bd fallas] in *. subst fs.
      assert (Hpi : find (fun p => ProductoDetalle.id p =? i)
                         (productoDetalles b) = Some pd).
      { apply (find_id_unico ProductoDetalle.id
                 (fun p => (ProductoDetalle.id p =? i)
                           && ProductoDetalle.activo p) i _ pd Hnd);
          [|exact Hp].
        intros x Hx. apply andb_true_iff in Hx as [Hx _].
        now apply Z.eqb_eq. }
      destruct (actualizarPrimero_find
                  (fun p => ProductoDetalle.id p =? i)
                  (ProductoDetalle.conStockActual
                     (ProductoDetalle.stockActual pd - c))
                  (productoDetalles b) pd Hpi) as (t' & Hu & Hfind & _).
      pose proof (find_some _ _ Hpi) as [_ Hid].
      eexists. eexists. split; [|split; [|split; [|split]]].
      * unfold ProductDetailService.descontarStock. desplegar.
        cbn [filas productoDetalle bd fallas]. rewrite Hp.
        apply Z.ltb_ge in Hle. rewrite Hle. cbn [fallas bd]. rewrite Hu.
        reflexivity.
      * unfold Prisma.relacion. cbn [bd filas conFilas productoDetalle
                                     productoDetalles].
        apply Hfind. exact Hid.
      * reflexivity.
      * cbn [ProductoDetalle.conStockActual ProductoDetalle.stockActual]. lia.
      * reflexivity.
Qed.

Lemma find_y_filter {A : Type} (p q : A -> bool) (l : list A) :
  (forall x, p x = q x) ->
  match find p l with Some _ => true | None => false end
  = ProductService.noVacia (filter q l).
Proof.
  intros H. induction l as [|x l IH]; simpl; [reflexivity|].
  rewrite <- H. destruct (p x); [reflexivity|exact IH].
Qed.

(** X11.  [ProductDetailService.estaDisponible] answers [true] exactly when
    an active variant of the product, talle and colour has a stock above
    zero, which is when [filtrarPorOpciones] with those three and a minimum
    stock of one returns some variant. *)
Theorem estaDisponible_hay_stock (productoId : Z) (talle : Talle)
  (color : Color) (w : Mundo num) :
  exists rs,
    ProductDetailService.filtrarPorOpciones (Some productoId) (Some color)
      (Some talle) (Some 1) w = (Ok rs, w)
    /\ ProductDetailService.estaDisponible productoId talle color w
       = (Ok (ProductService.noVacia rs), w)
    /\ (ProductService.noVacia rs = true
        <-> exists pd,
              In pd (productoDetalles (bd w))
              /\ ProductoDetalle.productoId pd = productoId
              /\ ProductoDetalle.talle pd = talle
              /\ ProductoDetalle.color pd = color
              /\ ProductoDetalle.activo pd = true
              /\ 0 < ProductoDetalle.stockActual pd).
Proof.
  unfold ProductDetailService.filtrarPorOpciones,
    ProductDetailService.estaDisponible, ProductDetailService.siDefinido.
  desplegar. cbn [filas productoDetalle].
  eexists. split; [reflexivity|]. split.
  - f_equal. f_equal. apply find_y_filter. intros x.
    destruct (ProductoDetalle.productoId x =? productoId),
      (Talle_beq (ProductoDetalle.talle x) talle),
      (Color_beq (ProductoDetalle.color x) color),
      (ProductoDetalle.activo x); cbn [andb]; try reflexivity.
    destruct (Z.ltb_spec 0 (ProductoDetalle.stockActual x));
      destruct (Z.leb_spec 1 (ProductoDetalle.stockActual x));
      try reflexivity; lia.
  - match goal with
    | |- ProductService.noVacia (filter ?q ?l) = true <-> _ =>
        set (cond := q); set (tabla := l)
    end.
    split.
    + intros H. destruct (filter cond tabla) as [|pd rest] eqn:Hfl;
        [discriminate H|].
      assert (Hin : In pd (filter cond tabla)) by (rewrite Hfl; now left).
      apply filter_In in Hin as [Hin Hc]. unfold cond in Hc.
      repeat (apply andb_true_iff in Hc; destruct Hc as [Hc ?]).
      exists pd. repeat split; auto.
      * now apply Z.eqb_eq.
      * now apply internal_Talle_dec_bl.
      * now apply internal_Color_dec_bl.
      * apply Z.leb_le in H0. lia.
    + intros (pd & Hin & Hp & Ht & Hc & Ha & Hs).
      assert (Hf : In pd (filter cond tabla)).
      { apply filter_In. split; [exact Hin|]. unfold cond.
        rewrite Ha, Hp, Z.eqb_refl. cbn [andb].
        rewrite (internal_Color_dec_lb _ _ Hc),
          (internal_Talle_dec_lb _ _ Ht).
        cbn [andb]. apply Z.leb_le. lia. }
      destruct (filter cond tabla); [contradiction|reflexivity].
Qed.

End Variantes.

(** ** [distinct] *)

Section Distintos.
Context {R K : Type}.
Variable igual : K -> K -> bool.
Variable campo : R -> K.
Hypothesis igual_eq : forall a b, igual a b = true <-> a = b.

Lemma visto_In (k : K) (vistos : list K) :
  existsb (igual k) vistos = true <-> In k vistos.
Proof.
  rewrite existsb_exists. split.
  - intros (x & Hx & He). apply igual_eq in He. now subst.
  - intros H. exists k. split; [exact H|]. now apply igual_eq.
Qed.

Lemma distintoDesde_campos (t : list R) :
  forall vistos k,
    In k (map campo (distintoDesde igual campo vistos t))
    <-> In k (map campo t) /\ ~ In k vistos.
Proof.
  induction t as [|r t IH]; intros vistos k; cbn [distintoDesde map].
  - simpl. tauto.
  - destruct (existsb (igual (campo r)) vistos) eqn:Hv.
    + apply visto_In in Hv. rewrite IH. simpl. split.
      * intros [H1 H2]. auto.
      * intros [[H1|H1] H2]; [subst; contradiction|auto].
    + assert (Hn : ~ In (campo r) vistos).
      { intros H. apply visto_In in H. congruence. }
      cbn [map]. simpl. rewrite IH. simpl. split.
      * intros [<-|[H1 H2]]; [auto|]. split; [auto|]. intros H. apply H2.
        now right.
      * intros [[H1|H1] H2]; [auto|].
        assert (Hd : forall a b : K, a = b \/ a <> b).
        { intros a b. destruct (igual a b) eqn:E;
            [left; now apply igual_eq|right; intros H; apply igual_eq in H;
             congruence]. }
        destruct (Hd (campo r) k) as [He|He]; [auto|].
        right. split; [exact H1|]. intros [H|H]; auto.
Qed.

Lemma distintoDesde_NoDup (t : list R) :
  forall vistos, NoDup (map campo (distintoDesde igual campo vistos t)).
Proof.
  induction t as [|r t IH]; intros vistos; cbn [distintoDesde map].
  - constructor.
  - destruct (existsb (igual (campo r)) vistos); [apply IH|].
    cbn [map]. constructor; [|apply IH].
    intros H. apply distintoDesde_campos in H as [_ H]. apply H. now left.
Qed.

Lemma distintoPor_campos (t : list R) (k : K) :
  In k (map campo (distintoPor igual campo t)) <-> In k (map campo t).
Proof.
  unfold distintoPor. rewrite distintoDesde_campos. simpl. tauto.
Qed.

Lemma distintoPor_NoDup (t : list R) :
  NoDup (map campo (distintoPor igual campo t)).
Proof. apply distintoDesde_NoDup. Qed.

End Distintos.

Lemma Talle_beq_eq (a b : Talle) : Talle_beq a b = true <-> a = b.
Proof.
  split; [apply internal_Talle_dec_bl|apply internal_Talle_dec_lb].
Qed.

Lemma Color_beq_eq (a b : Color) : Color_beq a b = true <-> a = b.
Proof.
  split; [apply internal_Color_dec_bl|apply internal_Color_dec_lb].
Qed.

Section ValoresEnOferta.
Context {num : Type} {N : Numero num}.

(** X12.  [obtenerTallesDisponibles] and [obtenerColoresDisponibles] return,
    each value once, the talles and the colours of the active variants of
    the product: a value is in the list exactly when an active variant of
    the product has it. *)
Theorem talles_y_colores_disponibles (productoId : Z) (w : Mundo num) :
  (exists ts,
     ProductDetailService.obtenerTallesDisponibles productoId w = (Ok ts, w)
     /\ NoDup ts
     /\ forall t, In t ts
          <-> exists pd, In pd (productoDetalles (bd w))
                /\ ProductoDetalle.productoId pd = productoId
                /\ ProductoDetalle.activo pd = true
                /\ ProductoDetalle.talle pd = t)
  /\ (exists cs,
        ProductDetailService.obtenerColoresDisponibles productoId w
        = (Ok cs, w)
        /\ NoDup cs
        /\ forall c, In c cs
             <-> exists pd, In pd (productoDetalles (bd w))
                   /\ ProductoDetalle.productoId pd = productoId
                   /\ ProductoDetalle.activo pd = true
                   /\ ProductoDetalle.color pd = c).
Proof.
  assert (Hsel : forall pd,
            In pd (filter (fun p => (ProductoDetalle.productoId p =? productoId)
                                    && ProductoDetalle.activo p)
                          (productoDetalles (bd w)))
            <-> In pd (productoDetalles (bd w))
                /\ ProductoDetalle.productoId pd = productoId
                /\ ProductoDetalle.activo pd = true).
  { intros pd. rewrite filter_In, andb_true_iff, Z.eqb_eq. tauto. }
  split.
  - unfold ProductDetailService.obtenerTallesDisponibles. desplegar.
    cbn [filas productoDetalle].
    eexists. split; [reflexivity|]. split.
    + apply distintoPor_NoDup. apply Talle_beq_eq.
    + intros t. rewrite (distintoPor_campos _ _ Talle_beq_eq).
      rewrite in_map_iff. split.
      * intros (pd & Ht & Hin). apply Hsel in Hin. exists pd. tauto.
      * intros (pd & Hin & Hp & Ha & Ht). exists pd. split; [exact Ht|].
        apply Hsel. tauto.
  - unfold ProductDetailService.obtenerColoresDisponibles. desplegar.
    cbn [filas productoDetalle].
    eexists. split; [reflexivity|]. split.
    + apply distintoPor_NoDup. apply Color_beq_eq.
    + intros c. rewrite (distintoPor_campos _ _ Color_beq_eq).
      rewrite in_map_iff. split.
      * intros (pd & Ht & Hin). apply Hsel in Hin. exists pd. tauto.
      * intros (pd & Hin & Hp & Ha & Ht). exists pd. split; [exact Ht|].
        apply Hsel. tauto.
Qed.

End ValoresEnOferta.

(** ** Products: promotions, filters and the values on offer *)

Section MasProductos.
Context {num : Type} {N : Numero num}.

(** A [Promise.all] of calls that each return in the world they run in. *)
Lemma todos_en_su_mundo {A B : Type} (f : A -> M num B) (P : A -> B -> Prop)
  (w : Mundo num) :
  (forall a, exists b, f a w = (Ok b, w) /\ P a b) ->
  forall xs, exists ys, todos f xs w = (Ok ys, w) /\ Forall2 P xs ys.
Proof.
  intros Hf. induction xs as [|x xs IH]; simpl.
  - exists []. split; [reflexivity|constructor].
  - destruct (Hf x) as (y & Hy & Hp). destruct IH as (ys & Hys & Hall).
    exists (y :: ys). unfold ligar, ret. rewrite Hy, Hys.
    split; [reflexivity|now constructor].
Qed.

(** The DTO of a product: its columns, and as [precioFinal] what
    [calcularPrecioFinal] returns for it at that instant. *)
Lemma mapearProductoADTO_valor (p : ProductoConRelaciones num)
  (w : Mundo num) :
  exists x dto,
    ProductService.calcularPrecioFinal (ProductService.paraPrecio p) w
    = (Ok x, w)
    /\ ProductService.mapearProductoADTO p w = (Ok dto, w)
    /\ pdto_id dto = Producto.id (pr_producto p)
    /\ pdto_precioOriginal dto = Producto.precioVenta (pr_producto p)
    /\ pdto_precioFinal dto = x
    /\ pdto_tienePromocion dto = Producto.tienePromocion (pr_producto p)
    /\ pdto_sexo dto = Producto.sexo (pr_producto p)
    /\ pdto_denominacion dto = Producto.denominacion (pr_producto p).
Proof.
  destruct (calcularPrecioFinal_total (ProductService.paraPrecio p) w)
    as [x Hx].
  exists x. unfold ProductService.mapearProductoADTO, ligar. rewrite Hx.
  unfold ret. eexists. repeat split.
Qed.

Lemma Forall2_map_igual {A B C : Type} (g : B -> C) (h : A -> C)
  (xs : list A) (ys : list B) :
  Forall2 (fun a b => g b = h a) xs ys -> map g ys = map h xs.
Proof. induction 1; simpl; congruence. Qed.

Lemma insertarOrdenado_permutacion {R : Type} (le : R -> R -> bool) (x : R)
  (t : list R) : Permutation (insertarOrdenado le x t) (x :: t).
Proof.
  induction t as [|y t IH]; simpl; [reflexivity|].
  destruct (le x y); [reflexivity|].
  rewrite IH. apply perm_swap.
Qed.

Lemma ordenarPor_permutacion {R : Type} (le : R -> R -> bool) (t : list R) :
  Permutation (ordenarPor le t) t.
Proof.
  unfold ordenarPor. induction t as [|x t IH]; simpl; [reflexivity|].
  rewrite insertarOrdenado_permutacion. now constructor.
Qed.

(** With no [denominacion] the call is the query and the mapping. *)
Lemma filtrar_sin_denominacion (filters : ProductFilters num) (w : Mundo num) :
  sinDenominacion filters = true ->
  ProductService.filtrarYOrdenarProductos filters w
  = (b <- leerBD ;;
     encontrados <- Prisma.findMany producto
                      (ProductService.whereDe filters b) ;;
     todos ProductService.mapearProductoADTO
       (map (ProductService.conRelaciones b)
            match f_orderBy filters with
            | Some campo =>
                ordenarPor
                  (ProductService.orderByOption campo
                     (f_orderDirection filters)) encontrados
            | None => encontrados
            end)) w.
Proof.
  unfold sinDenominacion, ProductService.filtrarYOrdenarProductos.
  destruct (f_denominacion filters) as [[|c r]|]; intros H;
    [reflexivity|discriminate H|reflexivity].
Qed.

(** X14.  [filtrarYOrdenarProductos] and its filters.  With a
    [denominacion] that is not empty it throws the validation error of the
    client and the world is as it was.  With none, with no [categorias]
    and with names of colours and talles in ASCII, it returns the DTOs of
    the products the [where] clause selects, each once and no other; and
    every DTO it returns has its original price, not the final one, within
    [minPrice] and [maxPrice], and the [sexo] and [tienePromocion] asked
    for. *)
Theorem filtrar_respeta_los_filtros (filters : ProductFilters num)
  (w : Mundo num) :
  (sinDenominacion filters = false ->
   ProductService.filtrarYOrdenarProductos filters w
   = (Lanza ErrorDeValidacion, w))
  /\ (sinDenominacion filters = true ->
      sinCategorias filters = true ->
      nombresAscii (f_colores filters) = true ->
      nombresAscii (f_talles filters) = true ->
      exists rs,
        ProductService.filtrarYOrdenarProductos filters w = (Ok rs, w)
        /\ Permutation (map pdto_id rs)
             (map Producto.id
                (filter (ProductService.whereDe filters (bd w))
                        (productos (bd w))))
        /\ Forall (fun dto =>
               (forall m, f_minPrice filters = Some m ->
                          nmenorIg m (pdto_precioOriginal dto) = true)
               /\ (forall m, f_maxPrice filters = Some m ->
                             nmenorIg (pdto_precioOriginal dto) m = true)
               /\ (forall s, f_sexo filters = Some s -> pdto_sexo dto = s)
               /\ (forall t, f_tienePromocion filters = Some t ->
                             pdto_tienePromocion dto = t))
             rs).
Proof.
  split.
  { unfold sinDenominacion, ProductService.filtrarYOrdenarProductos.
    destruct (f_denominacion filters) as [[|c r]|]; intros H;
      try discriminate H.
    unfold ligar, leerBD, lanzar. reflexivity. }
  intros Hden _ _ _. rewrite (filtrar_sin_denominacion filters w Hden).
  unfold Prisma.findMany.
  unfold ligar at 1 2 3, leerBD, ret at 1. cbn [filas producto].
  set (encontrados := filter _ (productos (bd w))).
  set (ordenados := match f_orderBy filters with
                    | Some campo => _
                    | None => encontrados
                    end).
  assert (Hperm : Permutation ordenados encontrados).
  { unfold ordenados. destruct (f_orderBy filters);
      [apply ordenarPor_permutacion|reflexivity]. }
  destruct (todos_en_su_mundo ProductService.mapearProductoADTO
              (fun a dto =>
                 pdto_id dto = Producto.id (pr_producto a)
                 /\ pdto_precioOriginal dto
                    = Producto.precioVenta (pr_producto a)
                 /\ pdto_tienePromocion dto
                    = Producto.tienePromocion (pr_producto a)
                 /\ pdto_sexo dto = Producto.sexo (pr_producto a)) w)
    with (xs := map (ProductService.conRelaciones (bd w)) ordenados)
    as (rs & Hrs & Hall).
  { intros a. destruct (mapearProductoADTO_valor a w)
      as (x & dto & _ & Hm & H1 & H2 & _ & H3 & H4 & _).
    exists dto. auto 10. }
  exists rs. split; [exact Hrs|]. split.
  - rewrite (Forall2_map_igual pdto_id (fun a => Producto.id (pr_producto a))
               (map (ProductService.conRelaciones (bd w)) ordenados) rs).
    + rewrite map_map. cbn [ProductService.conRelaciones pr_producto].
      now apply Permutation_map.
    + eapply Forall2_impl; [|exact Hall]. intros a b H. apply H.
  - eapply Forall2_derecha
      with (Q := fun a => ProductService.whereDe filters (bd w)
                            (pr_producto a) = true);
      [exact Hall| |].
    + intros a Ha. apply in_map_iff in Ha as (p & <- & Hp).
      cbn [ProductService.conRelaciones pr_producto].
      apply (Permutation_in _ Hperm) in Hp.
      now apply filter_In in Hp as [_ Hp].
    + intros a dto Hw (_ & Hpo & Hpr & Hsx).
      unfold ProductService.whereDe in Hw.
      repeat (apply andb_true_iff in Hw; destruct Hw as [Hw ?]).
      rewrite Hpo, Hpr, Hsx.
      repeat split.
      * intros m Hm. rewrite Hm in *. assumption.
      * intros m Hm. rewrite Hm in *. assumption.
      * intros s Hs. rewrite Hs in *.
        now apply internal_Sexo_dec_bl.
      * intros t Ht. rewrite Ht in *. now apply Bool.eqb_prop.
Qed.

(** X15.  Names in ASCII that are no colour, or no talle, are dropped from
    the filter, and a list of nothing but such names filters nothing: the
    call returns what it returns without that list. *)
Theorem filtrar_ignora_nombres_desconocidos (filters : ProductFilters num)
  (w : Mundo num) :
  (nombresAscii (f_colores filters) = true ->
   ProductService.enumsValidos Color_deTexto (f_colores filters) = [] ->
   ProductService.filtrarYOrdenarProductos filters w
   = ProductService.filtrarYOrdenarProductos (sinColores filters) w)
  /\ (nombresAscii (f_talles filters) = true ->
      ProductService.enumsValidos Talle_deTexto (f_talles filters) = [] ->
      ProductService.filtrarYOrdenarProductos filters w
      = ProductService.filtrarYOrdenarProductos (sinTalles filters) w).
Proof.
  assert (Hgen : forall otros : ProductFilters num,
            f_denominacion otros = f_denominacion filters ->
            f_orderBy otros = f_orderBy filters ->
            f_orderDirection otros = f_orderDirection filters ->
            (forall p, ProductService.whereDe filters (bd w) p
                       = ProductService.whereDe otros (bd w) p) ->
            ProductService.filtrarYOrdenarProductos filters w
            = ProductService.filtrarYOrdenarProductos otros w).
  { intros otros Hn Ho Hd Hw.
    unfold ProductService.filtrarYOrdenarProductos. rewrite Hn.
    destruct (f_denominacion filters) as [[|c r]|];
      unfold Prisma.findMany, ligar, leerBD, ret, lanzar;
      cbv beta iota; rewrite ?Ho, ?Hd;
      rewrite ?(filter_ext _ _ Hw); reflexivity. }
  split; intros _ H; apply Hgen; try reflexivity; intros p;
    unfold ProductService.whereDe,
      ProductService.hasSpecificProductDetailFilters,
      ProductService.productoDetalleSomeFilter;
    cbn [sinColores sinTalles f_denominacion f_categorias f_sexo
         f_tienePromocion f_minPrice f_maxPrice f_colores f_talles
         f_stockMinimo f_orderBy f_orderDirection];
    rewrite H; reflexivity.
Qed.

Lemma insertarOrdenado_HdRel {R : Type} (le : R -> R -> bool) (x y : R)
  (t : list R) :
  le y x = true ->
  HdRel (fun a b => le a b = true) y t ->
  HdRel (fun a b => le a b = true) y (insertarOrdenado le x t).
Proof.
  intros Hyx Ht. destruct t as [|z t]; simpl; [now constructor|].
  destruct (le x z); constructor; [exact Hyx|now inversion Ht].
Qed.

Lemma insertarOrdenado_Sorted {R : Type} (le : R -> R -> bool) (x : R)
  (t : list R) :
  (forall y, In y t -> le x y = true \/ le y x = true) ->
  Sorted (fun a b => le a b = true) t ->
  Sorted (fun a b => le a b = true) (insertarOrdenado le x t).
Proof.
  induction t as [|y t IH]; simpl; intros Htot Hs.
  - repeat constructor.
  - destruct (le x y) eqn:Hxy.
    + constructor; [exact Hs|now constructor].
    + inversion Hs; subst. constructor.
      * apply IH; [intros z Hz; apply Htot; now right|assumption].
      * apply insertarOrdenado_HdRel; [|assumption].
        destruct (Htot y (or_introl eq_refl)); congruence.
Qed.

(** [orderBy] puts the rows in order, when any two of them compare. *)
Lemma ordenarPor_Sorted {R : Type} (le : R -> R -> bool) (t : list R) :
  (forall x y, In x t -> In y t -> le x y = true \/ le y x = true) ->
  Sorted (fun a b => le a b = true) (ordenarPor le t).
Proof.
  unfold ordenarPor. induction t as [|x t IH]; simpl; intros Htot.
  - constructor.
  - apply insertarOrdenado_Sorted.
    + intros y Hy. apply Htot; [now left|right].
      now apply (Permutation_in _ (ordenarPor_permutacion le t)).
    + apply IH. intros a b Ha Hb. apply Htot; now right.
Qed.

Lemma Sorted_Forall2 {A B : Type} (P : A -> B -> Prop)
  (RA : A -> A -> Prop) (RB : B -> B -> Prop) :
  (forall a a' b b', P a b -> P a' b' -> RA a a' -> RB b b') ->
  forall xs ys, Forall2 P xs ys -> Sorted RA xs -> Sorted RB ys.
Proof.
  intros Hrel. induction 1 as [|x y xs ys Hxy Hall IH]; intros Hs;
    [constructor|].
  inversion Hs as [|? ? Hs' Hhd]; subst. constructor; [now apply IH|].
  destruct Hall as [|x' y' xs' ys' Hxy' Hall']; constructor.
  inversion Hhd; subst. eapply Hrel; eauto.
Qed.

Lemma Sorted_map {A B : Type} (f : A -> B) (RB : B -> B -> Prop)
  (l : list A) :
  Sorted (fun a b => RB (f a) (f b)) l -> Sorted RB (map f l).
Proof.
  induction 1 as [|x l Hs IH Hhd]; simpl; constructor; [exact IH|].
  destruct Hhd; simpl; constructor. assumption.
Qed.

(** X16.  With [orderBy] on the id, the price, the [sexo] or
    [tienePromocion], with no [denominacion] and no [categorias] and with
    names of colours and talles in ASCII, [filtrarYOrdenarProductos]
    returns the DTOs in that order, ascending when [orderDirection] is
    missing or ['asc'] and descending when it is ['desc'], provided any
    two prices of the table compare (none is [NaN]). *)
Theorem filtrar_en_el_orden_pedido (filters : ProductFilters num)
  (campo : OrderBy) (w : Mundo num) :
  sinDenominacion filters = true ->
  sinCategorias filters = true ->
  nombresAscii (f_colores filters) = true ->
  nombresAscii (f_talles filters) = true ->
  f_orderBy filters = Some campo ->
  campo <> PorDenominacion ->
  (forall p q, In p (productos (bd w)) -> In q (productos (bd w)) ->
     nmenorIg (Producto.precioVenta p) (Producto.precioVenta q) = true
     \/ nmenorIg (Producto.precioVenta q) (Producto.precioVenta p) = true) ->
  exists rs,
    ProductService.filtrarYOrdenarProductos filters w = (Ok rs, w)
    /\ Sorted (fun a b => enOrden campo (f_orderDirection filters) a b = true)
         rs.
Proof.
  intros Hden _ _ _ Hcampo Hno Hprecios.
  rewrite (filtrar_sin_denominacion filters w Hden). unfold Prisma.findMany.
  unfold ligar at 1 2 3, leerBD, ret at 1. cbn [filas producto].
  rewrite Hcampo.
  set (encontrados := filter _ (productos (bd w))).
  set (le := ProductService.orderByOption campo (f_orderDirection filters)).
  destruct (todos_en_su_mundo ProductService.mapearProductoADTO
              (fun a dto =>
                 pdto_id dto = Producto.id (pr_producto a)
                 /\ pdto_precioOriginal dto
                    = Producto.precioVenta (pr_producto a)
                 /\ pdto_tienePromocion dto
                    = Producto.tienePromocion (pr_producto a)
                 /\ pdto_sexo dto = Producto.sexo (pr_producto a)) w)
    with (xs := map (ProductService.conRelaciones (bd w))
                    (ordenarPor le encontrados))
    as (rs & Hrs & Hall).
  { intros a. destruct (mapearProductoADTO_valor a w)
      as (x & dto & _ & Hm & H1 & H2 & _ & H3 & H4 & _).
    exists dto. auto 10. }
  exists rs. split; [exact Hrs|].
  eapply Sorted_Forall2
    with (RA := fun a a' => le (pr_producto a) (pr_producto a') = true);
    [|exact Hall|].
  - intros a a' b b' (Hi & Hp & Ht & Hs) (Hi' & Hp' & Ht' & Hs') Hle.
    unfold le, ProductService.orderByOption in Hle. unfold enOrden.
    rewrite Hi, Hp, Ht, Hs, Hi', Hp', Ht', Hs'.
    destruct campo; try contradiction; exact Hle.
  - apply Sorted_map. cbn [ProductService.conRelaciones pr_producto].
    apply ordenarPor_Sorted. intros p q Hp Hq.
    apply filter_In in Hp as [Hp _]. apply filter_In in Hq as [Hq _].
    unfold le, ProductService.orderByOption.
    assert (Hz : forall a b : Z, (a <=? b) = true \/ (b <=? a) = true).
    { intros a b. destruct (Z.leb_spec a b); [now left|right].
      apply Z.leb_le. lia. }
    assert (Hb : forall a b : bool, implb a b = true \/ implb b a = true).
    { intros [|] [|]; auto. }
    destruct campo; try contradiction;
      destruct (f_orderDirection filters) as [[|]|]; auto.
Qed.

Lemma Color_ida_y_vuelta (c : Color) : Color_deTexto (Color_aTexto c) = Some c.
Proof. destruct c; reflexivity. Qed.

Lemma Talle_ida_y_vuelta (t : Talle) : Talle_deTexto (Talle_aTexto t) = Some t.
Proof. destruct t; reflexivity. Qed.

Lemma NoDup_map_inversa {A B : Type} (f : A -> B) (g : B -> option A)
  (l : list A) :
  (forall a, g (f a) = Some a) -> NoDup l -> NoDup (map f l).
Proof.
  intros Hg. induction 1 as [|x l Hx Hnd IH]; simpl; constructor; [|exact IH].
  intros Hin. apply in_map_iff in Hin as (y & Hy & Hin).
  assert (Some y = Some x) by (rewrite <- !Hg; now f_equal).
  congruence.
Qed.

(** Any two lists of code units compare. *)
Lemma menorIgual_total (a : list Z) :
  forall b, Texto.menorIgual a b = true \/ Texto.menorIgual b a = true.
Proof.
  induction a as [|x a IH]; intros [|y b]; cbn [Texto.menorIgual]; auto.
  destruct (Z.ltb_spec x y) as [Hxy|Hxy]; [now left|].
  destruct (Z.ltb_spec y x) as [Hyx|Hyx]; [now right|].
  assert (x = y) as -> by lia. rewrite Z.eqb_refl. cbn [orb andb].
  apply IH.
Qed.

Lemma sort_ordena (xs : list string) :
  Sorted (fun a b => Texto.leb a b = true) (ProductService.sort xs)
  /\ Permutation (ProductService.sort xs) xs.
Proof.
  unfold ProductService.sort. split.
  - apply ordenarPor_Sorted. intros x y _ _. apply menorIgual_total.
  - apply ordenarPor_permutacion.
Qed.

(** X17.  The lists of values the shop offers.  [getAllAvailableCategories],
    [getAllAvailableColors] and [getAllAvailableTalles] return, in ascending
    order of their UTF-16 code units and each once, the names of the
    active categories and the names of the colours and of the talles of
    the active variants: a name is in the list exactly when an active row
    has it.  The name of a colour or talle reads back as that value. *)
Theorem valores_en_oferta (w : Mundo num) :
  (exists cs,
     ProductService.getAllAvailableCategories w = (Ok cs, w)
     /\ Sorted (fun a b => Texto.leb a b = true) cs
     /\ NoDup cs
     /\ forall s, In s cs
          <-> exists c, In c (categorias (bd w))
                /\ Categoria.activo c = true
                /\ Categoria.denominacion c = s)
  /\ (exists cs,
        ProductService.getAllAvailableColors w = (Ok cs, w)
        /\ Sorted (fun a b => Texto.leb a b = true) cs
        /\ NoDup cs
        /\ forall s, In s cs
             <-> exists pd, In pd (productoDetalles (bd w))
                   /\ ProductoDetalle.activo pd = true
                   /\ Color_aTexto (ProductoDetalle.color pd) = s)
  /\ (exists ts,
        ProductService.getAllAvailableTalles w = (Ok ts, w)
        /\ Sorted (fun a b => Texto.leb a b = true) ts
        /\ NoDup ts
        /\ forall s, In s ts
             <-> exists pd, In pd (productoDetalles (bd w))
                   /\ ProductoDetalle.activo pd = true
                   /\ Talle_aTexto (ProductoDetalle.talle pd) = s)
  /\ (forall c, Color_deTexto (Color_aTexto c) = Some c)
  /\ (forall t, Talle_deTexto (Talle_aTexto t) = Some t).
Proof.
  split; [|split; [|split; [|split;
    [exact Color_ida_y_vuelta|exact Talle_ida_y_vuelta]]]].
  - unfold ProductService.getAllAvailableCategories. desplegar.
    cbn [filas categoria].
    eexists. split; [reflexivity|].
    match goal with
    | |- Sorted _ (ProductService.sort ?l) /\ _ =>
        destruct (sort_ordena l) as [Hs Hp]
    end.
    split; [exact Hs|]. split.
    + apply (Permutation_NoDup (Permutation_sym Hp)).
      apply distintoPor_NoDup. apply String.eqb_eq.
    + intros s. split.
      * intros Hin. apply (Permutation_in _ Hp) in Hin.
        apply (proj1 (distintoPor_campos _ _ String.eqb_eq _ _)) in Hin.
        apply in_map_iff in Hin as (c & Hc & Hin).
        apply filter_In in Hin as [Hin Ha]. eauto.
      * intros (c & Hin & Ha & Hc).
        apply (Permutation_in _ (Permutation_sym Hp)).
        apply (proj2 (distintoPor_campos _ _ String.eqb_eq _ _)).
        apply in_map_iff. exists c. split; [exact Hc|].
        apply filter_In. auto.
  - unfold ProductService.getAllAvailableColors. desplegar.
    cbn [filas productoDetalle].
    eexists. split; [reflexivity|].
    match goal with
    | |- Sorted _ (ProductService.sort ?l) /\ _ =>
        destruct (sort_ordena l) as [Hs Hp]
    end.
    split; [exact Hs|]. split.
    + apply (Permutation_NoDup (Permutation_sym Hp)).
      apply (NoDup_map_inversa _ Color_deTexto); [apply Color_ida_y_vuelta|].
      apply distintoPor_NoDup. apply Color_beq_eq.
    + intros s. split.
      * intros Hin. apply (Permutation_in _ Hp) in Hin.
        apply in_map_iff in Hin as (c & Hc & Hin).
        apply (proj1 (distintoPor_campos _ _ Color_beq_eq _ _)) in Hin.
        apply in_map_iff in Hin as (pd & Hpd & Hin).
        apply filter_In in Hin as [Hin Ha]. exists pd. subst. auto.
      * intros (pd & Hin & Ha & Hc).
        apply (Permutation_in _ (Permutation_sym Hp)).
        apply in_map_iff. exists (ProductoDetalle.color pd).
        split; [exact Hc|].
        apply (proj2 (distintoPor_campos _ _ Color_beq_eq _ _)).
        apply in_map_iff. exists pd. split; [reflexivity|].
        apply filter_In. auto.
  - unfold ProductService.getAllAvailableTalles. desplegar.
    cbn [filas productoDetalle].
    eexists. split; [reflexivity|].
    match goal with
    | |- Sorted _ (ProductService.sort ?l) /\ _ =>
        destruct (sort_ordena l) as [Hs Hp]
    end.
    split; [exact Hs|]. split.
    + apply (Permutation_NoDup (Permutation_sym Hp)).
      apply (NoDup_map_inversa _ Talle_deTexto); [apply Talle_ida_y_vuelta|].
      apply distintoPor_NoDup. apply Talle_beq_eq.
    + intros s. split.
      * intros Hin. apply (Permutation_in _ Hp) in Hin.
        apply in_map_iff in Hin as (c & Hc & Hin).
        apply (proj1 (distintoPor_campos _ _ Talle_beq_eq _ _)) in Hin.
        apply in_map_iff in Hin as (pd & Hpd & Hin).
        apply filter_In in Hin as [Hin Ha]. exists pd. subst. auto.
      * intros (pd & Hin & Ha & Hc).
        apply (Permutation_in _ (Permutation_sym Hp)).
        apply in_map_iff. exists (ProductoDetalle.talle pd).
        split; [exact Hc|].
        apply (proj2 (distintoPor_campos _ _ Talle_beq_eq _ _)).
        apply in_map_iff. exists pd. split; [reflexivity|].
        apply filter_In. auto.
Qed.

End MasProductos.

(** ** Accounts and their addresses *)

Section MasCuentas.
Context {num : Type}.

Lemma quitarPrimero_permutacion {R : Type} (w : R -> bool) (t : list R) :
  forall x t', Prisma.quitarPrimero w t = Some (x, t') ->
    w x = true /\ Permutation t (x :: t').
Proof.
  induction t as [|y t IH]; simpl; intros x t' H; [discriminate|].
  destruct (w y) eqn:Hy.
  - inversion H; subst. split; [exact Hy|reflexivity].
  - destruct (Prisma.quitarPrimero w t) as [[x' t'']|]; [|discriminate].
    inversion H; subst. destruct (IH x t'' eq_refl) as [Hx Hp].
    split; [exact Hx|]. rewrite Hp. apply perm_swap.
Qed.

Lemma quitarPrimero_hay {R : Type} (w : R -> bool) (t : list R) (r : R) :
  find w t = Some r -> exists x t', Prisma.quitarPrimero w t = Some (x, t').
Proof.
  induction t as [|y t IH]; simpl; [discriminate|].
  destruct (w y); [eauto|]. intros H. destruct (IH H) as (x & t' & ->). eauto.
Qed.

(** X18.  [UserService.removeDireccionFromUser] removes only an address of
    the user.  With ids that are a primary key, however the database
    answers: every address that is not the one of that id owned by that
    user is still in the table afterwards; and when the call succeeds the
    user is active, the address was theirs, and no address of that id is
    left.  An address of that id owned by someone else is refused with the
    error of an address not found for the user, and the world is as it
    was. *)
Theorem removeDireccionFromUser_solo_la_propia (userId direccionId : Z)
  (w w' : Mundo num) (r : Resultado unit) :
  NoDup (map Direccion.id (direcciones (bd w))) ->
  UserService.removeDireccionFromUser userId direccionId w = (r, w') ->
  (forall d, In d (direcciones (bd w)) ->
     ~ (Direccion.id d = direccionId /\ Direccion.usuarioId d = Some userId) ->
     In d (direcciones (bd w')))
  /\ (r = Ok tt ->
      (exists u, In u (usuarios (bd w)) /\ Usuario.id u = userId
                 /\ Usuario.activo u = true)
      /\ (exists d, In d (direcciones (bd w))
                    /\ Direccion.id d = direccionId
                    /\ Direccion.usuarioId d = Some userId)
      /\ ~ In direccionId (map Direccion.id (direcciones (bd w'))))
  /\ (forall d,
        find (fun x => Direccion.id x =? direccionId) (direcciones (bd w))
          = Some d ->
        Direccion.usuarioId d <> Some userId ->
        (r, w') = (Lanza (UsuarioNoEncontradoOInactivo userId), w)
        \/ (r, w') = (Lanza (DireccionNoEncontradaParaUsuario direccionId
                               userId), w)).
Proof.
  intros Hnd H.
  assert (Hdueno : forall d, UserService.esDe userId d = true
                             <-> Direccion.usuarioId d = Some userId).
  { intros d. unfold UserService.esDe.
    destruct (Direccion.usuarioId d) as [k|]; [|split; discriminate].
    rewrite Z.eqb_eq. split; congruence. }
  unfold UserService.removeDireccionFromUser in H.
  unfold Prisma.findUnique at 1, ligar at 1, leerBD at 1, ligar at 1,
    ret at 1 in H.
  destruct (find _ (filas usuario (bd w))) as [u|] eqn:Hu.
  2:{ unfold lanzar in H. inversion H; subst.
      split; [auto|]. split; [discriminate|]. intros d _ _. now left. }
  unfold Prisma.findUnique at 1, ligar at 1, leerBD at 1, ligar at 1,
    ret at 1 in H.
  destruct (find _ (filas direccion (bd w))) as [e|] eqn:He.
  2:{ unfold lanzar in H. inversion H; subst.
      split; [auto|]. split; [discriminate|]. intros d _ _. now right. }
  pose proof (find_some _ _ He) as [Hein Hec].
  apply andb_true_iff in Hec as [Hei Heo].
  apply Z.eqb_eq in Hei. apply Hdueno in Heo.
  pose proof (find_some _ _ Hu) as [Huin Huc].
  apply andb_true_iff in Huc as [Hui Hua]. apply Z.eqb_eq in Hui.
  cbn [filas direccion usuario] in *.
  assert (Hotra : forall d,
            find (fun x => Direccion.id x =? direccionId)
                 (direcciones (bd w)) = Some d ->
            Direccion.usuarioId d <> Some userId -> False).
  { intros d Hd Hno.
    rewrite (find_por_id Direccion.id direccionId _ e Hnd Hein Hei) in Hd.
    congruence. }
  unfold Prisma.delete, sentencia, ponerBD, ligar, leerBD, ret, lanzar in H.
  destruct w as [b rl z fs]. cbn [bd fallas reloj zona] in *.
  assert (Hq : exists x t', Prisma.quitarPrimero
                              (fun d => Direccion.id d =? direccionId)
                              (direcciones b) = Some (x, t')).
  { apply (quitarPrimero_hay _ _ e).
    apply (find_por_id Direccion.id direccionId _ e Hnd Hein Hei). }
  destruct Hq as (x & t' & Hq).
  destruct (quitarPrimero_permutacion _ _ _ _ Hq) as [Hx Hp].
  apply Z.eqb_eq in Hx.
  assert (Hxe : x = e).
  { assert (Hxin : In x (direcciones b))
      by (apply (Permutation_in _ (Permutation_sym Hp)); now left).
    pose proof (find_por_id Direccion.id direccionId _ x Hnd Hxin Hx) as H1.
    pose proof (find_por_id Direccion.id direccionId _ e Hnd Hein Hei) as H2.
    congruence. }
  subst x.
  assert (Hquedan : forall d, In d (direcciones b) ->
            ~ (Direccion.id d = direccionId
               /\ Direccion.usuarioId d = Some userId) -> In d t').
  { intros d Hd Hno. apply (Permutation_in _ Hp) in Hd as [<-|Hd];
      [exfalso; apply Hno; auto|exact Hd]. }
  assert (Hfuera : ~ In direccionId (map Direccion.id t')).
  { apply (Permutation_map Direccion.id) in Hp.
    apply (Permutation_NoDup Hp) in Hnd. cbn [map] in Hnd.
    inversion Hnd; subst. congruence. }
  assert (Htercero : forall d,
            find (fun x => Direccion.id x =? direccionId) (direcciones b)
              = Some d ->
            Direccion.usuarioId d <> Some userId ->
            (r, w') = (Lanza (UsuarioNoEncontradoOInactivo userId),
                       mkMundo b rl z fs)
            \/ (r, w') = (Lanza (DireccionNoEncontradaParaUsuario direccionId
                                   userId), mkMundo b rl z fs)).
  { intros d Hd Hno. exfalso. eapply Hotra; eauto. }
  split; [|split; [|exact Htercero]].
  - destruct fs as [|[|] fs]; cbn [fallas bd filas direccion] in H;
      rewrite ?Hq in H; cbn [fallas bd] in H; inversion H; subst;
      cbn [bd direcciones conFilas direccion]; auto.
  - intros ->.
    destruct fs as [|[|] fs]; cbn [fallas bd filas direccion] in H;
      rewrite ?Hq in H; cbn [fallas bd] in H; inversion H; subst;
      cbn [bd direcciones conFilas direccion];
      (split; [exists u; auto|split; [exists e; auto|exact Hfuera]]).
Qed.



End MasCuentas.

(** ** Places: soft deletes that guard against a repeat *)

Section BajaYAlta.
Context {R : Type}.
Variable ident : R -> Z.

Lemma actualizarPrimero_ninguna (w : R -> bool) (f : R -> R) (t : list R) :
  (forall x, In x t -> w x = false) ->
  Prisma.actualizarPrimero w f t = None.
Proof.
  induction t as [|x t IH]; simpl; intros H; [reflexivity|].
  rewrite (H x (or_introl eq_refl)), IH; [reflexivity|].
  intros y Hy. apply H. now right.
Qed.

(** A soft delete that asks for an active row and a reactivation that asks
    for an inactive one, over a table whose ids are a primary key: the
    second undoes the first, and each refuses to run twice. *)
Lemma baja_y_alta (w1 w2 : R -> bool) (f g : R -> R) (i : Z) :
  (forall x, w1 x = true -> ident x = i) ->
  (forall x, w2 x = true -> ident x = i) ->
  forall t l,
    NoDup (map ident t) -> In l t ->
    w1 l = true -> w2 (f l) = true -> w1 (f l) = false ->
    g (f l) = l ->
    exists t1,
      Prisma.actualizarPrimero w1 f t = Some (f l, t1)
      /\ Prisma.actualizarPrimero w2 g t1 = Some (l, t)
      /\ Prisma.actualizarPrimero w1 f t1 = None
      /\ (w2 l = false -> Prisma.actualizarPrimero w2 g t = None)
      /\ (ident (f l) = i ->
          find (fun x => ident x =? i) t1 = Some (f l)).
Proof.
  intros Hw1 Hw2.
  assert (Hno : forall (w : R -> bool), (forall x, w x = true -> ident x = i) ->
            forall x, ident x <> i -> w x = false).
  { intros w Hw x Hx. destruct (w x) eqn:E; [|reflexivity].
    elim Hx. now apply Hw. }
  induction t as [|x t IH]; intros l Hnd Hin H1 H2 H3 Hg;
    [contradiction|].
  cbn [map] in Hnd. inversion Hnd as [|? ? Hnot Hnd']; subst.
  assert (Hli : ident l = i) by now apply Hw1.
  destruct Hin as [->|Hin].
  - assert (Hresto : forall (w : R -> bool),
              (forall y, w y = true -> ident y = i) ->
              forall y, In y t -> w y = false).
    { intros w Hw y Hy. apply (Hno w Hw). intros Hyi. apply Hnot.
      rewrite Hli, <- Hyi. now apply in_map. }
    exists (f l :: t). simpl. rewrite H1, H2, H3, Hg.
    rewrite (actualizarPrimero_ninguna w1 f t (Hresto w1 Hw1)).
    repeat split; auto.
    + intros ->.
      now rewrite (actualizarPrimero_ninguna w2 g t (Hresto w2 Hw2)).
    + intros ->. now rewrite Z.eqb_refl.
  - assert (Hx : ident x <> i).
    { intros Hxi. apply Hnot. rewrite Hxi, <- Hli. now apply in_map. }
    destruct (IH l Hnd' Hin H1 H2 H3 Hg) as (t1 & E1 & E2 & E3 & E4 & E5).
    exists (x :: t1). simpl.
    rewrite (Hno w1 Hw1 x Hx), (Hno w2 Hw2 x Hx), E1, E2, E3.
    repeat split; auto.
    + intros H4. now rewrite (E4 H4).
    + intros Hfl. destruct (Z.eqb_spec (ident x) i); [contradiction|auto].
Qed.

End BajaYAlta.

Section Lugares.
Context {num : Type}.

(** X20.  [LocationService.delete] and [reactivate] undo each other and
    refuse a repeat.  For an active localidad of the table (ids a primary
    key, a database that answers): deleting it returns the row made
    inactive; deleting it again throws the error of a localidad not found
    or already deactivated and writes nothing; reactivating it then
    returns the row as it was and leaves the world as it was before the
    delete; and reactivating it while it is active throws the error of a
    localidad not found or already active. *)
Theorem Location_delete_reactivate (id : Z) (w : Mundo num) (l : Localidad.t) :
  fallas w = [] ->
  NoDup (map Localidad.id (localidades (bd w))) ->
  In l (localidades (bd w)) ->
  Localidad.id l = id ->
  Localidad.activo l = true ->
  exists w1,
    LocationService.delete id w = (Ok (Localidad.conActivo false l), w1)
    /\ LocationService.delete id w1
       = (Lanza LocalidadNoEncontradaOYaDesactivada, w1)
    /\ LocationService.reactivate id w1 = (Ok l, w)
    /\ LocationService.reactivate id w
       = (Lanza LocalidadNoEncontradaOYaActiva, w).
Proof.
  intros Hfs Hnd Hin Hid Hact.
  destruct w as [b rl z fs]. cbn [bd fallas] in *. subst fs.
  destruct (baja_y_alta Localidad.id
              (fun x => (Localidad.id x =? id) && Localidad.activo x)
              (fun x => (Localidad.id x =? id) && negb (Localidad.activo x))
              (Localidad.conActivo false) (Localidad.conActivo true) id)
    with (t := localidades b) (l := l)
    as (t1 & E1 & E2 & E3 & E4 & _); auto;
    try (intros x Hx; apply andb_true_iff in Hx as [Hx _];
         now apply Z.eqb_eq);
    try (cbn; rewrite ?Hact, ?andb_true_r, ?andb_false_r;
         try reflexivity; now apply Z.eqb_eq).
  { destruct l; cbn in *; subst; reflexivity. }
  rewrite Hact, andb_false_r in E4. specialize (E4 eq_refl).
  exists (mkMundo (conFilas localidad t1 b) rl z []).
  unfold LocationService.delete, LocationService.reactivate, intentar,
    Prisma.update, sentencia, ponerBD, ligar, leerBD, ret, lanzar.
  cbn [bd reloj zona fallas filas localidad conFilas localidades].
  rewrite E1, E2, E3, E4.
  cbn [bd reloj zona fallas filas localidad conFilas localidades].
  destruct b; repeat split; reflexivity.
Qed.

(** X21.  [ProvinceService.delete] and [reactivate] answer [null] instead
    of throwing, and never write twice.  For an active provincia of the
    table (ids a primary key, a database that answers): deleting it
    returns the row made inactive; deleting it again returns [null] and
    writes nothing; reactivating it then returns the row as it was and
    leaves the world as it was before the delete; reactivating it while
    it is active returns it and writes nothing.  For an id that no row
    has, both return [null] and write nothing. *)
Theorem Province_delete_reactivate (id : Z) (w : Mundo num) :
  fallas w = [] ->
  NoDup (map Provincia.id (provincias (bd w))) ->
  (forall p, In p (provincias (bd w)) ->
     Provincia.id p = id -> Provincia.activo p = true ->
     exists w1,
       ProvinceService.delete id w
       = (Ok (Some (Provincia.conActivo false p)), w1)
       /\ ProvinceService.delete id w1 = (Ok None, w1)
       /\ ProvinceService.reactivate id w1 = (Ok (Some p), w)
       /\ ProvinceService.reactivate id w = (Ok (Some p), w))
  /\ ((forall p, In p (provincias (bd w)) -> Provincia.id p <> id) ->
      ProvinceService.delete id w = (Ok None, w)
      /\ ProvinceService.reactivate id w = (Ok None, w)).
Proof.
  intros Hfs Hnd.
  destruct w as [b rl z fs]. cbn [bd fallas] in *. subst fs. split.
  - intros p Hin Hid Hact.
    destruct (baja_y_alta Provincia.id
                (fun x => (Provincia.id x =? id) && Provincia.activo x)
                (fun x => Provincia.id x =? id)
                (Provincia.conActivo false) (Provincia.conActivo true) id)
      with (t := provincias b) (l := p)
      as (t1 & E1 & E2 & E3 & _ & E5); auto;
      try (intros x Hx; try apply andb_true_iff in Hx as [Hx _];
           now apply Z.eqb_eq);
      try (cbn; rewrite ?Hact, ?andb_true_r, ?andb_false_r;
           try reflexivity; now apply Z.eqb_eq).
    { destruct p; cbn in *; subst; reflexivity. }
    specialize (E5 Hid).
    assert (E0 : find (fun x => Provincia.id x =? id) (provincias b) = Some p)
      by (apply (find_por_id Provincia.id); auto).
    exists (mkMundo (conFilas provincia t1 b) rl z []).
    unfold ProvinceService.delete, ProvinceService.reactivate, intentar,
      Prisma.update, Prisma.findUnique, sentencia, ponerBD, ligar, leerBD,
      ret, lanzar.
    cbn [bd reloj zona fallas filas provincia conFilas provincias].
    rewrite E1, E3, E5, E0, Hact.
    cbn [bd reloj zona fallas filas provincia conFilas provincias
         Provincia.activo Provincia.conActivo].
    rewrite E2.
    cbn [bd reloj zona fallas filas provincia conFilas provincias].
    destruct b; repeat split; reflexivity.
  - intros Hno.
    assert (E0 : find (fun x => Provincia.id x =? id) (provincias b) = None).
    { destruct (find _ (provincias b)) as [q|] eqn:E; [|reflexivity].
      apply find_some in E as [Hq E]. apply Z.eqb_eq in E.
      elim (Hno q Hq E). }
    assert (E1 : Prisma.actualizarPrimero
                   (fun x => (Provincia.id x =? id) && Provincia.activo x)
                   (Provincia.conActivo false) (provincias b) = None).
    { apply actualizarPrimero_ninguna. intros x Hx.
      destruct (Z.eqb_spec (Provincia.id x) id) as [E|E]; [|reflexivity].
      elim (Hno x Hx E). }
    unfold ProvinceService.delete, ProvinceService.reactivate, intentar,
      Prisma.update, Prisma.findUnique, sentencia, ponerBD, ligar, leerBD,
      ret, lanzar.
    cbn [bd reloj zona fallas filas provincia conFilas provincias].
    rewrite E0, E1. split; reflexivity.
Qed.

(** X22.  [LocationService.create] checks the provincia and nothing else.
    When a provincia of that id is in the table, active or not, and the
    database answers, the call adds one active localidad with the
    payload's name and provincia (whatever [activo] the payload carries)
    under an id no localidad had; [findById] of that id then returns it
    with its provincia, and [findByProvinciaId] lists it after the ones it
    listed before.  When no provincia has that id, the call throws the
    error of a provincia not found and writes nothing. *)
Theorem Location_create_y_busquedas (data : CreateLocalidadPayload)
  (w : Mundo num) :
  fallas w = [] ->
  (forall p,
     find (fun q => Provincia.id q =? cl_provinciaId data)
          (provincias (bd w)) = Some p ->
     exists l w' antes,
       LocationService.create data w = (Ok l, w')
       /\ Localidad.activo l = true
       /\ Localidad.nombre l = cl_nombre data
       /\ Localidad.provinciaId l = cl_provinciaId data
       /\ ~ In (Localidad.id l) (map Localidad.id (localidades (bd w)))
       /\ bd w' = conFilas localidad (localidades (bd w) ++ [l]) (bd w)
       /\ LocationService.findById (Localidad.id l) w'
          = (Ok (Some (l, Some p)), w')
       /\ LocationService.findByProvinciaId (cl_provinciaId data) w
          = (Ok antes, w)
       /\ LocationService.findByProvinciaId (cl_provinciaId data) w'
          = (Ok (antes ++ [(l, Some p)]), w'))
  /\ (find (fun q => Provincia.id q =? cl_provinciaId data)
           (provincias (bd w)) = None ->
      LocationService.create data w = (Lanza ProvinciaNoEncontrada, w)).
Proof.
  intros Hfs. destruct w as [b rl z fs]. cbn [bd fallas] in *. subst fs.
  split.
  - intros p Hp.
    set (l := Localidad.mk (Prisma.nuevoId (localidades b)) true
                (cl_nombre data) (cl_provinciaId data)).
    assert (Hfresco : forall x, In x (localidades b) ->
              (Localidad.id x =? Localidad.id l) = false).
    { intros x Hx. apply Z.eqb_neq.
      pose proof (nuevoId_mayor (localidades b) x Hx) as Hlt.
      cbn in Hlt |- *. lia. }
    exists l, (mkMundo (conFilas localidad (localidades b ++ [l]) b) rl z []),
      (map (LocationService.conProvincia b)
         (filter (fun x => (Localidad.provinciaId x =? cl_provinciaId data)
                           && Localidad.activo x) (localidades b))).
    unfold LocationService.create, LocationService.findById,
      LocationService.findByProvinciaId, LocationService.conProvincia,
      Prisma.create, Prisma.findUnique, Prisma.findMany, Prisma.relacion,
      sentencia, ponerBD, ligar, leerBD, ret, lanzar.
    cbn [bd reloj zona fallas filas localidad provincia conFilas localidades
         provincias].
    rewrite Hp.
    cbn [bd reloj zona fallas filas localidad provincia conFilas localidades
         provincias].
    fold l. repeat split.
    + intros Hin. apply in_map_iff in Hin as (x & Hx & Hin).
      apply Hfresco in Hin. apply Z.eqb_neq in Hin. congruence.
    + rewrite find_app_nuevo.
      2:{ intros x Hx. now rewrite (Hfresco x Hx). }
      cbn [find Localidad.id Localidad.activo l]. rewrite Z.eqb_refl.
      cbn [andb option_map Localidad.provinciaId ent_id Entidad_Provincia].
      change (Localidad.provinciaId l) with (cl_provinciaId data).
      now rewrite Hp.
    + rewrite filter_app, map_app.
      cbn [filter Localidad.provinciaId Localidad.activo l].
      rewrite Z.eqb_refl.
      cbn [andb map Localidad.provinciaId ent_id Entidad_Provincia].
      change (Localidad.provinciaId l) with (cl_provinciaId data).
      now rewrite Hp.
  - intros Hp.
    unfold LocationService.create, Prisma.findUnique, ligar, leerBD, ret,
      lanzar.
    cbn [bd filas provincia]. now rewrite Hp.
Qed.

End Lugares.

(** ** Categories *)

Section Categorias.
Context {num : Type}.

Lemma actualizarPrimero_filter {R : Type} (w p : R -> bool) (f : R -> R) :
  forall t c r t',
    find w t = Some c -> p c = false -> p (f c) = false ->
    Prisma.actualizarPrimero w f t = Some (r, t') ->
    r = f c /\ filter p t' = filter p t.
Proof.
  induction t as [|x t IH]; simpl; intros c r t' Hc H1 H2 H; [discriminate|].
  destruct (w x).
  - inversion Hc; subst. inversion H; subst. simpl.
    now rewrite H1, H2.
  - destruct (Prisma.actualizarPrimero w f t) as [[r' t'']|] eqn:E;
      [|discriminate].
    inversion H; subst. destruct (IH c r t'' Hc H1 H2 eq_refl) as [-> Hf].
    simpl. now rewrite Hf.
Qed.

Lemma actualizarPrimero_hay {R : Type} (w : R -> bool) (f : R -> R) :
  forall t c, find w t = Some c ->
    exists t', Prisma.actualizarPrimero w f t = Some (f c, t').
Proof.
  induction t as [|x t IH]; simpl; intros c Hc; [discriminate|].
  destruct (w x).
  - inversion Hc; subst. eauto.
  - destruct (IH c Hc) as [t' ->]. eauto.
Qed.

(** X23.  [CategoryService.deleteCategory] deactivates the category and
    none of its subcategories.  For a category that is not its own parent
    and a database that answers, the call returns the row made inactive,
    and [listSubcategories] of that id afterwards lists the same
    subcategories as before, still active, each now shown with the
    deactivated parent. *)
Theorem deleteCategory_deja_las_subcategorias (id : Z) (w : Mundo num)
  (c : Categoria.t) :
  fallas w = [] ->
  find (fun x => Categoria.id x =? id) (categorias (bd w)) = Some c ->
  Categoria.categoriaPadreId c <> Some id ->
  exists w' antes,
    CategoryService.deleteCategory id w = (Ok (Categoria.conActivo false c), w')
    /\ CategoryService.listSubcategories id w = (Ok antes, w)
    /\ CategoryService.listSubcategories id w'
       = (Ok (map (fun s => mkCategoriaConRelaciones (cr_categoria s)
                              (Some (Categoria.conActivo false c)) [])
                  antes), w')
    /\ Forall (fun s => Categoria.activo (cr_categoria s) = true) antes.
Proof.
  intros Hfs Hc Hpadre.
  destruct w as [b rl z fs]. cbn [bd fallas] in *. subst fs.
  set (p := fun x : Categoria.t =>
              match Categoria.categoriaPadreId x with
              | Some i => i =? id
              | None => false
              end && Categoria.activo x).
  assert (Hp : forall a, p (Categoria.conActivo a c) = false).
  { intros a. unfold p. cbn [Categoria.conActivo Categoria.categoriaPadreId].
    destruct (Categoria.categoriaPadreId c) as [i|]; [|reflexivity].
    destruct (Z.eqb_spec i id); [congruence|reflexivity]. }
  assert (Hpc : p c = false).
  { unfold p. destruct (Categoria.categoriaPadreId c) as [i|]; [|reflexivity].
    destruct (Z.eqb_spec i id); [congruence|reflexivity]. }
  destruct (actualizarPrimero_hay (fun x => Categoria.id x =? id)
              (Categoria.conActivo false) _ c Hc) as [t' Ht'].
  destruct (actualizarPrimero_filter _ p _ _ c _ _ Hc Hpc (Hp false) Ht')
    as [_ Hfiltro].
  pose proof (actualizarPrimero_busca Categoria.id id
                (Categoria.conActivo false) (fun x => eq_refl) _ _ _ Ht' id)
    as Hbusca.
  rewrite Z.eqb_refl, Hc in Hbusca. cbn [option_map] in Hbusca.
  exists (mkMundo (conFilas categoria t' b) rl z []),
    (map (fun s => mkCategoriaConRelaciones s
                     (CategoryService.padreDe b s) [])
         (filter p (categorias b))).
  unfold CategoryService.deleteCategory, CategoryService.listSubcategories,
    Prisma.update, Prisma.findMany, sentencia, ponerBD, ligar, leerBD, ret,
    lanzar.
  cbn [bd reloj zona fallas filas categoria conFilas categorias].
  rewrite Ht'.
  cbn [bd reloj zona fallas filas categoria conFilas categorias].
  fold p. rewrite Hfiltro. repeat split.
  - f_equal. f_equal. rewrite map_map. apply map_ext_in.
    intros s Hs. apply filter_In in Hs as [_ Hs]. cbn [cr_categoria].
    f_equal. unfold CategoryService.padreDe, Prisma.relacion.
    unfold p in Hs. apply andb_true_iff in Hs as [Hs _].
    destruct (Categoria.categoriaPadreId s) as [i|]; [|discriminate].
    apply Z.eqb_eq in Hs. subst i.
    cbn [filas categoria categorias ent_id Entidad_Categoria].
    exact Hbusca.
  - apply Forall_map, Forall_forall. intros s Hs.
    apply filter_In in Hs as [_ Hs]. cbn [cr_categoria].
    unfold p in Hs. now apply andb_true_iff in Hs as [_ Hs].
Qed.

End Categorias.

(** ** The statuses of the order line routes *)

Section Estados.

Lemma prefix_sin_cruce (t b : string) :
  t <> EmptyString ->
  forall n a,
    (forall c, In c (list_ascii_of_string t) ->
               ~ In c (list_ascii_of_string n)) ->
    n <> EmptyString ->
    String.prefix n (a ++ t ++ b) = String.prefix n a.
Proof.
  intros Ht. induction n as [|m n IH]; intros a Hn Hne; [congruence|].
  destruct a as [|x a]; cbn [String.append].
  - destruct t as [|c t]; [congruence|]. cbn [String.append String.prefix].
    destruct (Ascii.ascii_dec m c) as [->|_]; [|reflexivity].
    elim (Hn c); cbn; auto.
  - cbn [String.prefix]. destruct (Ascii.ascii_dec m x); [|reflexivity].
    destruct n as [|m' n'].
    + now destruct a, t.
    + apply IH; [|discriminate].
      intros c Hc Hin. apply (Hn c Hc). cbn. right. exact Hin.
Qed.

(** A needle that shares no character with [t] is found in [a ++ t ++ b]
    only inside [a] or inside [b]. *)
Lemma includes_sin_cruce (a t b n : string) :
  t <> EmptyString -> n <> EmptyString ->
  (forall c, In c (list_ascii_of_string t) ->
             ~ In c (list_ascii_of_string n)) ->
  Texto.includes (a ++ t ++ b) n = Texto.includes a n || Texto.includes b n.
Proof.
  intros Ht Hn Hc.
  assert (Hcola : forall u, (forall c, In c (list_ascii_of_string u) ->
                                       ~ In c (list_ascii_of_string n)) ->
            Texto.includes (u ++ b) n = Texto.includes b n).
  { induction u as [|c u IH]; intros Hu; [reflexivity|].
    cbn [String.append Texto.includes].
    rewrite IH by (intros c' Hc'; apply Hu; cbn; auto).
    destruct n as [|m n]; [congruence|]. cbn [String.prefix].
    destruct (Ascii.ascii_dec m c) as [->|_]; [|reflexivity].
    elim (Hu c); cbn; auto. }
  induction a as [|x a IH].
  - cbn [String.append]. rewrite (Hcola t Hc).
    destruct n; [congruence|]. reflexivity.
  - change ((String x a ++ t ++ b)%string)
      with (String x (a ++ t ++ b)%string).
    cbn [Texto.includes].
    change (String x (a ++ t ++ b)%string)
      with ((String x a ++ t ++ b)%string).
    rewrite (prefix_sin_cruce t b Ht n (String x a) Hc Hn), IH.
    now rewrite orb_assoc.
Qed.

Lemma texto_numerico (z : Z) :
  texto z <> EmptyString
  /\ forall c, In c (list_ascii_of_string (texto z)) ->
               In c (list_ascii_of_string "0123456789-").
Proof.
  assert (Hu : forall u c,
            In c (list_ascii_of_string (NilEmpty.string_of_uint u)) ->
            In c (list_ascii_of_string "0123456789-")).
  { induction u; cbn [NilEmpty.string_of_uint list_ascii_of_string In];
      intros c Hc; try contradiction;
      (destruct Hc as [<-|Hc]; [cbn; tauto|now apply IHu]). }
  assert (Hn : forall u,
            NilZero.string_of_uint u <> EmptyString
            /\ forall c,
                 In c (list_ascii_of_string (NilZero.string_of_uint u)) ->
                 In c (list_ascii_of_string "0123456789-")).
  { intros u. split; [destruct u; discriminate|].
    intros c. destruct u; try apply Hu. cbn. tauto. }
  unfold texto, NilZero.string_of_int.
  destruct (Z.to_int z) as [u|u].
  - apply Hn.
  - split; [discriminate|].
    intros c [<-|Hc]; [cbn; tauto|exact (proj2 (Hn u) c Hc)].
Qed.

(** A message with two numbers in it holds a needle free of digits and
    signs only in its fixed parts. *)
Lemma includes_con_numeros (a b c n : string) (d s : Z) :
  match n with EmptyString => false | String _ _ => true end
  && forallb (fun x => negb (existsb (Ascii.eqb x)
                               (list_ascii_of_string "0123456789-")))
             (list_ascii_of_string n) = true ->
  Texto.includes (a ++ texto d ++ b ++ texto s ++ c) n
  = Texto.includes a n || Texto.includes b n || Texto.includes c n.
Proof.
  intros H. apply andb_true_iff in H as [Hne Hsin].
  assert (Hn : n <> EmptyString) by (destruct n; [discriminate|congruence]).
  assert (Hlibre : forall z x, In x (list_ascii_of_string (texto z)) ->
                               ~ In x (list_ascii_of_string n)).
  { intros z x Hx Hin. apply (proj2 (texto_numerico z)) in Hx.
    rewrite forallb_forall in Hsin. specialize (Hsin x Hin).
    apply negb_true_iff in Hsin.
    assert (existsb (Ascii.eqb x) (list_ascii_of_string "0123456789-")
            = true); [|congruence].
    apply existsb_exists. exists x. split; [exact Hx|apply Ascii.eqb_refl]. }
  rewrite (includes_sin_cruce a (texto d) _ n
             (proj1 (texto_numerico d)) Hn (Hlibre d)).
  rewrite (includes_sin_cruce b (texto s) _ n
             (proj1 (texto_numerico s)) Hn (Hlibre s)).
  now rewrite orb_assoc.
Qed.

(** X24.  The status [handleOrderDetailError] answers for each error of
    [OrderDetailService].  A missing line, variant of a line or row of an
    update is 404, and so are the refusals to deactivate or reactivate a
    line twice, whose messages also match the later test for 400.  A
    missing order, a caller who may not see or add to the order, and
    stock that does not cover the request, whatever the quantities, are
    all 500. *)
Theorem handleOrderDetailError_estados :
  (forall e,
     In e [DetalleProductoNoEncontrado; DetalleNoEncontradoONoActivo;
           ProductoDetalleAsociadoNoEncontrado;
           DetalleNoEncontradoParaActualizar;
           DetalleNoEncontradoOYaDesactivado; DetalleNoEncontradoOYaActivo;
           RegistroNoEncontrado] ->
     OrderDetailRoutes.handleOrderDetailError e = 404)
  /\ (forall e,
        In e [OrdenCompraNoEncontrada; NoAutorizadoCrearDetalle;
              NoAutorizadoVerDetalle; NoAutorizadoVerDetallesOrden] ->
        OrderDetailRoutes.handleOrderDetailError e = 500)
  /\ (forall disponible pedido,
        OrderDetailRoutes.handleOrderDetailError
          (StockInsuficienteProducto disponible pedido) = 500
        /\ OrderDetailRoutes.handleOrderDetailError
             (StockInsuficienteAumentar disponible pedido) = 500
        /\ OrderDetailRoutes.handleOrderDetailError
             (StockInsuficienteReactivar disponible pedido) = 500).
Proof.
  split; [|split].
  - intros e He. cbn [In] in He.
    repeat (destruct He as [<-|He]; [vm_compute; reflexivity|]).
    contradiction.
  - intros e He. cbn [In] in He.
    repeat (destruct He as [<-|He]; [vm_compute; reflexivity|]).
    contradiction.
  - intros d s. unfold OrderDetailRoutes.handleOrderDetailError.
    cbn [mensaje].
    rewrite !includes_con_numeros by (vm_compute; reflexivity).
    repeat split; vm_compute; reflexivity.
Qed.

End Estados.

(** ** The addresses a user lists *)

Section DireccionesListadas.
Context {num : Type}.

Lemma quitarPrimero_filter {R : Type} (ident : R -> Z) (i : Z) :
  forall t x t',
    NoDup (map ident t) ->
    Prisma.quitarPrimero (fun y => ident y =? i) t = Some (x, t') ->
    ident x = i /\ In x t
    /\ t' = filter (fun y => negb (ident y =? i)) t.
Proof.
  induction t as [|y t IH]; simpl; intros x t' Hnd H; [discriminate|].
  inversion Hnd as [|? ? Hnot Hnd']; subst.
  destruct (Z.eqb_spec (ident y) i) as [Hy|Hy].
  - inversion H; subst. cbn [negb]. repeat split; auto.
    symmetry. apply filter_todos. intros z Hz. apply negb_true_iff, Z.eqb_neq.
    intros Hzi. apply Hnot. rewrite <- Hzi. now apply in_map.
  - destruct (Prisma.quitarPrimero _ t) as [[x' t'']|]; [|discriminate].
    inversion H; subst. destruct (IH x t'' Hnd' eq_refl) as (Hx & Hin & ->).
    cbn [negb]. repeat split; auto.
Qed.

Lemma map_filter_filter {A B : Type} (f : A -> B) (g : B -> A)
  (o p : A -> bool) (t : list A) :
  (forall a, g (f a) = a) ->
  map f (filter o (filter p t))
  = filter (fun y => p (g y)) (map f (filter o t)).
Proof.
  intros Hg. induction t as [|a t IH]; [reflexivity|].
  cbn [filter]. destruct (p a) eqn:Hp, (o a) eqn:Ho;
    cbn [filter map]; rewrite ?Ho, ?Hg, ?Hp; cbn [map]; now rewrite ?IH.
Qed.

Lemma todos_mapToDomicilioDTO_filter (p : Direccion.t -> bool)
  (q : AddressResponseDTO -> bool) :
  (forall d l, q (mkAddressResponseDTO (Direccion.id d) (Direccion.calle d)
                    (Direccion.numero d) (Direccion.piso d)
                    (Direccion.departamento d) (Direccion.cp d) l) = p d) ->
  forall xs (w w2 : Mundo num) ys w1,
    todos UserService.mapToDomicilioDTO xs w = (Ok ys, w1) ->
    todos UserService.mapToDomicilioDTO
      (filter (fun x => p (dl_direccion x)) xs) w2
    = (Ok (filter q ys), w2)
    /\ map ardto_id ys = map (fun x => Direccion.id (dl_direccion x)) xs.
Proof.
  intros Hpq. induction xs as [|x xs IH]; intros w w2 ys w1 H.
  - cbn in H. inversion H; subst. split; reflexivity.
  - cbn [todos] in H. unfold ligar, ret in H.
    unfold UserService.mapToDomicilioDTO at 1 in H.
    destruct (dl_localidad x) as [[l pr]|] eqn:Hl;
      [|unfold lanzar in H; discriminate].
    unfold ret in H.
    destruct (todos UserService.mapToDomicilioDTO xs w) as [[zs|e] w3] eqn:Hxs;
      [|discriminate].
    inversion H; subst. destruct (IH w w2 zs w1 Hxs) as [Hf Hm].
    cbn [filter map ardto_id]. rewrite Hpq, Hm. split; [|reflexivity].
    destruct (p (dl_direccion x)); [|exact Hf].
    cbn [todos]. unfold ligar, ret.
    unfold UserService.mapToDomicilioDTO at 1. rewrite Hl. unfold ret.
    now rewrite Hf.
Qed.

(** X25.  After [UserService.removeDireccionFromUser] succeeds,
    [getDireccionesByUserId] lists what it listed before without the
    address of that id, which it did list.  Ids are a primary key; the
    list before is the one the call returns in the world before the
    removal. *)
Theorem getDireccionesByUserId_tras_remove (userId direccionId : Z)
  (w w' w0 : Mundo num) (antes : list AddressResponseDTO) :
  NoDup (map Direccion.id (direcciones (bd w))) ->
  UserService.getDireccionesByUserId userId w = (Ok antes, w0) ->
  UserService.removeDireccionFromUser userId direccionId w = (Ok tt, w') ->
  UserService.getDireccionesByUserId userId w'
  = (Ok (filter (fun a => negb (ardto_id a =? direccionId)) antes), w')
  /\ In direccionId (map ardto_id antes).
Proof.
  intros Hnd Hantes H.
  unfold UserService.removeDireccionFromUser, UserService.getDireccionesByUserId
    in *.
  unfold Prisma.findUnique at 1, ligar at 1, leerBD at 1, ligar at 1,
    ret at 1 in H.
  unfold Prisma.findUnique at 1, ligar at 1, leerBD at 1, ligar at 1,
    ret at 1 in Hantes.
  unfold Prisma.findUnique at 1, ligar at 1, leerBD at 1, ligar at 1,
    ret at 1.
  destruct (find _ (filas usuario (bd w))) as [u|] eqn:Hu;
    [|unfold lanzar in H; discriminate].
  unfold Prisma.findUnique at 1, ligar at 1, leerBD at 1, ligar at 1,
    ret at 1 in H.
  destruct (find _ (filas direccion (bd w))) as [e|] eqn:He;
    [|unfold lanzar in H; discriminate].
  unfold Prisma.delete, sentencia, ponerBD, ligar, leerBD, ret, lanzar in H.
  unfold ligar at 1, leerBD at 1 in Hantes.
  destruct w as [b rl z fs].
  cbn [bd fallas reloj zona filas direccion usuario] in *.
  assert (Hq : exists x t',
            Prisma.quitarPrimero (fun d => Direccion.id d =? direccionId)
              (direcciones b) = Some (x, t')
            /\ bd w' = conFilas direccion t' b).
  { destruct fs as [|[|] fs]; cbn [bd fallas] in H; try discriminate;
      destruct (Prisma.quitarPrimero _ (direcciones b)) as [[x t']|] eqn:Hq;
      try discriminate; inversion H; subst; eauto. }
  destruct Hq as (x & t' & Hq & Hw').
  destruct (quitarPrimero_filter Direccion.id direccionId _ _ _ Hnd Hq)
    as (Hx & Hxin & Ht').
  destruct w' as [b' rl' z' fs']. cbn [bd] in *. subst b'.
  change (usuarios (conFilas direccion t' b)) with (usuarios b).
  rewrite Hu. unfold ligar at 1, leerBD at 1. cbn [bd].
  set (p := fun d : Direccion.t => negb (Direccion.id d =? direccionId)).
  assert (Hlista :
    ur_direcciones (UserService.conRelaciones (conFilas direccion t' b) u)
    = filter (fun y => p (dl_direccion y))
        (ur_direcciones (UserService.conRelaciones b u))).
  { unfold UserService.conRelaciones. cbn [ur_direcciones].
    cbn [conFilas direccion direcciones]. rewrite Ht'. fold p.
    rewrite <- (map_filter_filter (UserService.conLocalidad b) dl_direccion)
      by reflexivity.
    apply map_ext. reflexivity. }
  rewrite Hlista.
  destruct (todos_mapToDomicilioDTO_filter p
              (fun a => negb (ardto_id a =? direccionId))
              (fun d l => eq_refl) _ _
              (mkMundo (conFilas direccion t' b) rl' z' fs') _ _ Hantes)
    as [Hdespues Hids].
  split; [exact Hdespues|].
  rewrite Hids. unfold UserService.conRelaciones. cbn [ur_direcciones].
  rewrite map_map. cbn [dl_direccion UserService.conLocalidad].
  apply find_some in He as [Hein Hec].
  apply andb_true_iff in Hec as [Hei Heo]. apply Z.eqb_eq in Hei.
  apply find_some in Hu as [_ Huc].
  apply andb_true_iff in Huc as [Hui _]. apply Z.eqb_eq in Hui.
  apply in_map_iff. exists e. split; [exact Hei|].
  apply filter_In. split; [exact Hein|].
  unfold UserService.esDe in Heo.
  destruct (Direccion.usuarioId e); [|discriminate]. now rewrite Hui.
Qed.

End DireccionesListadas.

(** ** What a deactivated account leaves free *)

Section CuentaDesactivada.
Context {num : Type}.

Lemma actualizarPrimero_filas {R : Type} (ident : R -> Z) (i : Z)
  (f : R -> R) :
  forall t r t',
    NoDup (map ident t) ->
    Prisma.actualizarPrimero (fun x => ident x =? i) f t = Some (r, t') ->
    forall x, In x t' -> x = r \/ (In x t /\ ident x <> i).
Proof.
  induction t as [|y t IH]; simpl; intros r t' Hnd H x Hx; [discriminate|].
  inversion Hnd as [|? ? Hnot Hnd']; subst.
  destruct (Z.eqb_spec (ident y) i) as [Hy|Hy].
  - inversion H; subst. destruct Hx as [<-|Hx]; [now left|].
    right. split; [now right|]. intros Hxi. apply Hnot.
    rewrite <- Hxi. now apply in_map.
  - destruct (Prisma.actualizarPrimero _ f t) as [[r' t'']|] eqn:E;
      [|discriminate].
    inversion H; subst. destruct Hx as [<-|Hx]; [right; auto|].
    destruct (IH r t'' Hnd' eq_refl x Hx) as [->|[Hin Hne]]; auto.
Qed.

(** X26.  [UserService.deactivateAccount] frees the email and the user
    name of the account.  For an active account of the table (ids a
    primary key, emails and the anonymised values unique, a database that
    answers): the call returns the row made inactive under the anonymised
    email and user name, with [fechaBaja] at the time of the call;
    afterwards no row, active or not, has the old email, the old user
    name is free too, the account is found by id only when inactive ones
    are asked for, and a second deactivation is refused as already
    done. *)
Theorem deactivateAccount_libera (uniqueId otroId n : string) (userId : Z)
  (w : Mundo num) (u : Usuario.t) :
  fallas w = [] ->
  NoDup (map Usuario.id (usuarios (bd w))) ->
  In u (usuarios (bd w)) ->
  Usuario.id u = userId ->
  Usuario.activo u = true ->
  Usuario.userName u = Some n ->
  (forall v, In v (usuarios (bd w)) ->
     Usuario.email v
       <> ("deactivated_" ++ uniqueId ++ "@ecommerce.com")%string
     /\ Usuario.userName v <> Some ("deactivated_" ++ uniqueId)%string) ->
  (forall v, In v (usuarios (bd w)) -> Usuario.id v <> userId ->
     Usuario.email v <> Usuario.email u /\ Usuario.userName v <> Some n) ->
  exists r w',
    UserService.deactivateAccount uniqueId userId w = (Ok r, w')
    /\ ur_usuario r
       = Usuario.conCuenta false
           ("deactivated_" ++ uniqueId ++ "@ecommerce.com")%string
           (Some ("deactivated_" ++ uniqueId)%string)
           (Some (reloj w)) (reloj w) u
    /\ (forall includeInactive,
          UserService.findByEmail (Usuario.email u) includeInactive w'
          = (Ok None, w')
          /\ UserService.findByUserName n includeInactive w' = (Ok None, w'))
    /\ UserService.countByEmailAndActivoTrue (Usuario.email u) w' = (Ok 0, w')
    /\ UserService.findById userId false w' = (Ok None, w')
    /\ UserService.findById userId true w' = (Ok (Some r), w')
    /\ UserService.deactivateAccount otroId userId w'
       = (Lanza CuentaYaDesactivada, w').
Proof.
  intros Hfs Hnd Hin Hid Hact Hn Hnuevo Hunico.
  destruct w as [b rl z fs]. cbn [bd reloj zona fallas] in *. subst fs.
  set (f := Usuario.conCuenta false
              ("deactivated_" ++ uniqueId ++ "@ecommerce.com")%string
              (Some ("deactivated_" ++ uniqueId)%string) (Some rl) rl).
  pose proof (find_por_id Usuario.id userId _ u Hnd Hin Hid) as Hu.
  destruct (actualizarPrimero_hay (fun x => Usuario.id x =? userId) f _ u Hu)
    as [t1 Ht1].
  pose proof (actualizarPrimero_busca Usuario.id userId f (fun x => eq_refl)
                _ _ _ Ht1 userId) as Hbusca.
  rewrite Z.eqb_refl, Hu in Hbusca. cbn [option_map] in Hbusca.
  pose proof (actualizarPrimero_filas Usuario.id userId f _ _ _ Hnd Ht1)
    as Hfilas.
  assert (Hninguno : forall p : Usuario.t -> bool,
            p (f u) = false ->
            (forall v, In v (usuarios b) -> Usuario.id v <> userId ->
                       p v = false) ->
            find p t1 = None /\ filter p t1 = []).
  { intros p Hpf Hpv.
    assert (Hall : forall x, In x t1 -> p x = false).
    { intros x Hx. destruct (Hfilas x Hx) as [->|[Hx1 Hx2]]; auto. }
    split; [|now apply filter_ninguno].
    destruct (find p t1) as [x|] eqn:E; [|reflexivity].
    apply find_some in E as [Hx E]. rewrite (Hall x Hx) in E. discriminate. }
  destruct (Hnuevo u Hin) as [Hue Hun].
  exists (UserService.conRelaciones (conFilas usuario t1 b) (f u)),
         (mkMundo (conFilas usuario t1 b) rl z []).
  unfold UserService.deactivateAccount, UserService.findByEmail,
    UserService.findByUserName, UserService.countByEmailAndActivoTrue,
    UserService.findById.
  unfold Prisma.findUnique, Prisma.findFirst, Prisma.count, Prisma.update,
    sentencia, ponerBD, ligar, leerBD, ahora, ret, lanzar.
  cbn [bd reloj zona fallas filas usuario conFilas usuarios].
  rewrite Hu, Hact. cbn [negb]. cbv beta iota. 
  cbn [bd reloj zona fallas filas usuario conFilas usuarios]. fold f. rewrite Ht1.
  cbn [bd reloj zona fallas filas usuario conFilas usuarios].
  rewrite Hbusca.
  replace (Usuario.activo (f u)) with false by reflexivity. cbn [negb].
  split; [reflexivity|]. split; [reflexivity|]. split; [|split; [|split]].
  - intros inc.
    destruct (Hninguno (fun x => String.eqb (Usuario.email x) (Usuario.email u)
                                 && UserService.soloActivos inc x))
      as [-> _].
    { cbn [f Usuario.conCuenta Usuario.email].
      destruct (String.eqb_spec
                  ("deactivated_" ++ uniqueId ++ "@ecommerce.com")%string
                  (Usuario.email u)) as [E|E]; [congruence|reflexivity]. }
    { intros v Hv Hne. destruct (Hunico v Hv Hne) as [E _].
      destruct (String.eqb_spec (Usuario.email v) (Usuario.email u));
        [contradiction|reflexivity]. }
    destruct (Hninguno (fun x => UserService.tieneUserName n x
                                 && UserService.soloActivos inc x))
      as [-> _].
    { unfold UserService.tieneUserName.
      cbn [f Usuario.conCuenta Usuario.userName].
      destruct (String.eqb_spec ("deactivated_" ++ uniqueId)%string n)
        as [E|E]; [|reflexivity].
      rewrite Hn in Hun. congruence. }
    { intros v Hv Hne. destruct (Hunico v Hv Hne) as [_ E].
      unfold UserService.tieneUserName.
      destruct (Usuario.userName v) as [m|]; [|reflexivity].
      destruct (String.eqb_spec m n); [congruence|reflexivity]. }
    split; reflexivity.
  - destruct (Hninguno (fun x => String.eqb (Usuario.email x) (Usuario.email u)
                                 && Usuario.activo x))
      as [_ ->]; [apply andb_false_r| |reflexivity].
    intros v Hv Hne. destruct (Hunico v Hv Hne) as [E _].
    destruct (String.eqb_spec (Usuario.email v) (Usuario.email u));
      [contradiction|reflexivity].
  - destruct (Hninguno (fun x => (Usuario.id x =? userId)
                                 && UserService.soloActivos false x))
      as [-> _]; [apply andb_false_r| |reflexivity].
    intros v Hv Hne. destruct (Z.eqb_spec (Usuario.id v) userId);
      [contradiction|reflexivity].
  - split; [|reflexivity].
    replace (find (fun x => (Usuario.id x =? userId)
                            && UserService.soloActivos true x) t1)
      with (Some (f u)); [reflexivity|].
    rewrite <- Hbusca. clear. induction t1 as [|x t IH]; [reflexivity|].
    cbn [find UserService.soloActivos]. rewrite andb_true_r.
    destruct (Usuario.id x =? userId); [reflexivity|exact IH].
Qed.

End CuentaDesactivada.

(** ** The properties at work on the shop *)


Lemma findById_solo_lo_propio_testigo :
  exists o,
    Some Ejemplo.ordenDeAna = Some o
    /\ OrdenCompra.usuarioId o = Some (au_id Ejemplo.comoAna).
Proof.
  assert (H : OrderDetailService.findById 1 Ejemplo.comoAna Ejemplo.mediodia
              = (Ok (Some (Ejemplo.lineaM, Some Ejemplo.ordenDeAna,
                           Some Ejemplo.camisaM)), Ejemplo.mediodia))
    by (vm_compute; reflexivity).
  destruct (findById_solo_lo_propio 1 Ejemplo.comoAna Ejemplo.mediodia
              Ejemplo.mediodia _ H eq_refl) as (_ & o & Ho & _ & Hu).
  exists o. split; [exact Ho|exact Hu].
Defined.

Lemma findByOrderId_lineas_y_dueno_testigo :
  exists o,
    find (fun o => OrdenCompra.id o =? 1)
         (ordenesCompra (bd Ejemplo.mediodia)) = Some o
    /\ OrdenCompra.usuarioId o = Some (au_id Ejemplo.comoAna).
Proof.
  assert (H : OrderDetailService.findByOrderId 1 Ejemplo.comoAna
                Ejemplo.mediodia
              = (Ok [(Ejemplo.lineaM, Some Ejemplo.ordenDeAna,
                      Some Ejemplo.camisaM);
                     (Ejemplo.lineaL, Some Ejemplo.ordenDeAna,
                      Some Ejemplo.camisaL)], Ejemplo.mediodia))
    by (vm_compute; reflexivity).
  exact (proj2 (proj2 (findByOrderId_lineas_y_dueno 1 Ejemplo.comoAna
                         Ejemplo.mediodia Ejemplo.mediodia _ H)) eq_refl).
Defined.

Lemma delete_reactivate_ida_y_vuelta_testigo :
  (OrderDetailService.delete 1 ;;; OrderDetailService.reactivate 1)
    Ejemplo.mediodia
  = (Ok Ejemplo.lineaM, Ejemplo.mediodia).
Proof.
  apply (delete_reactivate_ida_y_vuelta Ejemplo.mediodia 1 Ejemplo.lineaM
           Ejemplo.camisaM eq_refl eq_refl eq_refl eq_refl).
  vm_compute. discriminate.
Defined.

Lemma Order_delete_deja_las_lineas_testigo :
  exists w',
    OrderService.delete 1 Ejemplo.mediodia
    = (Ok (OrdenCompra.conActivo false Ejemplo.ordenDeAna), w')
    /\ OrderService.findById 1 w' = (Ok None, w')
    /\ ordenCompraDetalles (bd w') = ordenCompraDetalles (bd Ejemplo.mediodia).
Proof.
  assert (Hnd : NoDup (map OrdenCompra.id
                         (ordenesCompra (bd Ejemplo.mediodia)))).
  { repeat constructor; simpl; intuition discriminate. }
  destruct (Order_delete_deja_las_lineas 1 Ejemplo.mediodia
              Ejemplo.ordenDeAna Ejemplo.comoDora eq_refl Hnd eq_refl
              eq_refl) as (w' & H1 & H2 & H3 & _).
  exists w'. repeat split; assumption.
Defined.

Lemma filtrar_en_el_orden_pedido_testigo :
  exists rs,
    ProductService.filtrarYOrdenarProductos Surtido.porPrecio
      Surtido.mediodia = (Ok rs, Surtido.mediodia)
    /\ Sorted (fun a b => enOrden PorPrecioVenta (Some Desc) a b = true) rs.
Proof.
  apply (filtrar_en_el_orden_pedido Surtido.porPrecio PorPrecioVenta
           Surtido.mediodia eq_refl eq_refl eq_refl eq_refl eq_refl).
  - discriminate.
  - intros p q [<-|[<-|[]]] [<-|[<-|[]]];
      solve [left; vm_compute; reflexivity | right; vm_compute; reflexivity].
Defined.

Lemma removeDireccionFromUser_solo_la_propia_testigo :
  exists w',
    UserService.removeDireccionFromUser 1 1 Ejemplo.mediodia = (Ok tt, w')
    /\ In Ejemplo.oficina (direcciones (bd w'))
    /\ ~ In 1 (map Direccion.id (direcciones (bd w'))).
Proof.
  assert (Hnd : NoDup (map Direccion.id (direcciones (bd Ejemplo.mediodia)))).
  { repeat constructor; simpl; intuition discriminate. }
  assert (H : UserService.removeDireccionFromUser 1 1 Ejemplo.mediodia
              = (Ok tt,
                 snd (UserService.removeDireccionFromUser 1 1
                        Ejemplo.mediodia)))
    by (vm_compute; reflexivity).
  destruct (removeDireccionFromUser_solo_la_propia 1 1 Ejemplo.mediodia _ _
              Hnd H) as (Hquedan & Hexito & _).
  eexists. split; [exact H|]. split.
  - apply Hquedan; [right; now left|].
    intros [Hid _]. discriminate Hid.
  - exact (proj2 (proj2 (Hexito eq_refl))).
Defined.


Lemma Location_delete_reactivate_testigo :
  exists w1,
    LocationService.delete 1 Ejemplo.mediodia
    = (Ok (Localidad.conActivo false Ejemplo.maipu), w1)
    /\ LocationService.delete 1 w1
       = (Lanza LocalidadNoEncontradaOYaDesactivada, w1)
    /\ LocationService.reactivate 1 w1 = (Ok Ejemplo.maipu, Ejemplo.mediodia)
    /\ LocationService.reactivate 1 Ejemplo.mediodia
       = (Lanza LocalidadNoEncontradaOYaActiva, Ejemplo.mediodia).
Proof.
  apply (Location_delete_reactivate 1 Ejemplo.mediodia Ejemplo.maipu eq_refl).
  - repeat constructor; simpl; intuition discriminate.
  - now left.
  - reflexivity.
  - reflexivity.
Defined.

Lemma Province_delete_reactivate_testigo :
  exists w1,
    ProvinceService.delete 1 Ejemplo.mediodia
    = (Ok (Some (Provincia.conActivo false Ejemplo.mendoza)), w1)
    /\ ProvinceService.delete 1 w1 = (Ok None, w1)
    /\ ProvinceService.reactivate 1 w1
       = (Ok (Some Ejemplo.mendoza), Ejemplo.mediodia)
    /\ ProvinceService.reactivate 1 Ejemplo.mediodia
       = (Ok (Some Ejemplo.mendoza), Ejemplo.mediodia).
Proof.
  assert (Hnd : NoDup (map Provincia.id (provincias (bd Ejemplo.mediodia)))).
  { repeat constructor; simpl; intuition discriminate. }
  exact (proj1 (Province_delete_reactivate 1 Ejemplo.mediodia eq_refl Hnd)
           Ejemplo.mendoza (or_introl eq_refl) eq_refl eq_refl).
Defined.

Lemma Location_create_y_busquedas_testigo :
  exists l w',
    LocationService.create Surtido.godoyCruz Ejemplo.mediodia = (Ok l, w')
    /\ Localidad.activo l = true
    /\ LocationService.findById (Localidad.id l) w'
       = (Ok (Some (l, Some Ejemplo.mendoza)), w').
Proof.
  destruct (proj1 (Location_create_y_busquedas Surtido.godoyCruz
                     Ejemplo.mediodia eq_refl) Ejemplo.mendoza eq_refl)
    as (l & w' & antes & H & Ha & _ & _ & _ & _ & Hf & _).
  exists l, w'. repeat split; assumption.
Defined.

Lemma deleteCategory_deja_las_subcategorias_testigo :
  exists w' antes,
    CategoryService.deleteCategory 1 Surtido.mediodia
    = (Ok (Categoria.conActivo false Surtido.ropa), w')
    /\ CategoryService.listSubcategories 1 Surtido.mediodia
       = (Ok antes, Surtido.mediodia)
    /\ CategoryService.listSubcategories 1 w'
       = (Ok (map (fun s => mkCategoriaConRelaciones (cr_categoria s)
                              (Some (Categoria.conActivo false Surtido.ropa))
                              [])
                  antes), w').
Proof.
  destruct (deleteCategory_deja_las_subcategorias 1 Surtido.mediodia
              Surtido.ropa eq_refl eq_refl ltac:(discriminate))
    as (w' & antes & H1 & H2 & H3 & _).
  exists w', antes. repeat split; assumption.
Defined.

Lemma getDireccionesByUserId_tras_remove_testigo :
  exists antes w',
    UserService.getDireccionesByUserId 1 Ejemplo.mediodia
    = (Ok antes, Ejemplo.mediodia)
    /\ UserService.removeDireccionFromUser 1 1 Ejemplo.mediodia = (Ok tt, w')
    /\ UserService.getDireccionesByUserId 1 w'
       = (Ok (filter (fun a => negb (ardto_id a =? 1)) antes), w')
    /\ map ardto_id antes = [1; 2].
Proof.
  assert (Hnd : NoDup (map Direccion.id (direcciones (bd Ejemplo.mediodia)))).
  { repeat constructor; simpl; intuition discriminate. }
  assert (Hantes : UserService.getDireccionesByUserId 1 Ejemplo.mediodia
                   = (Ok match fst (UserService.getDireccionesByUserId 1
                                      Ejemplo.mediodia) with
                         | Ok r => r
                         | Lanza _ => []
                         end, Ejemplo.mediodia))
    by (vm_compute; reflexivity).
  assert (H : UserService.removeDireccionFromUser 1 1 Ejemplo.mediodia
              = (Ok tt,
                 snd (UserService.removeDireccionFromUser 1 1
                        Ejemplo.mediodia)))
    by (vm_compute; reflexivity).
  eexists. eexists. split; [exact Hantes|]. split; [exact H|]. split.
  - exact (proj1 (getDireccionesByUserId_tras_remove 1 1 Ejemplo.mediodia
                    _ _ _ Hnd Hantes H)).
  - vm_compute. reflexivity.
Defined.

Lemma deactivateAccount_libera_testigo :
  exists r w',
    UserService.deactivateAccount "9c" 1 Ejemplo.mediodia = (Ok r, w')
    /\ UserService.findByEmail "ana@example.com" true w' = (Ok None, w')
    /\ UserService.findById 1 false w' = (Ok None, w')
    /\ UserService.deactivateAccount "5d" 1 w'
       = (Lanza CuentaYaDesactivada, w').
Proof.
  assert (Hnd : NoDup (map Usuario.id (usuarios (bd Ejemplo.mediodia)))).
  { repeat constructor; simpl; intuition discriminate. }
  destruct (deactivateAccount_libera "9c" "5d" "ana" 1 Ejemplo.mediodia
              Ejemplo.ana eq_refl Hnd (or_introl eq_refl) eq_refl eq_refl
              eq_refl)
    as (r & w' & H & _ & Hlibre & _ & Hid & _ & Hotra).
  - intros v [<-|[<-|[<-|[<-|[]]]]]; split; discriminate.
  - intros v [<-|[<-|[<-|[<-|[]]]]] Hne; try (split; discriminate).
    elim Hne. reflexivity.
  - exists r, w'. split; [exact H|]. split; [exact (proj1 (Hlibre true))|].
    split; assumption.
Defined.

Lemma descontarStock_todo_o_nada_testigo :
  exists w',
    ProductDetailService.descontarStock 1 2 Ejemplo.mediodia = (Ok tt, w')
    /\ Prisma.relacion productoDetalle 1 (bd w')
       = Some (ProductoDetalle.mk 1 true 10%float 3 5 50 AZUL M_ 1).
Proof.
  assert (Hnd : NoDup (map ProductoDetalle.id
                         (productoDetalles (bd Ejemplo.mediodia)))).
  { repeat constructor; simpl; intuition discriminate. }
  destruct (proj2 (proj2 (proj2 (descontarStock_todo_o_nada 1 2
                                   Ejemplo.mediodia))
                     Ejemplo.camisaM eq_refl)
              ltac:(vm_compute; discriminate) eq_refl Hnd)
    as (pd' & w' & H & Hr & _ & _ & Hpd).
  exists w'. split; [exact H|]. rewrite Hr, Hpd. reflexivity.
Defined.

Lemma filtrar_respeta_los_filtros_testigo :
  ProductService.filtrarYOrdenarProductos Surtido.conNombre Surtido.mediodia
  = (Lanza ErrorDeValidacion, Surtido.mediodia)
  /\ exists rs,
       ProductService.filtrarYOrdenarProductos Surtido.hastaNoventa
         Surtido.mediodia = (Ok rs, Surtido.mediodia)
       /\ Permutation (map pdto_id rs) [2].
Proof.
  split.
  - exact (proj1 (filtrar_respeta_los_filtros Surtido.conNombre
                    Surtido.mediodia) eq_refl).
  - destruct (proj2 (filtrar_respeta_los_filtros Surtido.hastaNoventa
                       Surtido.mediodia) eq_refl eq_refl eq_refl eq_refl)
      as (rs & H & Hp & _).
    exists rs. split; [exact H|exact Hp].
Defined.

Lemma filtrar_ignora_nombres_desconocidos_testigo :
  ProductService.filtrarYOrdenarProductos Surtido.turquesa Surtido.mediodia
  = ProductService.filtrarYOrdenarProductos (sinColores Surtido.turquesa)
      Surtido.mediodia.
Proof.
  exact (proj1 (filtrar_ignora_nombres_desconocidos Surtido.turquesa
                  Surtido.mediodia) eq_refl eq_refl).
Defined.
